(** * The card state model of the rules engine (DrawCard), the Creeping
    Oblivion play ability and the deck-list projection.

    The JavaScript sources are embedded shallowly.  Card and player objects
    live in a store indexed by references, because methods receive other card
    objects as arguments and mutate them in place.  Calls made on the game and
    player collaborators (raiseEvent, addHonor, addMessage, ...) are recorded,
    in order, in a call log. *)

From Stdlib Require Import ZArith List String Ascii Bool Lia.
From stdpp Require Import base functions option list strings gmap.

Local Open Scope string_scope.
Local Open Scope Z_scope.

(** ** JavaScript values *)

Module JS.

(** A JavaScript number.  The engine only ever handles integers (skill,
    fate, glory) and the NaN that [parseInt] produces on text that is not a
    number, so a number is an integer or NaN. *)
Inductive number : Type :=
| Num (z : Z)
| NaN.

(** The values a card-data field or a method result can hold. *)
Inductive value : Type :=
| Undefined
| Null
| Boolean (b : bool)
| Number (n : number).

#[global] Instance number_eq_dec : EqDecision number.
Proof. solve_decision. Defined.

#[global] Instance value_eq_dec : EqDecision value.
Proof. solve_decision. Defined.

(** [a + b] on numbers. *)
Definition add (a b : number) : number :=
  match a, b with
  | Num x, Num y => Num (x + y)
  | _, _ => NaN
  end.

(** [a - b] on numbers. *)
Definition sub (a b : number) : number :=
  match a, b with
  | Num x, Num y => Num (x - y)
  | _, _ => NaN
  end.

(** [a > b] on numbers: any comparison with NaN is false. *)
Definition gt (a b : number) : bool :=
  match a, b with
  | Num x, Num y => y <? x
  | _, _ => false
  end.

(** [Math.max(a, b)]: NaN as soon as one argument is NaN. *)
Definition Math_max (a b : number) : number :=
  match a, b with
  | Num x, Num y => Num (Z.max x y)
  | _, _ => NaN
  end.

(** The conversion the arithmetic operators apply to their operands. *)
Definition ToNumber (v : value) : number :=
  match v with
  | Undefined => NaN
  | Null => Num 0
  | Boolean true => Num 1
  | Boolean false => Num 0
  | Number n => n
  end.

(** Truthiness, as tested by [if], [&&], [||] and [!]. *)
Definition truthy (v : value) : bool :=
  match v with
  | Undefined | Null => false
  | Boolean b => b
  | Number (Num z) => negb (z =? 0)
  | Number NaN => false
  end.

(** [a || b]. *)
Definition or (a b : value) : value := if truthy a then a else b.

(** [a !== null && a !== undefined]. *)
Definition is_present (v : value) : bool :=
  match v with
  | Undefined | Null => false
  | _ => true
  end.

(** *** [parseInt] with no radix argument *)

Definition isWhiteSpace (a : ascii) : bool :=
  match nat_of_ascii a with
  | 9%nat | 10%nat | 11%nat | 12%nat | 13%nat | 32%nat => true
  | _ => false
  end.

Fixpoint trimStart (s : string) : string :=
  match s with
  | String a s' => if isWhiteSpace a then trimStart s' else s
  | EmptyString => s
  end.

(** The value of a character as a digit: 0-9, then a-z or A-Z for 10-35. *)
Definition digitValue (a : ascii) : option Z :=
  let n := Z.of_nat (nat_of_ascii a) in
  if (48 <=? n) && (n <=? 57) then Some (n - 48)
  else if (97 <=? n) && (n <=? 122) then Some (n - 87)
  else if (65 <=? n) && (n <=? 90) then Some (n - 55)
  else None.

(** Reads the longest prefix of [s] made of digits of radix [R]; [acc] is
    [None] as long as no digit was read. *)
Fixpoint readDigits (R : Z) (s : string) (acc : option Z) : option Z :=
  match s with
  | String a s' =>
      match digitValue a with
      | Some d =>
          if d <? R then readDigits R s' (Some (default 0 acc * R + d))
          else acc
      | None => acc
      end
  | EmptyString => acc
  end.

Definition parseInt (input : string) : number :=
  let trimmed := trimStart input in
  let '(sign, unsigned) :=
    match trimmed with
    | String "-"%char r => (-1, r)
    | String "+"%char r => (1, r)
    | _ => (1, trimmed)
    end in
  let '(R, body) :=
    match unsigned with
    | String "0"%char (String "x"%char r) => (16, r)
    | String "0"%char (String "X"%char r) => (16, r)
    | _ => (10, unsigned)
    end in
  match readDigits R body None with
  | Some m => Num (sign * m)
  | None => NaN
  end.

End JS.

Import JS.

(** ** The data model *)

(** Cards and players are objects: they are named by a reference into the
    store. *)
Definition card_ref := nat.
Definition player_ref := nat.

(** The printed attributes of a card, one row of the immutable card-data
    table.  The numeric attributes are numbers, or null/undefined when the
    card has no such stat; the bonuses an attachment gives are kept as text
    ("+2", "-1") and read with [parseInt], which first turns whatever it is
    given into text, so that an absent bonus reads like "undefined". *)
Record CardData : Type := {
  cost : value;
  cardData_glory : value;
  military : value;
  political : value;
  military_bonus : string;
  political_bonus : string;
  side : string
}.

Record ConflictOptions : Type := {
  doesNotBowAs_attacker : bool;
  doesNotBowAs_defender : bool;
  cannotParticipateIn_military : bool;
  cannotParticipateIn_political : bool
}.

Record Player : Type := {
  phase : string;
  discard : list card_ref;
  opponent : option player_ref
}.

(** A field of an event payload or an argument of a message. *)
Inductive Arg : Type :=
| ACard (c : card_ref)
| APlayer (p : player_ref)
| ANum (z : Z)
| ABool (b : bool).

(** The calls a card makes on its collaborators, the game and its controller.
    Their code is outside the card class; a call is recorded with its
    arguments.  A payload is an object literal: its fields in order. *)
Inductive Call : Type :=
| raiseEvent (name : string) (payload : list (string * Arg))
| addHonor (player : player_ref) (amount : Z)
| addFate (player : player_ref) (amount : Z)
| addMessage (format : string) (args : list Arg)
| drawCardsToHand (player : player_ref) (numCards : Z).

#[global] Instance Arg_eq_dec : EqDecision Arg.
Proof. solve_decision. Defined.

#[global] Instance Call_eq_dec : EqDecision Call.
Proof. solve_decision. Defined.

Declare Scope method_scope.

Section DrawCard.

(** The state a card inherits from the base card class, the keyword query
    of that class and its part of [leavesPlay] are not defined in the card
    class; they are parameters of the model. *)
Variable BaseCard : Type.
Variable hasKeyword : BaseCard -> string -> bool.
Variable BaseCard_leavesPlay : BaseCard -> BaseCard.

Record DrawCard : Type := {
  base : BaseCard;
  cardData : CardData;
  controller : player_ref;
  attachments : list card_ref;
  parent : option card_ref;
  militarySkillModifier : Z;
  politicalSkillModifier : Z;
  fate : Z;
  glory : value;
  contributesToFavor : bool;
  bowed : bool;
  saved : bool;
  inConflict : bool;
  isConflict : bool;
  isDynasty : bool;
  isHonored : bool;
  isDishonored : bool;
  readysDuringReadying : bool;
  conflictOptions : ConflictOptions;
  stealthLimit : Z;
  covert : value;
  covertTarget : option card_ref;
  stealth : value;
  new : value
}.

(** Assignments to one field of a card. *)
Definition set_base (v : BaseCard) (c : DrawCard) : DrawCard :=
  {| base := v; cardData := cardData c; controller := controller c;
     attachments := attachments c; parent := parent c;
     militarySkillModifier := militarySkillModifier c;
     politicalSkillModifier := politicalSkillModifier c; fate := fate c;
     glory := glory c; contributesToFavor := contributesToFavor c;
     bowed := bowed c; saved := saved c; inConflict := inConflict c;
     isConflict := isConflict c; isDynasty := isDynasty c;
     isHonored := isHonored c; isDishonored := isDishonored c;
     readysDuringReadying := readysDuringReadying c;
     conflictOptions := conflictOptions c; stealthLimit := stealthLimit c;
     covert := covert c; covertTarget := covertTarget c;
     stealth := stealth c; new := new c |}.

Definition set_militarySkillModifier (v : Z) (c : DrawCard) : DrawCard :=
  {| base := base c; cardData := cardData c; controller := controller c;
     attachments := attachments c; parent := parent c;
     militarySkillModifier := v;
     politicalSkillModifier := politicalSkillModifier c; fate := fate c;
     glory := glory c; contributesToFavor := contributesToFavor c;
     bowed := bowed c; saved := saved c; inConflict := inConflict c;
     isConflict := isConflict c; isDynasty := isDynasty c;
     isHonored := isHonored c; isDishonored := isDishonored c;
     readysDuringReadying := readysDuringReadying c;
     conflictOptions := conflictOptions c; stealthLimit := stealthLimit c;
     covert := covert c; covertTarget := covertTarget c;
     stealth := stealth c; new := new c |}.

Definition set_politicalSkillModifier (v : Z) (c : DrawCard) : DrawCard :=
  {| base := base c; cardData := cardData c; controller := controller c;
     attachments := attachments c; parent := parent c;
     militarySkillModifier := militarySkillModifier c;
     politicalSkillModifier := v; fate := fate c; glory := glory c;
     contributesToFavor := contributesToFavor c; bowed := bowed c;
     saved := saved c; inConflict := inConflict c;
     isConflict := isConflict c; isDynasty := isDynasty c;
     isHonored := isHonored c; isDishonored := isDishonored c;
     readysDuringReadying := readysDuringReadying c;
     conflictOptions := conflictOptions c; stealthLimit := stealthLimit c;
     covert := covert c; covertTarget := covertTarget c;
     stealth := stealth c; new := new c |}.

Definition set_fate (v : Z) (c : DrawCard) : DrawCard :=
  {| base := base c; cardData := cardData c; controller := controller c;
     attachments := attachments c; parent := parent c;
     militarySkillModifier := militarySkillModifier c;
     politicalSkillModifier := politicalSkillModifier c; fate := v;
     glory := glory c; contributesToFavor := contributesToFavor c;
     bowed := bowed c; saved := saved c; inConflict := inConflict c;
     isConflict := isConflict c; isDynasty := isDynasty c;
     isHonored := isHonored c; isDishonored := isDishonored c;
     readysDuringReadying := readysDuringReadying c;
     conflictOptions := conflictOptions c; stealthLimit := stealthLimit c;
     covert := covert c; covertTarget := covertTarget c;
     stealth := stealth c; new := new c |}.

Definition set_bowed (v : bool) (c : DrawCard) : DrawCard :=
  {| base := base c; cardData := cardData c; controller := controller c;
     attachments := attachments c; parent := parent c;
     militarySkillModifier := militarySkillModifier c;
     politicalSkillModifier := politicalSkillModifier c; fate := fate c;
     glory := glory c; contributesToFavor := contributesToFavor c;
     bowed := v; saved := saved c; inConflict := inConflict c;
     isConflict := isConflict c; isDynasty := isDynasty c;
     isHonored := isHonored c; isDishonored := isDishonored c;
     readysDuringReadying := readysDuringReadying c;
     conflictOptions := conflictOptions c; stealthLimit := stealthLimit c;
     covert := covert c; covertTarget := covertTarget c;
     stealth := stealth c; new := new c |}.

Definition set_inConflict (v : bool) (c : DrawCard) : DrawCard :=
  {| base := base c; cardData := cardData c; controller := controller c;
     attachments := attachments c; parent := parent c;
     militarySkillModifier := militarySkillModifier c;
     politicalSkillModifier := politicalSkillModifier c; fate := fate c;
     glory := glory c; contributesToFavor := contributesToFavor c;
     bowed := bowed c; saved := saved c; inConflict := v;
     isConflict := isConflict c; isDynasty := isDynasty c;
     isHonored := isHonored c; isDishonored := isDishonored c;
     readysDuringReadying := readysDuringReadying c;
     conflictOptions := conflictOptions c; stealthLimit := stealthLimit c;
     covert := covert c; covertTarget := covertTarget c;
     stealth := stealth c; new := new c |}.

Definition set_isHonored (v : bool) (c : DrawCard) : DrawCard :=
  {| base := base c; cardData := cardData c; controller := controller c;
     attachments := attachments c; parent := parent c;
     militarySkillModifier := militarySkillModifier c;
     politicalSkillModifier := politicalSkillModifier c; fate := fate c;
     glory := glory c; contributesToFavor := contributesToFavor c;
     bowed := bowed c; saved := saved c; inConflict := inConflict c;
     isConflict := isConflict c; isDynasty := isDynasty c; isHonored := v;
     isDishonored := isDishonored c;
     readysDuringReadying := readysDuringReadying c;
     conflictOptions := conflictOptions c; stealthLimit := stealthLimit c;
     covert := covert c; covertTarget := covertTarget c;
     stealth := stealth c; new := new c |}.

Definition set_isDishonored (v : bool) (c : DrawCard) : DrawCard :=
  {| base := base c; cardData := cardData c; controller := controller c;
     attachments := attachments c; parent := parent c;
     militarySkillModifier := militarySkillModifier c;
     politicalSkillModifier := politicalSkillModifier c; fate := fate c;
     glory := glory c; contributesToFavor := contributesToFavor c;
     bowed := bowed c; saved := saved c; inConflict := inConflict c;
     isConflict := isConflict c; isDynasty := isDynasty c;
     isHonored := isHonored c; isDishonored := v;
     readysDuringReadying := readysDuringReadying c;
     conflictOptions := conflictOptions c; stealthLimit := stealthLimit c;
     covert := covert c; covertTarget := covertTarget c;
     stealth := stealth c; new := new c |}.

Definition set_covert (v : value) (c : DrawCard) : DrawCard :=
  {| base := base c; cardData := cardData c; controller := controller c;
     attachments := attachments c; parent := parent c;
     militarySkillModifier := militarySkillModifier c;
     politicalSkillModifier := politicalSkillModifier c; fate := fate c;
     glory := glory c; contributesToFavor := contributesToFavor c;
     bowed := bowed c; saved := saved c; inConflict := inConflict c;
     isConflict := isConflict c; isDynasty := isDynasty c;
     isHonored := isHonored c; isDishonored := isDishonored c;
     readysDuringReadying := readysDuringReadying c;
     conflictOptions := conflictOptions c; stealthLimit := stealthLimit c;
     covert := v; covertTarget := covertTarget c; stealth := stealth c;
     new := new c |}.

Definition set_covertTarget (v : option card_ref) (c : DrawCard) : DrawCard :=
  {| base := base c; cardData := cardData c; controller := controller c;
     attachments := attachments c; parent := parent c;
     militarySkillModifier := militarySkillModifier c;
     politicalSkillModifier := politicalSkillModifier c; fate := fate c;
     glory := glory c; contributesToFavor := contributesToFavor c;
     bowed := bowed c; saved := saved c; inConflict := inConflict c;
     isConflict := isConflict c; isDynasty := isDynasty c;
     isHonored := isHonored c; isDishonored := isDishonored c;
     readysDuringReadying := readysDuringReadying c;
     conflictOptions := conflictOptions c; stealthLimit := stealthLimit c;
     covert := covert c; covertTarget := v; stealth := stealth c;
     new := new c |}.

Definition set_stealth (v : value) (c : DrawCard) : DrawCard :=
  {| base := base c; cardData := cardData c; controller := controller c;
     attachments := attachments c; parent := parent c;
     militarySkillModifier := militarySkillModifier c;
     politicalSkillModifier := politicalSkillModifier c; fate := fate c;
     glory := glory c; contributesToFavor := contributesToFavor c;
     bowed := bowed c; saved := saved c; inConflict := inConflict c;
     isConflict := isConflict c; isDynasty := isDynasty c;
     isHonored := isHonored c; isDishonored := isDishonored c;
     readysDuringReadying := readysDuringReadying c;
     conflictOptions := conflictOptions c; stealthLimit := stealthLimit c;
     covert := covert c; covertTarget := covertTarget c; stealth := v;
     new := new c |}.

Definition set_new (v : value) (c : DrawCard) : DrawCard :=
  {| base := base c; cardData := cardData c; controller := controller c;
     attachments := attachments c; parent := parent c;
     militarySkillModifier := militarySkillModifier c;
     politicalSkillModifier := politicalSkillModifier c; fate := fate c;
     glory := glory c; contributesToFavor := contributesToFavor c;
     bowed := bowed c; saved := saved c; inConflict := inConflict c;
     isConflict := isConflict c; isDynasty := isDynasty c;
     isHonored := isHonored c; isDishonored := isDishonored c;
     readysDuringReadying := readysDuringReadying c;
     conflictOptions := conflictOptions c; stealthLimit := stealthLimit c;
     covert := covert c; covertTarget := covertTarget c;
     stealth := stealth c; new := v |}.

(** The constructor: the fields a new card starts with.  The inherited
    constructor receives the owner, who is the first controller. *)
Definition new_DrawCard (super : BaseCard) (owner : player_ref)
    (data : CardData) : DrawCard :=
  {| base := super; cardData := data; controller := owner;
     attachments := []; parent := None;
     militarySkillModifier := 0; politicalSkillModifier := 0; fate := 0;
     glory := cardData_glory data;
     contributesToFavor := true; bowed := false; saved := false;
     inConflict := false;
     isConflict := String.eqb (side data) "conflict";
     isDynasty := negb (String.eqb (side data) "conflict")
                  && String.eqb (side data) "dynasty";
     isHonored := false; isDishonored := false;
     readysDuringReadying := true;
     conflictOptions :=
       {| doesNotBowAs_attacker := false; doesNotBowAs_defender := false;
          cannotParticipateIn_military := false;
          cannotParticipateIn_political := false |};
     stealthLimit := 1;
     covert := Undefined; covertTarget := None; stealth := Undefined;
     new := Undefined |}.

(** ** The store and the effects of a method *)

(** A reference always names an object: the store holds a card at every
    reference and a player at every player reference.  [game] is the log of
    the calls made on the collaborators, oldest first. *)
Record World : Type := {
  cards : card_ref -> DrawCard;
  players : player_ref -> Player;
  game : list Call
}.

(** A method runs in a world and leaves a world behind. *)
Definition M (A : Type) : Type := World -> A * World.

Definition ret {A : Type} (a : A) : M A := fun w => (a, w).

Definition bind {A B : Type} (m : M A) (f : A -> M B) : M B :=
  fun w => let '(a, w') := m w in f a w'.

Notation "x <- m ;; k" := (bind m (fun x => k))
  (at level 100, m at next level, k at level 200, right associativity)
  : method_scope.
Notation "m ;; k" := (bind m (fun _ => k))
  (at level 100, k at level 200, right associativity) : method_scope.
Local Open Scope method_scope.

(** Reads the world without changing it. *)
Definition gets {A : Type} (f : World -> A) : M A := fun w => (f w, w).

(** [this.field]. *)
Definition read {A : Type} (this : card_ref) (field : DrawCard -> A) : M A :=
  gets (fun w => field (cards w this)).

(** [this.field = v], where [v] may be computed from the card. *)
Definition assign (this : card_ref) (f : DrawCard -> DrawCard) : M unit :=
  fun w => (tt, {| cards := <[this := f (cards w this)]> (cards w);
                   players := players w;
                   game := game w |}).

(** A call on a collaborator: appended to the log. *)
Definition call (c : Call) : M unit :=
  fun w => (tt, {| cards := cards w; players := players w;
                   game := game w ++ [c] |}).

(** The world a method leaves, and the value it returns. *)
Definition exec {A : Type} (m : M A) (w : World) : World := snd (m w).
Definition eval {A : Type} (m : M A) (w : World) : A := fst (m w).

(** ** Keywords *)

Definition isCovert (this : card_ref) (w : World) : bool :=
  hasKeyword (base (cards w this)) "covert".

Definition hasSincerity (this : card_ref) (w : World) : bool :=
  hasKeyword (base (cards w this)) "sincerity".

Definition hasPride (this : card_ref) (w : World) : bool :=
  hasKeyword (base (cards w this)) "pride".

Definition hasCourtesy (this : card_ref) (w : World) : bool :=
  hasKeyword (base (cards w this)) "courtesy".

Definition getCost (this : card_ref) (w : World) : value :=
  cost (cardData (cards w this)).

Definition getFate (this : card_ref) (w : World) : Z :=
  fate (cards w this).

(** ** Skill *)

(** [modifyMilitarySkill(amount, applying = true)]. *)
Definition modifyMilitarySkill (this : card_ref) (amount : Z)
    (applying : bool) : M unit :=
  assign this (fun c =>
    set_militarySkillModifier (militarySkillModifier c + amount) c);;
  call (raiseEvent "onCardMilitarySkillChanged"
          [("card", ACard this); ("amount", ANum amount);
           ("applying", ABool applying)]).

(** [modifyPoliticalSkill(amount, applying = true)]. *)
Definition modifyPoliticalSkill (this : card_ref) (amount : Z)
    (applying : bool) : M unit :=
  assign this (fun c =>
    set_politicalSkillModifier (politicalSkillModifier c + amount) c);;
  call (raiseEvent "onCardPoliticalSkillChanged"
          [("card", ACard this); ("amount", ANum amount);
           ("applying", ABool applying)]).

(** [modifySkill(amount, type, applying = true)]. *)
Definition modifySkill (this : card_ref) (amount : Z) (type : string)
    (applying : bool) : M unit :=
  if String.eqb type "military" then modifyMilitarySkill this amount applying
  else if String.eqb type "political" then
    modifyPoliticalSkill this amount applying
  else ret tt.

(** [getMilitarySkill(printed = false)]. *)
Definition getMilitarySkill (this : card_ref) (printed : bool)
    (w : World) : value :=
  let self := cards w this in
  if String.eqb (phase (players w (controller self))) "setup" || printed
  then JS.or (military (cardData self)) Undefined
  else if is_present (military (cardData self)) then
    let skillFromAttachments :=
      fold_left
        (fun skill card =>
           JS.add skill (parseInt (military_bonus (cardData (cards w card)))))
        (attachments self) (Num 0) in
    let skillFromGlory :=
      JS.sub (ToNumber (if isHonored self then glory self else Number (Num 0)))
             (ToNumber (if isDishonored self then glory self
                        else Number (Num 0))) in
    Number
      (Math_max (Num 0)
         (JS.add
            (JS.add
               (JS.add (ToNumber (military (cardData self)))
                       (Num (militarySkillModifier self)))
               skillFromAttachments)
            skillFromGlory))
  else Null.

(** [getPoliticalSkill(printed = false)]. *)
Definition getPoliticalSkill (this : card_ref) (printed : bool)
    (w : World) : value :=
  let self := cards w this in
  if String.eqb (phase (players w (controller self))) "setup" || printed
  then JS.or (political (cardData self)) Undefined
  else if is_present (political (cardData self)) then
    let skillFromAttachments :=
      fold_left
        (fun skill card =>
           JS.add skill
             (parseInt (political_bonus (cardData (cards w card)))))
        (attachments self) (Num 0) in
    let skillFromGlory :=
      JS.sub (ToNumber (if isHonored self then glory self else Number (Num 0)))
             (ToNumber (if isDishonored self then glory self
                        else Number (Num 0))) in
    Number
      (Math_max (Num 0)
         (JS.add
            (JS.add
               (JS.add (ToNumber (political (cardData self)))
                       (Num (politicalSkillModifier self)))
               skillFromAttachments)
            skillFromGlory))
  else Null.

(** [getSkill(type, printed = false)]; falls off the end, hence returns
    undefined, for any other type. *)
Definition getSkill (this : card_ref) (type : string) (printed : bool)
    (w : World) : value :=
  if String.eqb type "military" then getMilitarySkill this printed w
  else if String.eqb type "political" then getPoliticalSkill this printed w
  else Undefined.

(** ** Fate and personal honor *)

(** [modifyFate(fate)]. *)
Definition modifyFate (this : card_ref) (amount : Z) : M unit :=
  oldFate <- read this fate;;
  assign this (fun c => set_fate (fate c + amount) c);;
  current <- read this fate;;
  (if current <? 0 then assign this (set_fate 0) else ret tt);;
  final <- read this fate;;
  call (raiseEvent "onCardFateChanged"
          [("card", ACard this); ("fate", ANum (final - oldFate))]).

(** [honor()]. *)
Definition honor (this : card_ref) : M unit :=
  dishonored <- read this isDishonored;;
  if dishonored then assign this (set_isDishonored false)
  else
    honored <- read this isHonored;;
    if negb honored then assign this (set_isHonored true)
    else ret tt.

(** [dishonor()]. *)
Definition dishonor (this : card_ref) : M unit :=
  honored <- read this isHonored;;
  if honored then assign this (set_isHonored false)
  else
    dishonored <- read this isDishonored;;
    if negb dishonored then assign this (set_isDishonored true)
    else ret tt.

(** ** Covert *)

(** [needsCovertTarget()]. *)
Definition needsCovertTarget (this : card_ref) (w : World) : bool :=
  isCovert this w && negb (bool_decide (is_Some (covertTarget (cards w this)))).

(** [canBeBypassedByCovert()]. *)
Definition canBeBypassedByCovert (this : card_ref) (w : World) : bool :=
  negb (isCovert this w).

(** [canUseCovertToBypass(targetCard)]. *)
Definition canUseCovertToBypass (this targetCard : card_ref)
    (w : World) : bool :=
  isCovert this w && canBeBypassedByCovert targetCard w.

(** [useCovertToBypass(targetCard)]. *)
Definition useCovertToBypass (this targetCard : card_ref) : M bool :=
  allowed <- gets (canUseCovertToBypass this targetCard);;
  if negb allowed then ret false
  else
    assign targetCard (set_covert (Boolean true));;
    assign this (set_covertTarget (Some targetCard));;
    ret true.

(** ** Leaving play *)

(** [resetForConflict()]. *)
Definition resetForConflict (this : card_ref) : M unit :=
  assign this (set_stealth (Boolean false));;
  assign this (set_inConflict false).

(** [leavesPlay()]; the last step is the inherited [leavesPlay]. *)
Definition leavesPlay (this : card_ref) : M unit :=
  assign this (set_bowed false);;
  assign this (set_inConflict false);;
  assign this (set_new (Boolean false));;
  assign this (set_fate 0);;
  honored <- read this isHonored;;
  (if honored then
     player <- read this controller;;
     call (addHonor player 1);;
     call (addMessage "{0} gains 1 honor due to {1}'s personal honor"
             [APlayer player; ACard this]);;
     assign this (set_isHonored false)
   else
     dishonored <- read this isDishonored;;
     if dishonored then
       player <- read this controller;;
       call (addHonor player (-1));;
       call (addMessage "{0} loses 1 honor due to {1}'s personal honor"
               [APlayer player; ACard this]);;
       assign this (set_isDishonored false)
     else ret tt);;
  sincerity <- gets (hasSincerity this);;
  (if sincerity then
     player <- read this controller;;
     call (drawCardsToHand player 1);;
     call (addMessage "{0} draws a card due to {1}'s Sincerity"
             [APlayer player; ACard this])
   else ret tt);;
  courtesy <- gets (hasCourtesy this);;
  (if courtesy then
     player <- read this controller;;
     call (addFate player 1);;
     call (addMessage "{0} gains a fate due to {1}'s Courtesy"
             [APlayer player; ACard this])
   else ret tt);;
  resetForConflict this;;
  assign this (fun c => set_base (BaseCard_leavesPlay (base c)) c).

End DrawCard.

Arguments base {BaseCard} d.
Arguments cardData {BaseCard} d.
Arguments controller {BaseCard} d.
Arguments attachments {BaseCard} d.
Arguments parent {BaseCard} d.
Arguments militarySkillModifier {BaseCard} d.
Arguments politicalSkillModifier {BaseCard} d.
Arguments fate {BaseCard} d.
Arguments glory {BaseCard} d.
Arguments contributesToFavor {BaseCard} d.
Arguments bowed {BaseCard} d.
Arguments saved {BaseCard} d.
Arguments inConflict {BaseCard} d.
Arguments isConflict {BaseCard} d.
Arguments isDynasty {BaseCard} d.
Arguments isHonored {BaseCard} d.
Arguments isDishonored {BaseCard} d.
Arguments readysDuringReadying {BaseCard} d.
Arguments conflictOptions {BaseCard} d.
Arguments stealthLimit {BaseCard} d.
Arguments covert {BaseCard} d.
Arguments covertTarget {BaseCard} d.
Arguments stealth {BaseCard} d.
Arguments new {BaseCard} d.
Arguments set_base {BaseCard} v c.
Arguments set_militarySkillModifier {BaseCard} v c.
Arguments set_politicalSkillModifier {BaseCard} v c.
Arguments set_fate {BaseCard} v c.
Arguments set_bowed {BaseCard} v c.
Arguments set_inConflict {BaseCard} v c.
Arguments set_isHonored {BaseCard} v c.
Arguments set_isDishonored {BaseCard} v c.
Arguments set_covert {BaseCard} v c.
Arguments set_covertTarget {BaseCard} v c.
Arguments set_stealth {BaseCard} v c.
Arguments set_new {BaseCard} v c.
Arguments cards {BaseCard} w.
Arguments players {BaseCard} w.
Arguments game {BaseCard} w.
Arguments new_DrawCard {BaseCard} super owner data.
Arguments ret {BaseCard A} a _.
Arguments bind {BaseCard A B} m f _.
Arguments gets {BaseCard A} f _.
Arguments read {BaseCard A} this field _.
Arguments assign {BaseCard} this f _.
Arguments call {BaseCard} c _.
Arguments exec {BaseCard A} m w.
Arguments eval {BaseCard A} m w.
Arguments modifyMilitarySkill {BaseCard} this amount applying _.
Arguments modifyPoliticalSkill {BaseCard} this amount applying _.
Arguments modifySkill {BaseCard} this amount type applying _.
Arguments getMilitarySkill {BaseCard} this printed w.
Arguments getPoliticalSkill {BaseCard} this printed w.
Arguments getSkill {BaseCard} this type printed w.
Arguments getCost {BaseCard} this w.
Arguments getFate {BaseCard} this w.
Arguments modifyFate {BaseCard} this amount _.
Arguments honor {BaseCard} this _.
Arguments dishonor {BaseCard} this _.
Arguments resetForConflict {BaseCard} this _.
Arguments isCovert {BaseCard} hasKeyword this w.
Arguments hasSincerity {BaseCard} hasKeyword this w.
Arguments hasPride {BaseCard} hasKeyword this w.
Arguments hasCourtesy {BaseCard} hasKeyword this w.
Arguments needsCovertTarget {BaseCard} hasKeyword this w.
Arguments canBeBypassedByCovert {BaseCard} hasKeyword this w.
Arguments canUseCovertToBypass {BaseCard} hasKeyword this targetCard w.
Arguments useCovertToBypass {BaseCard} hasKeyword this targetCard _.
Arguments leavesPlay {BaseCard} hasKeyword BaseCard_leavesPlay this _.

Notation "x <- m ;; k" := (bind m (fun x => k))
  (at level 100, m at next level, k at level 200, right associativity)
  : method_scope.
Notation "m ;; k" := (bind m (fun _ => k))
  (at level 100, k at level 200, right associativity) : method_scope.
Local Open Scope method_scope.

(** The operations of the card state model that change the runtime state of
    a card. *)
Inductive Mutation : Type :=
| ModifyFate (amount : Z)
| ModifyMilitarySkill (amount : Z) (applying : bool)
| ModifyPoliticalSkill (amount : Z) (applying : bool)
| Honor
| Dishonor.

Definition mutate {BaseCard : Type} (op : Mutation) (this : card_ref)
    : M BaseCard unit :=
  match op with
  | ModifyFate amount => modifyFate this amount
  | ModifyMilitarySkill amount applying =>
      modifyMilitarySkill this amount applying
  | ModifyPoliticalSkill amount applying =>
      modifyPoliticalSkill this amount applying
  | Honor => honor this
  | Dishonor => dishonor this
  end.

(** The calls a method added to the log of [w]. *)
Definition calls_of {BaseCard A : Type} (m : M BaseCard A)
    (w : World BaseCard) : list Call :=
  drop (length (game w)) (game (exec m w)).

Definition is_raiseEvent (c : Call) : bool :=
  match c with
  | raiseEvent _ _ => true
  | _ => false
  end.

Definition is_addHonor (c : Call) : bool :=
  match c with
  | addHonor _ _ => true
  | _ => false
  end.

(** Personal honor and dishonor exclude each other. *)
Definition exclusive {BaseCard : Type} (c : DrawCard BaseCard) : Prop :=
  ~ (isHonored c = true /\ isDishonored c = true).

(** [runs this m c log a c' log']: started in any world where card [this] is
    [c] and the log is [log], the method [m] returns [a] and leaves a world
    where card [this] is [c'] and the log is [log']. *)
Definition runs {BaseCard A : Type} (this : card_ref) (m : M BaseCard A)
    (c : DrawCard BaseCard) (log : list Call)
    (a : A) (c' : DrawCard BaseCard) (log' : list Call) : Prop :=
  forall w, cards w this = c -> game w = log ->
    eval m w = a /\ cards (exec m w) this = c' /\ game (exec m w) = log'.

(** ** Effective skill, as the specification words it *)

Definition sum_numbers (l : list number) : number :=
  foldr JS.add (Num 0) l.

(** max(0, printed + modifier + sum of the attachment bonuses
    + (honored ? glory : 0) - (dishonored ? glory : 0)), on numbers. *)
Definition spec_effective_skill (printed modifier : number)
    (bonuses : list number) (honored dishonored : bool) (glory : number)
    : number :=
  Math_max (Num 0)
    (JS.sub
       (JS.add (JS.add (JS.add printed modifier) (sum_numbers bonuses))
               (if honored then glory else Num 0))
       (if dishonored then glory else Num 0)).

(** The same on integers. *)
Definition spec_effective_skill_Z (printed modifier : Z) (bonuses : list Z)
    (honored dishonored : bool) (glory : Z) : Z :=
  Z.max 0
    (printed + modifier + foldr Z.add 0 bonuses
     + (if honored then glory else 0) - (if dishonored then glory else 0)).

(** The bonuses the attachments of a card give, as [parseInt] reads them. *)
Definition military_bonuses {BaseCard : Type} (w : World BaseCard)
    (this : card_ref) : list number :=
  map (fun a => parseInt (military_bonus (cardData (cards w a))))
      (attachments (cards w this)).

Definition political_bonuses {BaseCard : Type} (w : World BaseCard)
    (this : card_ref) : list number :=
  map (fun a => parseInt (political_bonus (cardData (cards w a))))
      (attachments (cards w this)).

(** What is claimed of a skill query that returned [result] for a card with
    printed value [p], modifier [m] and the given attachment bonuses. *)
Definition effective_skill_law {BaseCard : Type} (c : DrawCard BaseCard)
    (result : value) (p m : Z) (bonuses : list number) : Prop :=
  result = Number (spec_effective_skill (Num p) (Num m) bonuses
                     (isHonored c) (isDishonored c) (ToNumber (glory c)))
  /\ (forall z, result = Number (Num z) -> 0 <= z)
  /\ (forall bs g, bonuses = map Num bs -> ToNumber (glory c) = Num g ->
        result = Number (Num (spec_effective_skill_Z p m bs
                                (isHonored c) (isDishonored c) g))).

(** ** Creeping Oblivion *)

Module CreepingOblivion.

(** The resolved choice of a 'select' target group. *)
Record Select : Type := { choice : string }.

(** The context of an ability: the acting player and, keyed by the name of
    the target group, what was selected so far. *)
Record Context : Type := {
  player : player_ref;
  selects : gmap string Select
}.

(** Reading a property of undefined throws. *)
Inductive result (A : Type) : Type :=
| Returns (a : A)
| Throws.
Arguments Returns {A} a.
Arguments Throws {A}.

Inductive GameAction : Type :=
| purge.

Section Targets.

Variable BaseCard : Type.

Record SelectTarget : Type := {
  select_mode : string;
  activePromptTitle : string;
  choices : list (string * (Context -> World BaseCard -> value))
}.

Record CardsTarget : Type := {
  dependsOn : string;
  cards_mode : string;
  numCards : nat;
  cards_player : Context -> World BaseCard -> result (option player_ref);
  location : string;
  gameAction : GameAction
}.

Record Targets : Type := {
  select : SelectTarget;
  cards_target : CardsTarget
}.

(** The [targets] of the play ability that [setupCardAbilities]
    declares.  [a && b] is [a] when [a] is falsy: with no opponent the
    second choice evaluates to undefined. *)
Definition setupCardAbilities : Targets :=
  {| select :=
       {| select_mode := "select";
          activePromptTitle := "Choose which discard pile to purge from";
          choices :=
            [ ("Mine",
               fun context w =>
                 Boolean
                   (0 <? Z.of_nat
                           (length (discard (players w (player context))))));
              ("Opponent's",
               fun context w =>
                 match opponent (players w (player context)) with
                 | None => Undefined
                 | Some opp =>
                     Boolean
                       (0 <? Z.of_nat (length (discard (players w opp))))
                 end) ] |};
     cards_target :=
       {| dependsOn := "select";
          cards_mode := "upTo";
          numCards := 2;
          cards_player := fun context w =>
            match selects context !! "select" with
            | None => Throws
            | Some s =>
                Returns
                  (if String.eqb (choice s) "Mine"
                   then Some (player context)
                   else opponent (players w (player context)))
            end;
          location := "discard";
          gameAction := purge |} |}.

(** Modelled from the spec: the target pipeline that reads a declaration
    is not part of the card's file.  A choice of a 'select' group is
    legal when its condition, evaluated on the context at resolution
    time, is truthy. *)
Definition choice_is_legal (t : SelectTarget) (name : string)
    (context : Context) (w : World BaseCard) : bool :=
  existsb
    (fun c => String.eqb (fst c) name && truthy (snd c context w))
    (choices t).

(** Modelled from the spec: the zone of a player a location names. *)
Definition zone (loc : string) (p : Player) : list card_ref :=
  if String.eqb loc "discard" then discard p else [].

(** Modelled from the spec: an up-to-N group accepts any selection of 0
    to N distinct cards among the candidates, which are the cards of the
    group's location that belong to the group's player. *)
Definition legal_selection (t : CardsTarget) (context : Context)
    (w : World BaseCard) (selected : list card_ref) : Prop :=
  cards_mode t = "upTo" /\
  exists p, cards_player t context w = Returns (Some p) /\
    NoDup selected /\
    (forall c, In c selected -> In c (zone (location t) (players w p))) /\
    (length selected <= numCards t)%nat.

End Targets.

Arguments select {BaseCard} t.
Arguments cards_target {BaseCard} t.
Arguments select_mode {BaseCard} s.
Arguments choices {BaseCard} s.
Arguments dependsOn {BaseCard} c.
Arguments cards_mode {BaseCard} c.
Arguments numCards {BaseCard} c.
Arguments cards_player {BaseCard} c.
Arguments location {BaseCard} c.
Arguments gameAction {BaseCard} c.
Arguments choice_is_legal {BaseCard} t name context w.
Arguments legal_selection {BaseCard} t context w selected.

End CreepingOblivion.

(** ** The deck list of a user *)

Module Decks.

(** A card of a stored deck; [enhancements] is a list when present. *)
Record DeckCard : Type := { enhancements : option (list string) }.

Record Deck : Type := {
  usageCount : value;
  usageLevel : value;
  deck_cards : list DeckCard;
  verified : value;
  basicRules : value;
  notVerified : value
}.

Record Response : Type := {
  success : bool;
  numDecks : Z;
  decks : list Deck
}.

Section Handler.

(** The configuration service is outside the handler. *)
Variable getValueForSection : string -> string -> number.

(** The function mapped over the decks found for the user.  It updates
    the deck in place and returns it. *)
Definition project (deck : Deck) : Deck :=
  let deckUsageLevel := 0 in
  let deckUsageLevel :=
    if gt (ToNumber (usageCount deck))
          (getValueForSection "lobby" "lowerDeckThreshold")
    then 1 else deckUsageLevel in
  let deckUsageLevel :=
    if gt (ToNumber (usageCount deck))
          (getValueForSection "lobby" "middleDeckThreshold")
    then 2 else deckUsageLevel in
  let deckUsageLevel :=
    if gt (ToNumber (usageCount deck))
          (getValueForSection "lobby" "upperDeckThreshold")
    then 3 else deckUsageLevel in
  let hasEnhancementsSet := true in
  let hasEnhancements := false in
  let hasEnhancementsSet :=
    if existsb
         (fun c =>
            match enhancements c with
            | Some (first :: _) => String.eqb first EmptyString
            | _ => false
            end)
         (deck_cards deck)
    then false else hasEnhancementsSet in
  let hasEnhancements :=
    if existsb (fun c => bool_decide (is_Some (enhancements c)))
               (deck_cards deck)
    then true else hasEnhancements in
  {| usageCount := Undefined;
     usageLevel := Number (Num deckUsageLevel);
     deck_cards := deck_cards deck;
     verified := verified deck;
     basicRules := Boolean hasEnhancementsSet;
     notVerified :=
       Boolean (hasEnhancements && negb (truthy (verified deck))) |}.

(** GET /api/decks, given what the deck service answers for the user:
    the number of decks and the decks found. *)
Definition get_decks (getNumDecksForUser : Z) (findForUser : list Deck)
    : Response :=
  let numDecks := getNumDecksForUser in
  let decks := [] in
  let decks :=
    if 0 <? numDecks then map project findForUser else decks in
  {| success := true; numDecks := numDecks; decks := decks |}.

End Handler.

End Decks.

(** ** Bear Flute *)

Module BearFlute.

(** What the ability reads of a card, of the game and of its context. *)
Record Card : Type := { name : string }.

Record Game : Type := { creaturesInPlay : list Card }.

Record Context : Type := {
  game : Game;
  target : option Card
}.

(** An argument of the effect message. *)
Inductive EffectArg : Type :=
| Text (s : string)
| Named (c : Card).

(** The properties given to the heal and to the search actions; the object
    of the search has a cardName or is empty. *)
Record HealProperties : Type := { fully : bool }.

Record SearchProperties : Type := { cardName : option string }.

Inductive GameAction : Type :=
| heal (properties : HealProperties)
| search (properties : Context -> SearchProperties).

Record Target : Type := {
  cardType : string;
  cardCondition : Card -> bool;
  target_gameAction : GameAction
}.

Record Action : Type := {
  action_target : Target;
  effect : string;
  effectArgs : Context -> list EffectArg;
  gameAction : GameAction
}.

(** The action that [setupCardAbilities] declares. *)
Definition setupCardAbilities : Action :=
  {| action_target :=
       {| cardType := "creature";
          cardCondition := fun card => String.eqb (name card) "Ancient Bear";
          target_gameAction := heal {| fully := true |} |};
     effect := "{1}{2}";
     effectArgs := fun context =>
       match target context with
       | Some t => [Text "heal "; Named t]
       | None => [Text "search their deck and discard for any Ancient Bears"]
       end;
     gameAction :=
       search (fun context =>
         if negb (existsb
                    (fun card => String.eqb (name card) "Ancient Bear")
                    (creaturesInPlay (game context)))
         then {| cardName := Some "Ancient Bear" |}
         else {| cardName := None |}) |}.

(** The properties the search of an action gets in a context. *)
Definition search_properties (a : Action) (context : Context)
    : option SearchProperties :=
  match gameAction a with
  | search properties => Some (properties context)
  | heal _ => None
  end.

End BearFlute.

(** ** The deck routes *)

Module DeckApi.

Record Permissions : Type := { canVerifyDecks : bool }.

Record User : Type := {
  username : string;
  permissions : option Permissions
}.

(** A deck as the deck service stores it: its owner, its id and the rest. *)
Record StoredDeck : Type := {
  deck_username : string;
  deck_id : option string;
  content : Decks.Deck
}.

(** A request: the id of the route when there is one, the uuid of the body
    when there is one, and the user the token names. *)
Record Request : Type := {
  params_id : option string;
  body_uuid : option string;
  user : User
}.

(** What a route sends. *)
Inductive Body : Type :=
| Message (success : option bool) (message : string) (deckId : option string)
| OneDeck (success : bool) (deck : StoredDeck)
| ManyDecks (success : bool) (decks : list StoredDeck).

(** The status a route set (200 unless it set one) and the body it sent,
    if it sent one. *)
Record Reply : Type := {
  status : Z;
  sent : option Body
}.

(** The calls a route makes that change what is stored. *)
Inductive ServiceCall : Type :=
| create (u : User) (uuid username : string)
| delete (id : option string)
| update (deck : StoredDeck)
| rimraf_sync (path : string).

(** What [deckService.create] did: it threw an error with a message, or
    returned a deck or nothing. *)
Inductive Created : Type :=
| Threw (message : string)
| Returned (deck : option StoredDeck).

Section Routes.

(** The deck service and the file system, as the routes query them. *)
Variable getById : option string -> option StoredDeck.
Variable getFlaggedUnverifiedDecks : list StoredDeck.
Variable created : Created.
Variable existsSync : string -> bool.

(** [!s || s === ''] on an optional text. *)
Definition missing (s : option string) : bool :=
  match s with
  | None => true
  | Some EmptyString => true
  | Some _ => false
  end.

(** [!req.user.permissions || !req.user.permissions.canVerifyDecks]. *)
Definition cannot_verify (u : User) : bool :=
  match permissions u with
  | None => true
  | Some p => negb (canVerifyDecks p)
  end.

(** GET /api/decks/flagged. *)
Definition get_flagged (req : Request) : Reply :=
  if cannot_verify (user req) then {| status := 403; sent := None |}
  else
    let decks := getFlaggedUnverifiedDecks in
    {| status := 200; sent := Some (ManyDecks true decks) |}.

(** GET /api/decks/:id. *)
Definition get_deck (req : Request) : Reply :=
  if missing (params_id req) then
    {| status := 404; sent := Some (Message None "No such deck" None) |}
  else
    match getById (params_id req) with
    | None =>
        {| status := 404; sent := Some (Message None "No such deck" None) |}
    | Some deck =>
        if negb (String.eqb (deck_username deck) (username (user req))) then
          {| status := 401; sent := Some (Message None "Unauthorized" None) |}
        else {| status := 200; sent := Some (OneDeck true deck) |}
    end.

(** POST /api/decks. *)
Definition post_deck (req : Request) : Reply * list ServiceCall :=
  if missing (body_uuid req) then
    ({| status := 200;
        sent := Some (Message (Some false) "uuid must be specified" None) |},
     [])
  else
    let uuid := default EmptyString (body_uuid req) in
    let calls := [create (user req) uuid (username (user req))] in
    match created with
    | Threw message =>
        ({| status := 200; sent := Some (Message (Some false) message None) |},
         calls)
    | Returned None =>
        ({| status := 200;
            sent := Some (Message (Some false)
              "An error occurred importing your deck.  Please check the Url or try again later."
              None) |},
         calls)
    | Returned (Some savedDeck) =>
        ({| status := 200; sent := Some (OneDeck true savedDeck) |}, calls)
    end.

(** DELETE /api/decks/:id. *)
Definition delete_deck (req : Request) : Reply * list ServiceCall :=
  let id := params_id req in
  match getById id with
  | None =>
      ({| status := 404;
          sent := Some (Message (Some false) "No such deck" None) |}, [])
  | Some deck =>
      if negb (String.eqb (deck_username deck) (username (user req))) then
        ({| status := 401; sent := Some (Message None "Unauthorized" None) |},
         [])
      else
        ({| status := 200;
            sent := Some (Message (Some true) "Deck deleted successfully"
                            id) |},
         [delete id])
  end.

(** [deck.verified = true; deck.id = id] on a stored deck. *)
Definition mark_verified (id : option string) (deck : StoredDeck)
    : StoredDeck :=
  {| deck_username := deck_username deck;
     deck_id := id;
     content :=
       {| Decks.usageCount := Decks.usageCount (content deck);
          Decks.usageLevel := Decks.usageLevel (content deck);
          Decks.deck_cards := Decks.deck_cards (content deck);
          Decks.verified := Boolean true;
          Decks.basicRules := Decks.basicRules (content deck);
          Decks.notVerified := Decks.notVerified (content deck) |} |}.

(** A value inside a template text. *)
Definition in_template (s : option string) : string :=
  default "undefined" s.

(** POST /api/decks/:id/verify. *)
Definition verify_deck (req : Request) : Reply * list ServiceCall :=
  if cannot_verify (user req) then ({| status := 403; sent := None |}, [])
  else
    let id := params_id req in
    match getById id with
    | None =>
        ({| status := 404;
            sent := Some (Message (Some false) "No such deck" None) |}, [])
    | Some deck =>
        let deck := mark_verified id deck in
        let calls := [update deck] in
        let calls :=
          if existsSync
               ("public/img/deck-verification/"
                +:+ in_template (deck_id deck) +:+ "/")
          then (calls ++
                [rimraf_sync
                   ("public/img/deck-verification/"
                    +:+ in_template (deck_id deck))])%list
          else calls in
        ({| status := 200;
            sent := Some (Message (Some true) "Deck verified successfully"
                            id) |},
         calls)
    end.

End Routes.

End DeckApi.

(** ** The enhancements route *)

Module Enhancements.

(** Text search, as [includes] and the regular expression
    [/Enhance (.+?)\./] need it. *)

Fixpoint includes (text word : string) : bool :=
  if String.prefix word text then true
  else
    match text with
    | EmptyString => false
    | String _ rest => includes rest word
    end.

(** The length in bytes of a line terminator at the start of the text, or 0:
    the dot of a regular expression matches no line feed, carriage return,
    line separator or paragraph separator (the last two are three bytes
    long in a text kept as bytes). *)
Definition lineTerminator (text : string) : nat :=
  match text with
  | String a rest =>
      if (Nat.eqb (nat_of_ascii a) 10 || Nat.eqb (nat_of_ascii a) 13)%bool
      then 1%nat
      else if Nat.eqb (nat_of_ascii a) 226 then
        match rest with
        | String b (String c _) =>
            if (Nat.eqb (nat_of_ascii b) 128
                && (Nat.eqb (nat_of_ascii c) 168
                    || Nat.eqb (nat_of_ascii c) 169))%bool
            then 3%nat else 0%nat
        | _ => 0%nat
        end
      else 0%nat
  | EmptyString => 0%nat
  end.

(** [(.+?)\.] at the start of the text: the shortest run of one or more
    characters, none a line terminator, that a dot follows.  [taken] is what
    was consumed so far, in reverse. *)
Fixpoint lazyUntilDot (text : string) (taken : list ascii)
    : option string :=
  match text with
  | EmptyString => None
  | String a rest =>
      if (Ascii.eqb a "." && negb (Nat.eqb (length taken) 0))%bool
      then Some (string_of_list_ascii (rev taken))
      else if negb (Nat.eqb (lineTerminator text) 0) then None
      else lazyUntilDot rest (a :: taken)
  end.

(** [text.match(/Enhance (.+?)\./)]: the match and its group for the first
    position of the text where the expression matches, or null. *)
Fixpoint match_enhancementRegex (text : string) : option (list string) :=
  let here :=
    if String.prefix "Enhance " text then
      match lazyUntilDot (String.substring 8 (String.length text - 8) text) []
      with
      | Some group => Some ["Enhance " +:+ group +:+ "."; group]
      | None => None
      end
    else None in
  match here with
  | Some matches => Some matches
  | None =>
      match text with
      | EmptyString => None
      | String _ rest => match_enhancementRegex rest
      end
  end.

(** [EnhancementLookup[char]] is defined for P, D, R and A. *)
Definition EnhancementLookup (char : ascii) : option string :=
  if Ascii.eqb char "P" then Some "capture"
  else if Ascii.eqb char "D" then Some "damage"
  else if Ascii.eqb char "R" then Some "draw"
  else if Ascii.eqb char "A" then Some "amber"
  else None.

(** A card of the deck, and what the card service knows of a card. *)
Record DeckCard : Type := {
  id : string;
  dbId : Z;
  count : Z;
  enhancements : option (list string)
}.

Record CardInfo : Type := { text : option string }.

Record Deck : Type := {
  deck_username : string;
  cards : list DeckCard
}.

(** A request: the id of the route, the user the token names and the
    enhancements of the body, an object whose entries, in the order
    [Object.entries] lists them, give for the key of a card an object from
    enhancement names to counts. *)
Record Request : Type := {
  params_id : option string;
  user_username : string;
  body_enhancements : list (string * list (string * Z))
}.

Inductive Body : Type :=
| Message (success : option bool) (message : string) (deckId : option string).

Record Reply : Type := {
  status : Z;
  sent : Body
}.

(** How the route ends: it replied, after the calls it made on the deck
    service, or a TypeError escaped it. *)
Inductive Outcome : Type :=
| Replied (reply : Reply) (updates : list Deck)
| TypeError.

Section Route.

(** The services: the deck stored under an id, the cards of
    [getAllCards] as the reading of a property of the object, and the
    comparison [c.dbId == id] of a stored number with a key. *)
Variable getById : option string -> option Deck.
Variable getAllCards : string -> option CardInfo.
Variable looselyEqual : Z -> string -> bool.

(** [cards[c.id].text && cards[c.id].text.includes('Enhance')], which throws
    when the card service has no such card. *)
Definition mentionsEnhance (c : DeckCard) : option bool :=
  match getAllCards (id c) with
  | None => None
  | Some info =>
      Some match text info with
           | None => false
           | Some EmptyString => false
           | Some t => includes t "Enhance"
           end
  end.

(** [deck.cards.filter(...)] with a predicate that may throw. *)
Fixpoint filterEnhance (l : list DeckCard) : option (list DeckCard) :=
  match l with
  | [] => Some []
  | c :: rest =>
      match mentionsEnhance c with
      | None => None
      | Some keep =>
          match filterEnhance rest with
          | None => None
          | Some kept => Some (if keep then c :: kept else kept)
          end
      end
  end.

(** The inner loops on the characters of the group: [count] more for each
    character the lookup knows. *)
Fixpoint countGroup (group : string) (count total : Z) : Z :=
  match group with
  | EmptyString => total
  | String char rest =>
      countGroup rest count
        (match EnhancementLookup char with
         | Some _ => total + Z.of_nat (Z.to_nat count)
         | None => total
         end)
  end.

(** The first loop, on the cards kept. *)
Fixpoint countEnhancements (kept : list DeckCard) (totalEnhancements : Z)
    : option Z :=
  match kept with
  | [] => Some totalEnhancements
  | deckCard :: rest =>
      match getAllCards (id deckCard) with
      | None => None
      | Some info =>
          let matches :=
            match text info with
            | Some t => match_enhancementRegex t
            | None => None
            end in
          match matches with
          | Some [whole; enhancementString] =>
              countEnhancements rest
                (countGroup enhancementString (count deckCard)
                   totalEnhancements)
          | _ => countEnhancements rest totalEnhancements
          end
      end
  end.

(** The pushes for the entries of one object: each name, [count] times. *)
Fixpoint newEnhancements (entries : list (string * Z)) : list string :=
  match entries with
  | [] => []
  | (enhancement, count) :: rest =>
      (repeat enhancement (Z.to_nat count) ++ newEnhancements rest)%list
  end.

(** [card.enhancements = l] on the first card that [find] meets. *)
Fixpoint assignFirst (key : string) (l : list string) (cs : list DeckCard)
    : option (list DeckCard) :=
  match cs with
  | [] => None
  | c :: rest =>
      if looselyEqual (dbId c) key then
        Some ({| id := id c; dbId := dbId c; count := count c;
                 enhancements := Some l |} :: rest)
      else
        match assignFirst key l rest with
        | Some rest' => Some (c :: rest')
        | None => None
        end
  end.

(** The second loop, on the entries of the body. *)
Fixpoint assignAll (entries : list (string * list (string * Z)))
    (cs : list DeckCard) (totalUsed : Z) : option (list DeckCard * Z) :=
  match entries with
  | [] => Some (cs, totalUsed)
  | (key, enhancements) :: rest =>
      let l := newEnhancements enhancements in
      match assignFirst key l cs with
      | None => None
      | Some cs' =>
          assignAll rest cs' (totalUsed + Z.of_nat (length l))
      end
  end.

(** POST /api/decks/:id/enhancements. *)
Definition post_enhancements (req : Request) : Outcome :=
  let id := params_id req in
  match getById id with
  | None =>
      Replied {| status := 404;
                 sent := Message (Some false) "No such deck" None |} []
  | Some deck =>
      if negb (String.eqb (deck_username deck) (user_username req)) then
        Replied {| status := 401; sent := Message None "Unauthorized" None |}
          []
      else
        let cardsWithEnhancements :=
          Z.of_nat
            (length (List.filter
                       (fun c => bool_decide (is_Some (enhancements c)))
                       (cards deck))) in
        let enhancedCards := Z.of_nat (length (body_enhancements req)) in
        match filterEnhance (cards deck) with
        | None => TypeError
        | Some kept =>
            match countEnhancements kept 0 with
            | None => TypeError
            | Some totalEnhancements =>
                match assignAll (body_enhancements req) (cards deck) 0 with
                | None => TypeError
                | Some (cards', totalUsed) =>
                    if (totalUsed <? totalEnhancements)
                       || (enhancedCards <? cardsWithEnhancements)
                    then
                      Replied
                        {| status := 200;
                           sent := Message (Some false)
                                     "Enhancements incorrectly assigned"
                                     None |} []
                    else
                      Replied
                        {| status := 200;
                           sent := Message (Some true)
                                     "Enhancements added successfully" id |}
                        [ {| deck_username := deck_username deck;
                             cards := cards' |} ]
                end
            end
        end
  end.

End Route.

End Enhancements.

(** The number of enhancements a body asks for: the counts of all its
    entries, a count under 0 being none. *)
Definition requested_enhancements
    (entries : list (string * list (string * Z))) : Z :=
  foldr (fun entry total =>
           Z.of_nat (length (Enhancements.newEnhancements (snd entry)))
           + total)
        0 entries.

(** What the route does not change of the cards of a deck. *)
Definition card_identity (c : Enhancements.DeckCard) : string * Z * Z :=
  (Enhancements.id c, Enhancements.dbId c, Enhancements.count c).

(** ** A deck with enhancements to assign *)

Module Scenes.

(** Two copies of a card whose text grants a capture and an amber, and one
    card that grants nothing. *)
Definition deck : Enhancements.Deck :=
  {| Enhancements.deck_username := "ada";
     Enhancements.cards :=
       [ {| Enhancements.id := "bear"; Enhancements.dbId := 5;
            Enhancements.count := 2;
            Enhancements.enhancements := Some [EmptyString] |};
         {| Enhancements.id := "flute"; Enhancements.dbId := 6;
            Enhancements.count := 1;
            Enhancements.enhancements := None |} ] |}.

Definition getById (id : option string) : option Enhancements.Deck :=
  match id with
  | Some "d1" => Some deck
  | _ => None
  end.

Definition getAllCards (id : string) : option Enhancements.CardInfo :=
  if String.eqb id "bear"
  then Some {| Enhancements.text := Some "Play: Enhance PA. Deal 2 damage." |}
  else Some {| Enhancements.text := Some "Action: heal a creature." |}.

(** [c.dbId == id] on the keys of this scene, which are plain decimal
    numerals: such a key is equal to a number when it reads as that number. *)
Definition looselyEqual (n : Z) (key : string) : bool :=
  bool_decide (parseInt key = Num n).

Definition request : Enhancements.Request :=
  {| Enhancements.params_id := Some "d1";
     Enhancements.user_username := "ada";
     Enhancements.body_enhancements :=
       [("5", [("capture", 2); ("amber", 2)])] |}.

Definition stored : Enhancements.Deck :=
  {| Enhancements.deck_username := "ada";
     Enhancements.cards :=
       [ {| Enhancements.id := "bear"; Enhancements.dbId := 5;
            Enhancements.count := 2;
            Enhancements.enhancements :=
              Some ["capture"; "capture"; "amber"; "amber"] |};
         {| Enhancements.id := "flute"; Enhancements.dbId := 6;
            Enhancements.count := 1;
            Enhancements.enhancements := None |} ] |}.

End Scenes.

(** ** The profile form *)

Module Profile.

Record GameOptions : Type := {
  confirmOneClick : bool;
  orderForcedAbilities : bool;
  useHalfSizedCards : bool
}.

Record Settings : Type := {
  background : string;
  cardSize : string
}.

(** The values the form starts from.  There is one such object for the
    module: every rendering of the form writes to it. *)
Record InitialValues : Type := {
  avatar : value;
  email : string;
  username : string;
  challongeApiKey : string;
  challongeApiSubdomain : string;
  settings : Settings;
  gameOptions : GameOptions
}.

Definition initialValues : InitialValues :=
  {| avatar := Undefined; email := EmptyString; username := EmptyString;
     challongeApiKey := EmptyString; challongeApiSubdomain := EmptyString;
     settings := {| background := EmptyString; cardSize := EmptyString |};
     gameOptions :=
       {| confirmOneClick := false; orderForcedAbilities := false;
          useHalfSizedCards := false |} |}.

Record Challonge : Type := { key : string; subdomain : string }.

(** What a rendering reads of the user of the account. *)
Record User : Type := {
  user_email : string;
  user_username : string;
  optionSettings : option GameOptions;
  challonge : option Challonge
}.

(** What a rendering of [Profile] for the user of the account, if there is
    one, does to [initialValues]. *)
Definition render (user : option User) (values : InitialValues)
    : InitialValues :=
  match user with
  | None => values
  | Some user =>
      let values :=
        {| avatar := avatar values; email := user_email user;
           username := user_username user;
           challongeApiKey := challongeApiKey values;
           challongeApiSubdomain := challongeApiSubdomain values;
           settings := settings values;
           gameOptions :=
             match optionSettings user with
             | Some options => options
             | None => gameOptions values
             end |} in
      match challonge user with
      | Some c =>
          {| avatar := avatar values; email := email values;
             username := username values;
             challongeApiKey := key c;
             challongeApiSubdomain := subdomain c;
             settings := settings values;
             gameOptions := gameOptions values |}
      | None => values
      end
  end.

(** The forms of several accounts rendered one after the other in the same
    page. *)
Definition render_all (users : list (option User)) (values : InitialValues)
    : InitialValues :=
  fold_left (fun v u => render u v) users values.

End Profile.

(** ** Concrete cards and worlds *)

Module Examples.

(** A base card that is its list of keywords. *)
Definition Keywords : Type := list string.

Definition has (b : Keywords) (k : string) : bool :=
  existsb (String.eqb k) b.

Definition keep (b : Keywords) : Keywords := b.

(** A character with military 3, political 0 and glory 2. *)
Definition character_data : CardData :=
  {| cost := Number (Num 2); cardData_glory := Number (Num 2);
     military := Number (Num 3); political := Number (Num 0);
     military_bonus := "undefined"; political_bonus := "undefined";
     side := "dynasty" |}.

(** An attachment giving +2 military and +1 political. *)
Definition attachment_data : CardData :=
  {| cost := Number (Num 1); cardData_glory := Undefined;
     military := Null; political := Null;
     military_bonus := "+2"; political_bonus := "+1";
     side := "conflict" |}.

Definition a_player (ph : string) : Player :=
  {| phase := ph; discard := []; opponent := None |}.

Definition character : DrawCard Keywords :=
  new_DrawCard [] 0%nat character_data.

Definition attachment : DrawCard Keywords :=
  new_DrawCard [] 0%nat attachment_data.

(** Card 0 is the character, every other card is the attachment; nothing
    is attached. *)
Definition fresh_world (ph : string) : World Keywords :=
  {| cards := fun r => match r with O => character | _ => attachment end;
     players := fun _ => a_player ph;
     game := [] |}.

(** A character in play that hosts card 1, with a military modifier and an
    honor status; it is bowed, in a conflict and holds 3 fate. *)
Definition host (modifier : Z) (honored dishonored : bool)
    : DrawCard Keywords :=
  {| base := []; cardData := character_data; controller := 0%nat;
     attachments := [1%nat]; parent := None;
     militarySkillModifier := modifier; politicalSkillModifier := 0;
     fate := 3; glory := Number (Num 2);
     contributesToFavor := true; bowed := true; saved := false;
     inConflict := true; isConflict := false; isDynasty := true;
     isHonored := honored; isDishonored := dishonored;
     readysDuringReadying := true;
     conflictOptions := conflictOptions character;
     stealthLimit := 1;
     covert := Undefined; covertTarget := None; stealth := Undefined;
     new := Undefined |}.

(** An attachment whose military bonus is the given text. *)
Definition attachment_giving (bonus : string) : DrawCard Keywords :=
  new_DrawCard [] 0%nat
    {| cost := Number (Num 1); cardData_glory := Undefined;
       military := Null; political := Null;
       military_bonus := bonus; political_bonus := "+1";
       side := "conflict" |}.

(** Card 0 is the host, every other card the attachment; the players are
    in the conflict phase. *)
Definition in_play (h a : DrawCard Keywords) : World Keywords :=
  {| cards := fun r => match r with O => h | _ => a end;
     players := fun _ => a_player "conflict";
     game := [] |}.

(** The honored host has a -1 military modifier and a +2 attachment. *)
Definition honored_host : DrawCard Keywords := host (-1) true false.

Definition conflict_world : World Keywords :=
  in_play honored_host (attachment_giving "+2").

(** Card 0 has the covert keyword, card 1 does not. *)
Definition covert_world : World Keywords :=
  {| cards := fun r =>
       match r with
       | O => new_DrawCard ["covert"] 0%nat character_data
       | _ => character
       end;
     players := fun _ => a_player "conflict";
     game := [] |}.

(** Player 0 has two cards in the discard pile and faces player 1, whose
    discard pile is empty. *)
Definition discard_world : World Keywords :=
  {| cards := fun _ => character;
     players := fun p =>
       match p with
       | O => {| phase := "conflict"; discard := [4%nat; 7%nat];
                 opponent := Some 1%nat |}
       | _ => {| phase := "conflict"; discard := [];
                 opponent := Some 0%nat |}
       end;
     game := [] |}.

Definition mine_context : CreepingOblivion.Context :=
  {| CreepingOblivion.player := 0%nat;
     CreepingOblivion.selects :=
       {[ "select" := {| CreepingOblivion.choice := "Mine" |} ]} |}.

Definition thresholds (section key : string) : number :=
  if String.eqb key "lowerDeckThreshold" then Num 10
  else if String.eqb key "middleDeckThreshold" then Num 50
  else Num 100.

Definition a_deck : Decks.Deck :=
  {| Decks.usageCount := Number (Num 60);
     Decks.usageLevel := Undefined;
     Decks.deck_cards :=
       [ {| Decks.enhancements := None |};
         {| Decks.enhancements := Some [EmptyString; "amber"] |} ];
     Decks.verified := Boolean false;
     Decks.basicRules := Undefined;
     Decks.notVerified := Undefined |}.

(** A verified deck whose enhancements are all set. *)
Definition verified_deck : Decks.Deck :=
  {| Decks.usageCount := Number (Num 5);
     Decks.usageLevel := Undefined;
     Decks.deck_cards :=
       [ {| Decks.enhancements := Some ["amber"] |};
         {| Decks.enhancements := None |} ];
     Decks.verified := Boolean true;
     Decks.basicRules := Undefined;
     Decks.notVerified := Undefined |}.

End Examples.

(** ** Sequences of calls and what a listener sees *)

(** The methods of a card that write to the store, as values, to speak of
    any sequence of calls. *)
Inductive Method : Type :=
| DoHonor
| DoDishonor
| DoModifyFate (amount : Z)
| DoModifyMilitarySkill (amount : Z) (applying : bool)
| DoModifyPoliticalSkill (amount : Z) (applying : bool)
| DoResetForConflict
| DoLeavesPlay
| DoUseCovertToBypass (targetCard : card_ref).

(** One call [this.method(...)]; the value a method returns is dropped. *)
Definition perform {BaseCard : Type}
    (hasKeyword : BaseCard -> string -> bool)
    (BaseCard_leavesPlay : BaseCard -> BaseCard)
    (this : card_ref) (m : Method) : M BaseCard unit :=
  match m with
  | DoHonor => honor this
  | DoDishonor => dishonor this
  | DoModifyFate amount => modifyFate this amount
  | DoModifyMilitarySkill amount applying =>
      modifyMilitarySkill this amount applying
  | DoModifyPoliticalSkill amount applying =>
      modifyPoliticalSkill this amount applying
  | DoResetForConflict => resetForConflict this
  | DoLeavesPlay => leavesPlay hasKeyword BaseCard_leavesPlay this
  | DoUseCovertToBypass targetCard =>
      _ <- useCovertToBypass hasKeyword this targetCard;; ret tt
  end.

(** The calls of a list, each on its own card, one after the other. *)
Fixpoint perform_all {BaseCard : Type}
    (hasKeyword : BaseCard -> string -> bool)
    (BaseCard_leavesPlay : BaseCard -> BaseCard)
    (calls : list (card_ref * Method)) : M BaseCard unit :=
  match calls with
  | [] => ret tt
  | (this, m) :: rest =>
      perform hasKeyword BaseCard_leavesPlay this m;;
      perform_all hasKeyword BaseCard_leavesPlay rest
  end.

(** [modifyFate] called with each amount of a list, in order. *)
Fixpoint modifyFate_each {BaseCard : Type} (this : card_ref)
    (amounts : list Z) : M BaseCard unit :=
  match amounts with
  | [] => ret tt
  | amount :: rest => modifyFate this amount;; modifyFate_each this rest
  end.

(** The field of a payload. *)
Fixpoint payload_field (key : string) (payload : list (string * Arg))
    : option Arg :=
  match payload with
  | [] => None
  | (k, v) :: rest => if String.eqb k key then Some v else payload_field key rest
  end.

(** What a listener of onCardFateChanged reads for card [this]: the fate
    field of each such event about this card, oldest first. *)
Definition fate_change (this : card_ref) (c : Call) : option Z :=
  match c with
  | raiseEvent name payload =>
      if String.eqb name "onCardFateChanged" then
        match payload_field "card" payload, payload_field "fate" payload with
        | Some (ACard r), Some (ANum d) =>
            if Nat.eqb r this then Some d else None
        | _, _ => None
        end
      else None
  | _ => None
  end.

Definition fate_changes (this : card_ref) (log : list Call) : list Z :=
  omap (fate_change this) log.

(** What every method keeps of a card: fate is not negative and the card is
    not both honored and dishonored. *)
Definition sound {BaseCard : Type} (c : DrawCard BaseCard) : Prop :=
  0 <= fate c /\ exclusive c.

(** A method on [this] leaves the players and the other cards alone. *)
Definition frames {BaseCard A : Type} (this : card_ref)
    (m : M BaseCard A) : Prop :=
  forall w,
    players (exec m w) = players w
    /\ forall other, other <> this -> cards (exec m w) other = cards w other.

(** The calls [leavesPlay] makes for a card: the honor payout, then the
    Sincerity draw, then the Courtesy fate. *)
Definition leavesPlay_calls {BaseCard : Type}
    (hasKeyword : BaseCard -> string -> bool)
    (this : card_ref) (c : DrawCard BaseCard) : list Call :=
  (if isHonored c then
     [addHonor (controller c) 1;
      addMessage "{0} gains 1 honor due to {1}'s personal honor"
        [APlayer (controller c); ACard this]]
   else if isDishonored c then
     [addHonor (controller c) (-1);
      addMessage "{0} loses 1 honor due to {1}'s personal honor"
        [APlayer (controller c); ACard this]]
   else [])
  ++ (if hasKeyword (base c) "sincerity" then
        [drawCardsToHand (controller c) 1;
         addMessage "{0} draws a card due to {1}'s Sincerity"
           [APlayer (controller c); ACard this]]
      else [])
  ++ (if hasKeyword (base c) "courtesy" then
        [addFate (controller c) 1;
         addMessage "{0} gains a fate due to {1}'s Courtesy"
           [APlayer (controller c); ACard this]]
      else []).

(** The card [leavesPlay] leaves: bow, conflict, fate and honor are reset,
    the inherited part went through the inherited [leavesPlay], everything
    else is as it was. *)
Definition left_play {BaseCard : Type}
    (BaseCard_leavesPlay : BaseCard -> BaseCard)
    (c : DrawCard BaseCard) : DrawCard BaseCard :=
  {| base := BaseCard_leavesPlay (base c);
     cardData := cardData c; controller := controller c;
     attachments := attachments c; parent := parent c;
     militarySkillModifier := militarySkillModifier c;
     politicalSkillModifier := politicalSkillModifier c;
     fate := 0; glory := glory c;
     contributesToFavor := contributesToFavor c;
     bowed := false; saved := saved c; inConflict := false;
     isConflict := isConflict c; isDynasty := isDynasty c;
     isHonored := false;
     isDishonored := if isHonored c then isDishonored c else false;
     readysDuringReadying := readysDuringReadying c;
     conflictOptions := conflictOptions c;
     stealthLimit := stealthLimit c;
     covert := covert c; covertTarget := covertTarget c;
     stealth := Boolean false; new := Boolean false |}.

Definition is_drawCardsToHand (c : Call) : bool :=
  match c with
  | drawCardsToHand _ _ => true
  | _ => false
  end.

Definition is_addFate (c : Call) : bool :=
  match c with
  | addFate _ _ => true
  | _ => false
  end.

Definition is_addMessage (c : Call) : bool :=
  match c with
  | addMessage _ _ => true
  | _ => false
  end.

(** The value of a skill query, from what it reads: whether the controller
    is in setup or the printed value is asked for, the printed value, the
    modifier, the sum of the attachment bonuses, the honor flags and the
    glory. *)
Definition skill_value (bypass : bool) (printed : value) (modifier : Z)
    (skillFromAttachments : number) (honored dishonored : bool)
    (glory : value) : value :=
  if bypass then JS.or printed Undefined
  else if is_present printed then
    Number
      (Math_max (Num 0)
         (JS.add
            (JS.add (JS.add (ToNumber printed) (Num modifier))
                    skillFromAttachments)
            (JS.sub
               (ToNumber (if honored then glory else Number (Num 0)))
               (ToNumber (if dishonored then glory else Number (Num 0))))))
  else Null.

(** The card [honor] leaves, and the card [dishonor] leaves. *)
Definition after_honor {BaseCard : Type} (c : DrawCard BaseCard)
    : DrawCard BaseCard :=
  if isDishonored c then set_isDishonored false c
  else if negb (isHonored c) then set_isHonored true c
  else c.

Definition after_dishonor {BaseCard : Type} (c : DrawCard BaseCard)
    : DrawCard BaseCard :=
  if isHonored c then set_isHonored false c
  else if negb (isDishonored c) then set_isDishonored true c
  else c.

(** * Properties *)

Example parseInt_plus : parseInt "+2" = Num 2.
Proof. reflexivity. Qed.

Example parseInt_minus : parseInt "-1" = Num (-1).
Proof. reflexivity. Qed.

Example parseInt_suffix : parseInt "  12px" = Num 12.
Proof. reflexivity. Qed.

Example parseInt_hex : parseInt "0x1F" = Num 31.
Proof. reflexivity. Qed.

Example parseInt_missing : parseInt "undefined" = NaN.
Proof. reflexivity. Qed.

Example parseInt_dash : parseInt "-" = NaN.
Proof. reflexivity. Qed.

(** The scenario of the rules: printed military 3, one attachment giving +2,
    glory 2.  Honored, the military skill is 3 + 2 + 2; dishonored, it is
    3 + 2 - 2. *)
Example scenario_honored :
  getMilitarySkill 0%nat false
    (Examples.in_play (Examples.host 0 true false)
       (Examples.attachment_giving "+2"))
  = Number (Num 7).
Proof. reflexivity. Qed.

Example scenario_dishonored :
  getMilitarySkill 0%nat false
    (Examples.in_play (Examples.host 0 false true)
       (Examples.attachment_giving "+2"))
  = Number (Num 3).
Proof. reflexivity. Qed.

(** A modifier below the total is clamped at 0. *)
Example scenario_clamped :
  getMilitarySkill 0%nat false
    (Examples.in_play (Examples.host (-40) false true)
       (Examples.attachment_giving "+2"))
  = Number (Num 0).
Proof. reflexivity. Qed.

(** A bonus that is not a number makes the sum, and the skill, NaN. *)
Example scenario_no_bonus :
  getMilitarySkill 0%nat false
    (Examples.in_play (Examples.host 0 true false)
       (Examples.attachment_giving "-"))
  = Number NaN.
Proof. reflexivity. Qed.

(** A card with no printed political skill has none to report. *)
Example scenario_no_stat :
  getPoliticalSkill 1%nat false
    (Examples.in_play (Examples.host 0 true false)
       (Examples.attachment_giving "+2"))
  = Null.
Proof. reflexivity. Qed.

(** ** Arithmetic on JavaScript numbers *)

Lemma add_0_l (a : number) : JS.add (Num 0) a = a.
Proof. destruct a; reflexivity. Qed.

Lemma add_0_r (a : number) : JS.add a (Num 0) = a.
Proof. destruct a; simpl; f_equal; lia. Qed.

Lemma add_assoc (a b c : number) :
  JS.add a (JS.add b c) = JS.add (JS.add a b) c.
Proof. destruct a, b, c; simpl; f_equal; lia. Qed.

Lemma add_sub_assoc (a b c : number) :
  JS.add a (JS.sub b c) = JS.sub (JS.add a b) c.
Proof. destruct a, b, c; simpl; f_equal; lia. Qed.

Lemma Math_max_0_nonneg (x : number) (z : Z) :
  Math_max (Num 0) x = Num z -> 0 <= z.
Proof. destruct x; simpl; intros H; inversion H; lia. Qed.

(** A left-to-right reduction that adds [f card] for every card is the
    starting value plus the sum of the values. *)
Lemma reduce_add {A : Type} (f : A -> number) (l : list A) (start : number) :
  fold_left (fun skill card => JS.add skill (f card)) l start
  = JS.add start (sum_numbers (map f l)).
Proof.
  revert start. induction l as [|x l IH]; intros start; simpl.
  - symmetry. apply add_0_r.
  - rewrite IH. symmetry. apply add_assoc.
Qed.

Lemma sum_numbers_Num (bs : list Z) :
  sum_numbers (map Num bs) = Num (foldr Z.add 0 bs).
Proof.
  unfold sum_numbers.
  induction bs as [|b bs IH]; [reflexivity|].
  cbn [map foldr]. rewrite IH. reflexivity.
Qed.

Lemma effective_skill_Num (p m : Z) (bs : list Z) (h d : bool) (g : Z) :
  spec_effective_skill (Num p) (Num m) (map Num bs) h d (Num g)
  = Num (spec_effective_skill_Z p m bs h d g).
Proof.
  unfold spec_effective_skill, spec_effective_skill_Z.
  rewrite sum_numbers_Num. destruct h, d; reflexivity.
Qed.

(** The three facets of the law follow from the first one. *)
Lemma effective_skill_law_intro {BaseCard : Type} (c : DrawCard BaseCard)
    (result : value) (p m : Z) (bonuses : list number) :
  result = Number (spec_effective_skill (Num p) (Num m) bonuses
                     (isHonored c) (isDishonored c) (ToNumber (glory c))) ->
  effective_skill_law c result p m bonuses.
Proof.
  intros ->. split; [reflexivity|]. split.
  - intros z H. injection H as H. unfold spec_effective_skill in H.
    eapply Math_max_0_nonneg, H.
  - intros bs g -> ->. f_equal. apply effective_skill_Num.
Qed.

(** The glory term the code computes. *)
Lemma skillFromGlory_eq (h d : bool) (g : value) (x : number) :
  JS.add x (JS.sub (ToNumber (if h then g else Number (Num 0)))
                   (ToNumber (if d then g else Number (Num 0))))
  = JS.sub (JS.add x (if h then ToNumber g else Num 0))
           (if d then ToNumber g else Num 0).
Proof. rewrite add_sub_assoc. destruct h, d; reflexivity. Qed.

Lemma eqb_setup_false (ph : string) :
  ph <> "setup" -> String.eqb ph "setup" = false.
Proof. intros H. apply String.eqb_neq. exact H. Qed.

(** Rewrites the branch a skill query takes on a card with a printed value,
    outside setup, into the formula of the rules. *)
Ltac skill_formula Hphase Hprinted :=
  unfold military_bonuses, political_bonuses, spec_effective_skill;
  rewrite Hphase, Hprinted;
  simpl orb; cbv iota; simpl is_present; cbv iota; simpl ToNumber at 1;
  rewrite reduce_add, add_0_l, skillFromGlory_eq;
  reflexivity.

(** C1. For a card with a printed military (resp. political) value whose
    controller is not in the setup phase, the skill query with [printed]
    false returns max(0, printed + modifier + sum of the attachments'
    bonuses + (glory if honored) - (glory if dishonored)); the number it
    returns is never negative, and on integer bonuses and glory it is the
    integer given by that formula. *)
Theorem skill_is_clamped_effective_value {BaseCard : Type}
    (w : World BaseCard) (this : card_ref) :
  phase (players w (controller (cards w this))) <> "setup" ->
  (forall p : Z, military (cardData (cards w this)) = Number (Num p) ->
     effective_skill_law (cards w this) (getMilitarySkill this false w)
       p (militarySkillModifier (cards w this)) (military_bonuses w this))
  /\
  (forall p : Z, political (cardData (cards w this)) = Number (Num p) ->
     effective_skill_law (cards w this) (getPoliticalSkill this false w)
       p (politicalSkillModifier (cards w this)) (political_bonuses w this)).
Proof.
  intros Hphase. apply eqb_setup_false in Hphase.
  split; intros p Hp; apply effective_skill_law_intro.
  - unfold getMilitarySkill. skill_formula Hphase Hp.
  - unfold getPoliticalSkill. skill_formula Hphase Hp.
Qed.

(** The honored host: printed military 3, modifier -1, one attachment giving
    +2, glory 2, outside the setup phase. *)
Lemma skill_is_clamped_effective_value_witness :
  phase (players Examples.conflict_world
           (controller (cards Examples.conflict_world 0%nat))) <> "setup"
  /\ military (cardData (cards Examples.conflict_world 0%nat))
     = Number (Num 3)
  /\ getMilitarySkill 0%nat false Examples.conflict_world = Number (Num 6)
  /\ political (cardData (cards Examples.conflict_world 0%nat))
     = Number (Num 0)
  /\ getPoliticalSkill 0%nat false Examples.conflict_world = Number (Num 3).
Proof.
  assert (Hphase : phase (players Examples.conflict_world
                     (controller (cards Examples.conflict_world 0%nat)))
                   <> "setup").
  { intros E. vm_compute in E. discriminate E. }
  destruct (skill_is_clamped_effective_value
              Examples.conflict_world 0%nat Hphase) as [Hmil Hpol].
  split; [exact Hphase|].
  split; [reflexivity|].
  split; [exact (proj2 (proj2 (Hmil 3 eq_refl)) [2] 2 eq_refl eq_refl)|].
  split; [reflexivity|].
  exact (proj2 (proj2 (Hpol 0 eq_refl)) [1] 2 eq_refl eq_refl).
Defined.

(** ** Running methods *)

(** Unfolds the plumbing of a method down to the world it leaves. *)
Ltac run :=
  unfold calls_of, mutate;
  unfold exec, eval, modifyFate, modifyMilitarySkill,
    modifyPoliticalSkill, honor, dishonor, useCovertToBypass, leavesPlay,
    resetForConflict, bind, ret, gets, read, assign, call;
  cbn -[insert].

Lemma lookup_assigned {BaseCard : Type} (f : card_ref -> DrawCard BaseCard)
    (this : card_ref) (c : DrawCard BaseCard) :
  <[this := c]> f this = c.
Proof. apply fn_lookup_insert. Qed.

Lemma lookup_other {BaseCard : Type} (f : card_ref -> DrawCard BaseCard)
    (this other : card_ref) (c : DrawCard BaseCard) :
  this <> other -> <[this := c]> f other = f other.
Proof. apply fn_lookup_insert_ne. Qed.

(** Simplifies the reads of the card a method just assigned. *)
Ltac settle := repeat (progress cbn -[insert] || rewrite lookup_assigned).

(** *** One card at a time *)

Section Runs.

Context {BaseCard : Type}.
Variable hasKeyword : BaseCard -> string -> bool.
Variable this : card_ref.
Implicit Types (c : DrawCard BaseCard) (log : list Call).

Lemma runs_ret {A : Type} (a : A) c log :
  runs this (ret a) c log a c log.
Proof. intros w Hc Hl. repeat split; assumption. Qed.

Lemma runs_bind {A B : Type} (m : M BaseCard A) (f : A -> M BaseCard B)
    c log a c1 log1 b c2 log2 :
  runs this m c log a c1 log1 ->
  runs this (f a) c1 log1 b c2 log2 ->
  runs this (bind m f) c log b c2 log2.
Proof.
  intros Hm Hf w Hc Hl. destruct (Hm w Hc Hl) as (Ha & Hc1 & Hl1).
  unfold eval, exec, bind in *. destruct (m w) as [a' w1]. cbn in *.
  subst a'. apply (Hf w1 Hc1 Hl1).
Qed.

Lemma runs_read {A : Type} (field : DrawCard BaseCard -> A) c log :
  runs this (read this field) c log (field c) c log.
Proof. intros w Hc Hl. cbn. rewrite Hc. repeat split; assumption. Qed.

Lemma runs_assign (f : DrawCard BaseCard -> DrawCard BaseCard) c log :
  runs this (assign this f) c log tt (f c) log.
Proof.
  intros w Hc Hl. cbn -[insert]. rewrite lookup_assigned, Hc.
  repeat split; assumption.
Qed.

Lemma runs_call (x : Call) c log :
  runs this (call x) c log tt c (log ++ [x]).
Proof. intros w Hc Hl. cbn. rewrite Hl. repeat split; assumption. Qed.

Lemma runs_hasSincerity c log :
  runs this (gets (hasSincerity hasKeyword this)) c log
    (hasKeyword (base c) "sincerity") c log.
Proof.
  intros w Hc Hl. cbn. unfold hasSincerity. rewrite Hc.
  repeat split; assumption.
Qed.

Lemma runs_hasCourtesy c log :
  runs this (gets (hasCourtesy hasKeyword this)) c log
    (hasKeyword (base c) "courtesy") c log.
Proof.
  intros w Hc Hl. cbn. unfold hasCourtesy. rewrite Hc.
  repeat split; assumption.
Qed.

End Runs.

(** Runs a method symbolically, one statement at a time; the conditions met
    on the way are decided by the equations in the context. *)
Ltac decide_condition :=
  cbn [isHonored isDishonored base controller fate set_bowed set_inConflict
       set_new set_fate set_isHonored set_isDishonored set_stealth set_base];
  repeat match goal with
         | E : ?b = _ |- context [if ?b then _ else _] => rewrite E
         end;
  cbn [negb].

Ltac step :=
  lazymatch goal with
  | |- runs _ (bind _ _) _ _ _ _ _ =>
      eapply runs_bind; [step | cbn beta; decide_condition; step]
  | |- runs _ (if _ then _ else _) _ _ _ _ _ =>
      decide_condition;
      lazymatch goal with
      | |- runs _ (if _ then _ else _) _ _ _ _ _ =>
          fail "the condition is not decided by the context"
      | _ => step
      end
  | |- runs _ (ret _) _ _ _ _ _ => apply runs_ret
  | |- runs _ (read _ _) _ _ _ _ _ => apply runs_read
  | |- runs _ (assign _ _) _ _ _ _ _ => apply runs_assign
  | |- runs _ (call _) _ _ _ _ _ => apply runs_call
  | |- runs _ (gets (hasSincerity _ _)) _ _ _ _ _ => apply runs_hasSincerity
  | |- runs _ (gets (hasCourtesy _ _)) _ _ _ _ _ => apply runs_hasCourtesy
  | |- runs _ (resetForConflict _) _ _ _ _ _ => unfold resetForConflict; step
  end.

(** ** Personal honor *)

(** [honor] leaves the card not dishonored, whatever it was. *)
Lemma honor_clears_dishonor {BaseCard : Type} (w : World BaseCard)
    (this : card_ref) :
  isDishonored (cards (exec (honor this) w) this) = false.
Proof.
  run. destruct (isDishonored (cards w this)) eqn:D; cbn -[insert].
  - rewrite lookup_assigned. reflexivity.
  - destruct (isHonored (cards w this)); cbn -[insert]; [exact D|].
    rewrite lookup_assigned. exact D.
Qed.

(** [dishonor] leaves the card not honored, whatever it was. *)
Lemma dishonor_clears_honor {BaseCard : Type} (w : World BaseCard)
    (this : card_ref) :
  isHonored (cards (exec (dishonor this) w) this) = false.
Proof.
  run. destruct (isHonored (cards w this)) eqn:H; cbn -[insert].
  - rewrite lookup_assigned. reflexivity.
  - destruct (isDishonored (cards w this)); cbn -[insert]; [exact H|].
    rewrite lookup_assigned. exact H.
Qed.

(** Neither touches another card. *)
Lemma honor_other {BaseCard : Type} (w : World BaseCard)
    (this other : card_ref) :
  this <> other -> cards (exec (honor this) w) other = cards w other.
Proof.
  intros Hne. run.
  destruct (isDishonored (cards w this)); cbn -[insert];
    [|destruct (isHonored (cards w this)); cbn -[insert]];
    rewrite ?lookup_other by assumption; reflexivity.
Qed.

Lemma dishonor_other {BaseCard : Type} (w : World BaseCard)
    (this other : card_ref) :
  this <> other -> cards (exec (dishonor this) w) other = cards w other.
Proof.
  intros Hne. run.
  destruct (isHonored (cards w this)); cbn -[insert];
    [|destruct (isDishonored (cards w this)); cbn -[insert]];
    rewrite ?lookup_other by assumption; reflexivity.
Qed.

(** C2. Mutual exclusion of honored and dishonored is preserved, for every
    card of the world, by [honor] and by [dishonor] on any card; [honor] on
    an honored card changes nothing, [honor] on a dishonored card clears the
    dishonored flag and leaves the card not honored; symmetrically for
    [dishonor]. *)
Theorem honor_dishonor_keep_exclusive {BaseCard : Type}
    (w : World BaseCard) (this card : card_ref) :
  exclusive (cards w card) ->
  exclusive (cards (exec (honor this) w) card)
  /\ exclusive (cards (exec (dishonor this) w) card)
  /\ (isHonored (cards w card) = true ->
        exec (honor card) w = w)
  /\ (isDishonored (cards w card) = true ->
        isDishonored (cards (exec (honor card) w) card) = false
        /\ isHonored (cards (exec (honor card) w) card) = false)
  /\ (isDishonored (cards w card) = true ->
        exec (dishonor card) w = w)
  /\ (isHonored (cards w card) = true ->
        isHonored (cards (exec (dishonor card) w) card) = false
        /\ isDishonored (cards (exec (dishonor card) w) card) = false).
Proof.
  intros Hex. unfold exclusive in *.
  assert (Hnot : isHonored (cards w card) = true ->
                 isDishonored (cards w card) = false).
  { intros H. destruct (isDishonored (cards w card)); [|reflexivity].
    exfalso. apply Hex. split; [exact H|reflexivity]. }
  assert (Hnot' : isDishonored (cards w card) = true ->
                  isHonored (cards w card) = false).
  { intros D. destruct (isHonored (cards w card)); [|reflexivity].
    exfalso. apply Hex. split; [reflexivity|exact D]. }
  repeat split.
  - destruct (decide (this = card)) as [<-|Hne].
    + rewrite honor_clears_dishonor. intros [_ D]. discriminate.
    + rewrite honor_other by assumption. exact Hex.
  - destruct (decide (this = card)) as [<-|Hne].
    + rewrite dishonor_clears_honor. intros [H _]. discriminate.
    + rewrite dishonor_other by assumption. exact Hex.
  - intros H. run. rewrite (Hnot H), H. reflexivity.
  - apply honor_clears_dishonor.
  - run. rewrite H. settle. apply Hnot', H.
  - intros D. run. rewrite (Hnot' D), D. reflexivity.
  - apply dishonor_clears_honor.
  - run. rewrite H. settle. apply Hnot, H.
Qed.

(** The honored host keeps the exclusion, [honor] leaves its world as it
    is and [dishonor] takes its honor away. *)
Lemma honor_dishonor_keep_exclusive_witness :
  exclusive (cards Examples.conflict_world 0%nat)
  /\ exclusive (cards (exec (honor 0%nat) Examples.conflict_world) 0%nat)
  /\ exclusive (cards (exec (dishonor 0%nat) Examples.conflict_world) 0%nat)
  /\ exec (honor 0%nat) Examples.conflict_world = Examples.conflict_world
  /\ isHonored (cards (exec (dishonor 0%nat) Examples.conflict_world) 0%nat)
     = false.
Proof.
  assert (Hex : exclusive (cards Examples.conflict_world 0%nat)).
  { intros [_ D]. vm_compute in D. discriminate D. }
  destruct (honor_dishonor_keep_exclusive
              Examples.conflict_world 0%nat 0%nat Hex)
    as (H1 & H2 & H3 & _ & _ & H6).
  split; [exact Hex|].
  split; [exact H1|].
  split; [exact H2|].
  split; [exact (H3 eq_refl)|].
  exact (proj1 (H6 eq_refl)).
Defined.

(** C3, as the code has it.  [honor] then [dishonor] leaves the card not
    honored, and dishonored exactly when it started dishonored and not
    honored: a card that started honored or with no status ends with
    neither flag. *)
Theorem honor_then_dishonor {BaseCard : Type} (w : World BaseCard)
    (this : card_ref) :
  let w' := exec (honor this ;; dishonor this) w in
  isHonored (cards w' this) = false
  /\ isDishonored (cards w' this)
     = isDishonored (cards w this) && negb (isHonored (cards w this)).
Proof.
  run.
  destruct (isDishonored (cards w this)) eqn:D,
           (isHonored (cards w this)) eqn:H;
    repeat (progress cbn -[insert] || rewrite lookup_assigned
            || rewrite H || rewrite D);
    split; reflexivity.
Qed.

(** C3 fails on a new card: honoring and then dishonoring it returns it to
    no status, it is not dishonored. *)
Lemma honor_then_dishonor_new_card :
  let w' :=
    exec (honor 0%nat ;; dishonor 0%nat) (Examples.fresh_world "conflict") in
  ~ (isDishonored (cards w' 0%nat) = true
     /\ isHonored (cards w' 0%nat) = false).
Proof. cbv zeta. vm_compute. intros [H _]. discriminate. Qed.

(** ** Fate *)

(** The fate [modifyFate] leaves and the event it raises, with the test of
    the code. *)
Lemma modifyFate_effect {BaseCard : Type} (w : World BaseCard)
    (this : card_ref) (amount : Z) :
  let old := fate (cards w this) in
  let final := if old + amount <? 0 then 0 else old + amount in
  let w' := exec (modifyFate this amount) w in
  fate (cards w' this) = final
  /\ game w' =
       (game w ++
        [raiseEvent "onCardFateChanged"
           [("card", ACard this); ("fate", ANum (final - old))]])%list.
Proof.
  intros old final w'.
  assert (R : runs this (modifyFate this amount) (cards w this) (game w) tt
                (set_fate final (cards w this))
                (game w ++
                 [raiseEvent "onCardFateChanged"
                    [("card", ACard this); ("fate", ANum (final - old))]])).
  { subst final old. unfold modifyFate.
    destruct (fate (cards w this) + amount <? 0) eqn:E; step. }
  destruct (R w eq_refl eq_refl) as (_ & Hcard & Hlog).
  fold w' in Hcard, Hlog. rewrite Hcard, Hlog. split; reflexivity.
Qed.

(** C5. [modifyFate(amount)] sets the fate of the card to
    max(0, old fate + amount), which is not negative, and raises one
    onCardFateChanged event whose fate field is the new fate minus the old
    one. *)
Theorem modifyFate_clamps_and_reports {BaseCard : Type}
    (w : World BaseCard) (this : card_ref) (amount : Z) :
  let w' := exec (modifyFate this amount) w in
  fate (cards w' this) = Z.max 0 (fate (cards w this) + amount)
  /\ 0 <= fate (cards w' this)
  /\ game w' =
       (game w ++
        [raiseEvent "onCardFateChanged"
           [("card", ACard this);
            ("fate", ANum (fate (cards w' this) - fate (cards w this)))]])%list.
Proof.
  cbv zeta.
  destruct (modifyFate_effect w this amount) as [Hfate Hlog].
  cbv zeta in Hfate, Hlog. rewrite Hlog, Hfate.
  destruct (Z.ltb_spec (fate (cards w this) + amount) 0) as [Hneg|Hpos].
  - rewrite Z.max_l by lia. split; [reflexivity|split; [lia|reflexivity]].
  - rewrite Z.max_r by lia. split; [reflexivity|split; [lia|reflexivity]].
Qed.

(** ** Events *)

(** C7, as the code has it.  The three modify operations append exactly one
    event to the log, named after the change and carrying the card and the
    amount; [honor] and [dishonor] change the flags without any call on the
    game. *)
Theorem modifications_raise_events {BaseCard : Type}
    (w : World BaseCard) (this : card_ref) (amount : Z) (applying : bool) :
  calls_of (mutate (ModifyFate amount) this) w =
    [raiseEvent "onCardFateChanged"
       [("card", ACard this);
        ("fate",
         ANum (fate (cards (exec (modifyFate this amount) w) this)
               - fate (cards w this)))]]
  /\ calls_of (mutate (ModifyMilitarySkill amount applying) this) w =
    [raiseEvent "onCardMilitarySkillChanged"
       [("card", ACard this); ("amount", ANum amount);
        ("applying", ABool applying)]]
  /\ militarySkillModifier
       (cards (exec (modifyMilitarySkill this amount applying) w) this)
     = militarySkillModifier (cards w this) + amount
  /\ calls_of (mutate (ModifyPoliticalSkill amount applying) this) w =
    [raiseEvent "onCardPoliticalSkillChanged"
       [("card", ACard this); ("amount", ANum amount);
        ("applying", ABool applying)]]
  /\ politicalSkillModifier
       (cards (exec (modifyPoliticalSkill this amount applying) w) this)
     = politicalSkillModifier (cards w this) + amount
  /\ calls_of (mutate Honor this) w = []
  /\ calls_of (mutate Dishonor this) w = [].
Proof.
  repeat split.
  - unfold calls_of. cbn [mutate].
    destruct (modifyFate_effect w this amount) as [Hfate Hlog].
    cbv zeta in Hfate, Hlog. rewrite Hlog, Hfate, drop_app_length.
    reflexivity.
  - run. rewrite drop_app_length. reflexivity.
  - run. rewrite lookup_assigned. reflexivity.
  - run. rewrite drop_app_length. reflexivity.
  - run. rewrite lookup_assigned. reflexivity.
  - run. destruct (isDishonored (cards w this));
      [|destruct (isHonored (cards w this))];
      cbn -[insert]; apply drop_all.
  - run. destruct (isHonored (cards w this));
      [|destruct (isDishonored (cards w this))];
      cbn -[insert]; apply drop_all.
Qed.

(** C7 fails for [honor]: on a new card it sets the honored flag and nothing
    is raised. *)
Lemma honor_raises_no_event :
  let w := Examples.fresh_world "conflict" in
  isHonored (cards w 0%nat)
    <> isHonored (cards (exec (mutate Honor 0%nat) w) 0%nat)
  /\ ~ (exists name payload,
          In (raiseEvent name payload) (calls_of (mutate Honor 0%nat) w)).
Proof.
  cbv zeta. split.
  - vm_compute. discriminate.
  - intros (name & payload & H). vm_compute in H. exact H.
Qed.

(** ** Leaving play *)

(** What [leavesPlay] leaves of the card and adds to the log, by the honor
    status of the card and its keywords. *)
Lemma leavesPlay_effect {BaseCard : Type}
    (hasKeyword : BaseCard -> string -> bool)
    (BaseCard_leavesPlay : BaseCard -> BaseCard)
    (w : World BaseCard) (this : card_ref) :
  let c := cards w this in
  let w' := exec (leavesPlay hasKeyword BaseCard_leavesPlay this) w in
  let c' := cards w' this in
  bowed c' = false /\ inConflict c' = false /\ fate c' = 0
  /\ isHonored c' = false
  /\ isDishonored c' = isDishonored c && isHonored c
  /\ List.filter is_addHonor
       (calls_of (leavesPlay hasKeyword BaseCard_leavesPlay this) w)
     = if isHonored c then [addHonor (controller c) 1]
       else if isDishonored c then [addHonor (controller c) (-1)]
       else [].
Proof.
  intros c w' c'. unfold calls_of. fold w'. subst c'.
  assert (Hruns : exists c1 log1,
    runs this (leavesPlay hasKeyword BaseCard_leavesPlay this)
         c (game w) tt c1 log1
    /\ bowed c1 = false /\ inConflict c1 = false /\ fate c1 = 0
    /\ isHonored c1 = false
    /\ isDishonored c1 = isDishonored c && isHonored c
    /\ List.filter is_addHonor (drop (length (game w)) log1)
       = if isHonored c then [addHonor (controller c) 1]
         else if isDishonored c then [addHonor (controller c) (-1)]
         else []).
  { destruct (isHonored c) eqn:H, (isDishonored c) eqn:D,
             (hasKeyword (base c) "sincerity") eqn:S,
             (hasKeyword (base c) "courtesy") eqn:K;
      do 2 eexists; (split; [unfold leavesPlay; step|]);
      rewrite <- ?app_assoc, ?drop_app_length, ?drop_all;
      cbn; rewrite ?H, ?D; repeat split; reflexivity. }
  destruct Hruns as (c1 & log1 & Hruns & Hb & Hc & Hf & Hh & Hd & Hcalls).
  destruct (Hruns w eq_refl eq_refl) as (_ & Hcard & Hlog).
  fold w' in Hcard, Hlog. rewrite Hcard, Hlog.
  repeat split; assumption.
Qed.

(** C6. [leavesPlay] on an honored card calls [addHonor] once, for the
    controller and +1, clears the honored flag and resets bowed, inConflict
    and fate; a second [leavesPlay] grants no honor, and makes no honor call
    at all on a card that was not also dishonored. *)
Theorem leavesPlay_pays_honor_once {BaseCard : Type}
    (hasKeyword : BaseCard -> string -> bool)
    (BaseCard_leavesPlay : BaseCard -> BaseCard)
    (w : World BaseCard) (this : card_ref) :
  isHonored (cards w this) = true ->
  let leave := leavesPlay hasKeyword BaseCard_leavesPlay this in
  let w' := exec leave w in
  List.filter is_addHonor (calls_of leave w)
    = [addHonor (controller (cards w this)) 1]
  /\ isHonored (cards w' this) = false
  /\ bowed (cards w' this) = false
  /\ inConflict (cards w' this) = false
  /\ fate (cards w' this) = 0
  /\ (forall p n, In (addHonor p n) (calls_of leave w') -> n < 0)
  /\ (isDishonored (cards w this) = false ->
        List.filter is_addHonor (calls_of leave w') = []).
Proof.
  intros H. cbv zeta.
  set (leave := leavesPlay hasKeyword BaseCard_leavesPlay this).
  set (w' := exec leave w).
  pose proof (leavesPlay_effect hasKeyword BaseCard_leavesPlay w this) as E.
  pose proof (leavesPlay_effect hasKeyword BaseCard_leavesPlay w' this) as E'.
  cbv zeta in E, E'. fold leave in E, E'. fold w' in E.
  destruct E as (Hb & Hc & Hf & Hh & Hd & Hcalls).
  destruct E' as (_ & _ & _ & _ & _ & Hcalls').
  rewrite H in Hcalls. rewrite Hh in Hcalls'.
  repeat split; try assumption.
  - intros p n Hin.
    assert (Hin' : In (addHonor p n)
                     (List.filter is_addHonor (calls_of leave w'))).
    { apply filter_In. split; [exact Hin|reflexivity]. }
    rewrite Hcalls' in Hin'.
    destruct (isDishonored (cards w' this)); [|destruct Hin'].
    destruct Hin' as [Heq|[]]. inversion Heq. lia.
  - intros D. rewrite Hcalls', Hd, D. reflexivity.
Qed.

(** The honored host leaves play: one honor for player 0, its fate is
    gone, and leaving again pays nothing. *)
Lemma leavesPlay_pays_honor_once_witness :
  let leave := leavesPlay Examples.has Examples.keep 0%nat in
  isHonored (cards Examples.conflict_world 0%nat) = true
  /\ List.filter is_addHonor (calls_of leave Examples.conflict_world)
     = [addHonor 0%nat 1]
  /\ fate (cards (exec leave Examples.conflict_world) 0%nat) = 0
  /\ List.filter is_addHonor
       (calls_of leave (exec leave Examples.conflict_world)) = [].
Proof.
  cbv zeta.
  destruct (leavesPlay_pays_honor_once Examples.has Examples.keep
              Examples.conflict_world 0%nat eq_refl)
    as (H1 & _ & _ & _ & H5 & _ & H7).
  split; [reflexivity|].
  split; [exact H1|].
  split; [exact H5|].
  exact (H7 eq_refl).
Defined.

(** ** Covert *)

(** C10. [useCovertToBypass] does all or nothing: when the source is not
    covert or the target is covert it returns false and the world is as it
    was; otherwise it returns true, the target has its covert flag set, the
    source has the target as its covertTarget, and nothing else changed. *)
Theorem useCovertToBypass_all_or_nothing {BaseCard : Type}
    (hasKeyword : BaseCard -> string -> bool)
    (w : World BaseCard) (this targetCard : card_ref) :
  (isCovert hasKeyword this w = false
   \/ isCovert hasKeyword targetCard w = true ->
   useCovertToBypass hasKeyword this targetCard w = (false, w))
  /\
  (isCovert hasKeyword this w = true ->
   isCovert hasKeyword targetCard w = false ->
   let w' := exec (useCovertToBypass hasKeyword this targetCard) w in
   eval (useCovertToBypass hasKeyword this targetCard) w = true
   /\ cards w' targetCard = set_covert (Boolean true) (cards w targetCard)
   /\ cards w' this = set_covertTarget (Some targetCard) (cards w this)
   /\ (forall other, other <> this -> other <> targetCard ->
         cards w' other = cards w other)
   /\ players w' = players w
   /\ game w' = game w).
Proof.
  split.
  - intros Hcase. run. unfold canUseCovertToBypass, canBeBypassedByCovert.
    destruct Hcase as [-> | ->]; [reflexivity|].
    rewrite andb_false_r. reflexivity.
  - intros Hsrc Htgt.
    assert (Hne : targetCard <> this).
    { intros ->. rewrite Hsrc in Htgt. discriminate. }
    run. unfold canUseCovertToBypass, canBeBypassedByCovert.
    rewrite Hsrc, Htgt. settle.
    repeat split.
    + rewrite lookup_other by (intros E; apply Hne; symmetry; exact E).
      apply lookup_assigned.
    + rewrite (lookup_other _ targetCard this) by exact Hne. reflexivity.
    + intros other H1 H2.
      rewrite !lookup_other by (intros E; symmetry in E; contradiction).
      reflexivity.
Qed.

(** Card 0 is covert and card 1 is not: 0 bypasses 1, 1 cannot bypass
    0. *)
Lemma useCovertToBypass_all_or_nothing_witness :
  let w := Examples.covert_world in
  isCovert Examples.has 0%nat w = true
  /\ isCovert Examples.has 1%nat w = false
  /\ eval (useCovertToBypass Examples.has 0%nat 1%nat) w = true
  /\ cards (exec (useCovertToBypass Examples.has 0%nat 1%nat) w) 1%nat
     = set_covert (Boolean true) (cards w 1%nat)
  /\ cards (exec (useCovertToBypass Examples.has 0%nat 1%nat) w) 0%nat
     = set_covertTarget (Some 1%nat) (cards w 0%nat)
  /\ useCovertToBypass Examples.has 1%nat 0%nat w = (false, w).
Proof.
  cbv zeta.
  destruct (useCovertToBypass_all_or_nothing Examples.has
              Examples.covert_world 0%nat 1%nat) as [_ Hyes].
  destruct (useCovertToBypass_all_or_nothing Examples.has
              Examples.covert_world 1%nat 0%nat) as [Hno _].
  destruct (Hyes eq_refl eq_refl) as (H1 & H2 & H3 & _).
  split; [reflexivity|].
  split; [reflexivity|].
  split; [exact H1|].
  split; [exact H2|].
  split; [exact H3|].
  apply Hno. left. reflexivity.
Defined.

(** ** Printed values *)

(** In the setup phase, or when the printed value is asked for, the query
    returns the printed number unless that number is 0, for which it returns
    undefined, as it does for a card with no printed value. *)
Lemma printed_skill_query {BaseCard : Type} (w : World BaseCard)
    (this : card_ref) (printed : bool) :
  phase (players w (controller (cards w this))) = "setup" \/ printed = true ->
  getMilitarySkill this printed w
    = JS.or (military (cardData (cards w this))) Undefined
  /\ getPoliticalSkill this printed w
    = JS.or (political (cardData (cards w this))) Undefined
  /\ (forall p : Z, JS.or (Number (Num p)) Undefined
                    = if p =? 0 then Undefined else Number (Num p))
  /\ JS.or Null Undefined = Undefined
  /\ JS.or Undefined Undefined = Undefined.
Proof.
  intros Hcase.
  assert (Hcond : String.eqb (phase (players w (controller (cards w this))))
                    "setup" || printed = true).
  { destruct Hcase as [-> | ->]; [reflexivity|apply orb_true_r]. }
  unfold getMilitarySkill, getPoliticalSkill. rewrite Hcond.
  repeat split. intros p. unfold JS.or. cbn. destruct (p =? 0); reflexivity.
Qed.

(** C4 fails on the code for a printed value of 0.  The character has a
    printed political skill of 0: in the setup phase, and when the printed
    value is asked for, the query returns undefined rather than 0, while the
    same card outside setup reports the number 0. *)
Theorem printed_zero_reads_undefined :
  political (cardData (cards (Examples.fresh_world "setup") 0%nat))
    = Number (Num 0)
  /\ getPoliticalSkill 0%nat false (Examples.fresh_world "setup") = Undefined
  /\ getPoliticalSkill 0%nat true (Examples.fresh_world "conflict") = Undefined
  /\ getPoliticalSkill 0%nat false (Examples.fresh_world "conflict")
     = Number (Num 0).
Proof. repeat split. Qed.

(** ** Creeping Oblivion *)

Lemma length_pos_nonempty {A : Type} (l : list A) :
  (0 <? Z.of_nat (length l)) = true <-> l <> [].
Proof.
  destruct l; cbn; split; intros H; try congruence; try reflexivity.
  discriminate.
Qed.

(** C8. 'Mine' is a legal choice exactly when the acting player's discard
    pile is not empty; 'Opponent's' exactly when the player has an opponent
    whose discard pile is not empty; the 'cards' group depends on 'select',
    its player is the acting player when the choice was 'Mine' and the
    opponent otherwise, and it accepts the selections of at most 2 distinct
    cards of that player's discard pile. *)
Theorem creeping_oblivion_targets {BaseCard : Type} (w : World BaseCard)
    (context : CreepingOblivion.Context) :
  let t := CreepingOblivion.setupCardAbilities BaseCard in
  let me := players w (CreepingOblivion.player context) in
  (CreepingOblivion.choice_is_legal (CreepingOblivion.select t)
     "Mine" context w = true
   <-> discard me <> [])
  /\ (CreepingOblivion.choice_is_legal (CreepingOblivion.select t)
        "Opponent's" context w = true
      <-> exists opp, opponent me = Some opp /\ discard (players w opp) <> [])
  /\ CreepingOblivion.dependsOn (CreepingOblivion.cards_target t) = "select"
  /\ (forall s,
        CreepingOblivion.selects context !! "select" = Some s ->
        let chosen :=
          if String.eqb (CreepingOblivion.choice s) "Mine"
          then Some (CreepingOblivion.player context)
          else opponent me in
        CreepingOblivion.cards_player (CreepingOblivion.cards_target t)
          context w = CreepingOblivion.Returns chosen
        /\ forall selected : list card_ref,
             CreepingOblivion.legal_selection
               (CreepingOblivion.cards_target t) context w selected
             <-> exists p, chosen = Some p
                   /\ NoDup selected
                   /\ (forall c, In c selected ->
                         In c (discard (players w p)))
                   /\ (length selected <= 2)%nat).
Proof.
  cbv zeta. split; [|split; [|split; [reflexivity|]]].
  - unfold CreepingOblivion.choice_is_legal. cbn.
    rewrite ?orb_false_r, ?andb_true_l, ?orb_false_l. apply length_pos_nonempty.
  - unfold CreepingOblivion.choice_is_legal. cbn.
    rewrite ?orb_false_r, ?andb_true_l, ?orb_false_l.
    destruct (opponent (players w (CreepingOblivion.player context)))
      as [opp|]; cbn.
    + rewrite length_pos_nonempty. split.
      * intros H. exists opp. split; [reflexivity|exact H].
      * intros (opp' & Heq & H). injection Heq as <-. exact H.
    + split; [discriminate|]. intros (opp' & Heq & _). discriminate.
  - intros s Hs. split.
    + cbn. rewrite Hs. reflexivity.
    + intros selected. unfold CreepingOblivion.legal_selection. cbn.
      rewrite Hs. split.
      * intros (_ & p & Hp & Hnd & Hin & Hlen). exists p.
        injection Hp as Hp. repeat split; assumption.
      * intros (p & Hp & Hnd & Hin & Hlen). split; [reflexivity|].
        exists p. rewrite Hp. repeat split; assumption.
Qed.

(** Player 0 has cards 4 and 7 in the discard pile, the opponent has none:
    'Mine' is legal, 'Opponent's' is not, and after 'Mine' both cards may
    be selected. *)
Lemma creeping_oblivion_targets_witness :
  let t := CreepingOblivion.setupCardAbilities Examples.Keywords in
  discard (players Examples.discard_world 0%nat) <> []
  /\ CreepingOblivion.choice_is_legal (CreepingOblivion.select t)
       "Mine" Examples.mine_context Examples.discard_world = true
  /\ CreepingOblivion.choice_is_legal (CreepingOblivion.select t)
       "Opponent's" Examples.mine_context Examples.discard_world <> true
  /\ CreepingOblivion.legal_selection (CreepingOblivion.cards_target t)
       Examples.mine_context Examples.discard_world [7%nat; 4%nat].
Proof.
  cbv zeta.
  destruct (creeping_oblivion_targets Examples.discard_world
              Examples.mine_context) as (Hmine & Hopp & _ & Hcards).
  assert (Hpile : discard (players Examples.discard_world 0%nat) <> []).
  { intros E. vm_compute in E. discriminate E. }
  split; [exact Hpile|].
  split; [exact (proj2 Hmine Hpile)|].
  split.
  - intros Hlegal. destruct (proj1 Hopp Hlegal) as (opp & Heq & Hne).
    vm_compute in Heq. injection Heq as <-. apply Hne. reflexivity.
  - destruct (Hcards {| CreepingOblivion.choice := "Mine" |} eq_refl)
      as [_ Hsel].
    apply Hsel. exists 0%nat. split; [reflexivity|].
    split; [|split].
    + apply (bool_decide_unpack _). vm_compute. exact I.
    + intros c [<-|[<-|[]]]; cbn; [right; left|left]; reflexivity.
    + cbn. lia.
Defined.

(** ** The deck list *)

(** The flags the projection gives a deck, read on the deck it was given:
    the cards and the verified mark pass through unchanged. *)
Lemma project_flags (getValueForSection : string -> string -> number)
    (found : Decks.Deck) :
  let deck := Decks.project getValueForSection found in
  Decks.deck_cards deck = Decks.deck_cards found
  /\ Decks.verified deck = Decks.verified found
  /\ (Decks.basicRules deck = Boolean false
      <-> exists c rest, In c (Decks.deck_cards found)
            /\ Decks.enhancements c = Some (EmptyString :: rest))
  /\ (Decks.notVerified deck = Boolean true
      <-> (exists c, In c (Decks.deck_cards found)
             /\ is_Some (Decks.enhancements c))
          /\ truthy (Decks.verified found) = false)
  /\ (exists b, Decks.basicRules deck = Boolean b)
  /\ (exists b, Decks.notVerified deck = Boolean b).
Proof.
  cbv zeta. unfold Decks.project.
  cbn [Decks.basicRules Decks.notVerified Decks.deck_cards Decks.verified].
  split; [reflexivity|]. split; [reflexivity|].
  split; [|split; [|split; eexists; reflexivity]].
  - destruct (existsb _ (Decks.deck_cards found)) eqn:E.
    + split; [intros _|reflexivity].
      apply existsb_exists in E as (c & Hc & Hfirst).
      destruct (Decks.enhancements c) as [[|first rest]|] eqn:Henh;
        try discriminate.
      apply String.eqb_eq in Hfirst. subst first.
      exists c, rest. split; assumption.
    + split; [discriminate|]. intros (c & rest & Hc & Henh).
      assert (Htrue : existsb
                (fun c => match Decks.enhancements c with
                          | Some (first :: _) => String.eqb first EmptyString
                          | _ => false
                          end) (Decks.deck_cards found) = true).
      { apply existsb_exists. exists c. split; [exact Hc|].
        rewrite Henh. reflexivity. }
      rewrite Htrue in E. discriminate.
  - destruct (existsb _ (Decks.deck_cards found)) eqn:E.
    + apply existsb_exists in E as (c & Hc & Hsome).
      apply bool_decide_eq_true in Hsome.
      destruct (truthy (Decks.verified found)); cbn.
      * split; [discriminate|]. intros [_ H]. discriminate.
      * split; [intros _|reflexivity]. split; [|reflexivity].
        exists c. split; assumption.
    + cbn. split; [discriminate|]. intros [(c & Hc & Hsome) _].
      assert (Htrue : existsb
                (fun c => bool_decide (is_Some (Decks.enhancements c)))
                (Decks.deck_cards found) = true).
      { apply existsb_exists. exists c. split; [exact Hc|].
        apply bool_decide_eq_true. exact Hsome. }
      rewrite Htrue in E. discriminate.
Qed.

(** C9. The answer of the deck list has one deck for each deck the service
    found, in the same order, with the cards and the verified mark of that
    deck; its basicRules flag is false exactly when one of the cards of the
    deck found has an enhancements list that starts with the empty string,
    and its notVerified flag is true exactly when one of those cards has an
    enhancements list and the deck found is not verified.  When the service
    counts no deck the answer has none. *)
Theorem deck_flags (getValueForSection : string -> string -> number)
    (getNumDecksForUser : Z) (findForUser : list Decks.Deck) :
  let answer :=
    Decks.get_decks getValueForSection getNumDecksForUser findForUser in
  (getNumDecksForUser <= 0 -> Decks.decks answer = [])
  /\ (0 < getNumDecksForUser ->
      Forall2
        (fun found deck =>
           Decks.deck_cards deck = Decks.deck_cards found
           /\ Decks.verified deck = Decks.verified found
           /\ (Decks.basicRules deck = Boolean false
               <-> exists c rest, In c (Decks.deck_cards found)
                     /\ Decks.enhancements c = Some (EmptyString :: rest))
           /\ (Decks.notVerified deck = Boolean true
               <-> (exists c, In c (Decks.deck_cards found)
                      /\ is_Some (Decks.enhancements c))
                   /\ truthy (Decks.verified found) = false)
           /\ (exists b, Decks.basicRules deck = Boolean b)
           /\ (exists b, Decks.notVerified deck = Boolean b))
        findForUser (Decks.decks answer)).
Proof.
  cbv zeta. unfold Decks.get_decks. cbn [Decks.decks].
  split; intros Hnum.
  - destruct (Z.ltb_spec 0 getNumDecksForUser) as [Hlt|_];
      [lia|reflexivity].
  - destruct (Z.ltb_spec 0 getNumDecksForUser) as [_|Hle]; [|lia].
    induction findForUser as [|found rest IH]; cbn [map].
    + constructor.
    + constructor; [|exact IH].
      exact (project_flags getValueForSection found).
Qed.

(** Two decks found: an unverified deck with a card whose enhancements start
    with the empty text, then a verified deck whose enhancements are set. *)
Lemma deck_flags_witness :
  let answer :=
    Decks.get_decks Examples.thresholds 2
      [Examples.a_deck; Examples.verified_deck] in
  exists first second,
    Decks.decks answer = [first; second]
    /\ Decks.basicRules first = Boolean false
    /\ Decks.notVerified first = Boolean true
    /\ Decks.basicRules second <> Boolean false
    /\ Decks.notVerified second <> Boolean true
    /\ Decks.verified second = Boolean true.
Proof.
  cbv zeta.
  assert (Hnum : 0 < 2) by lia.
  pose proof (proj2 (deck_flags Examples.thresholds 2
                       [Examples.a_deck; Examples.verified_deck]) Hnum)
    as Hall.
  cbv zeta in Hall.
  change (Decks.decks
            (Decks.get_decks Examples.thresholds 2
               [Examples.a_deck; Examples.verified_deck]))
    with [Decks.project Examples.thresholds Examples.a_deck;
          Decks.project Examples.thresholds Examples.verified_deck]
    in Hall |- *.
  apply Forall2_cons_1 in Hall as [Hfirst Hall].
  apply Forall2_cons_1 in Hall as [Hsecond _].
  destruct Hfirst as (_ & _ & Hbasic & Hnot & _).
  destruct Hsecond as (_ & Hverified & Hbasic' & Hnot' & _).
  eexists _, _. split; [reflexivity|].
  split; [|split; [|split; [|split]]].
  - apply Hbasic.
    exists {| Decks.enhancements := Some [EmptyString; "amber"] |}, ["amber"].
    split; [right; left; reflexivity|reflexivity].
  - apply Hnot. split; [|reflexivity].
    exists {| Decks.enhancements := Some [EmptyString; "amber"] |}.
    split; [right; left; reflexivity|]. eexists. reflexivity.
  - intros E. apply Hbasic' in E as (c & rest & Hc & Henh).
    destruct Hc as [<-|[<-|[]]]; discriminate Henh.
  - intros E. apply Hnot' in E as [_ E]. discriminate E.
  - exact Hverified.
Defined.

(** * Further properties of the card methods *)

(** ** What a method leaves alone *)

Section Frames.

Context {BaseCard : Type}.
Variable this : card_ref.

Lemma frames_ret {A : Type} (a : A) : frames (BaseCard := BaseCard) this (ret a).
Proof. intros w. split; [reflexivity|]. intros other _. reflexivity. Qed.

Lemma frames_gets {A : Type} (f : World BaseCard -> A) : frames this (gets f).
Proof. intros w. split; [reflexivity|]. intros other _. reflexivity. Qed.

Lemma frames_read {A : Type} (r : card_ref) (field : DrawCard BaseCard -> A) :
  frames this (read r field).
Proof. apply frames_gets. Qed.

Lemma frames_call (c : Call) : frames (BaseCard := BaseCard) this (call c).
Proof. intros w. split; [reflexivity|]. intros other _. reflexivity. Qed.

Lemma frames_assign (f : DrawCard BaseCard -> DrawCard BaseCard) :
  frames this (assign this f).
Proof.
  intros w. split; [reflexivity|]. intros other Hne.
  unfold exec, assign. cbn -[insert]. apply lookup_other.
  intros E. apply Hne. symmetry. exact E.
Qed.

Lemma frames_bind {A B : Type} (m : M BaseCard A) (f : A -> M BaseCard B) :
  frames this m -> (forall a, frames this (f a)) -> frames this (bind m f).
Proof.
  intros Hm Hf w. specialize (Hm w). unfold exec, bind in *.
  destruct (m w) as [a w1]. cbn [snd] in Hm. destruct Hm as [Hp Hc].
  destruct (Hf a w1) as [Hp' Hc']. unfold exec in Hp', Hc'.
  split; [congruence|]. intros other Hne.
  rewrite Hc' by exact Hne. apply Hc, Hne.
Qed.

End Frames.

(** Walks through a method body built from reads, assignments to [this] and
    calls. *)
Ltac frame :=
  repeat first
    [ apply frames_ret | apply frames_read | apply frames_gets
    | apply frames_assign | apply frames_call
    | apply frames_bind; [|intros ?]
    | match goal with
      | |- frames _ (if ?b then _ else _) => destruct b
      end ].

Lemma frames_honor {BaseCard : Type} (this : card_ref) :
  frames (BaseCard := BaseCard) this (honor this).
Proof. unfold honor. frame. Qed.

Lemma frames_dishonor {BaseCard : Type} (this : card_ref) :
  frames (BaseCard := BaseCard) this (dishonor this).
Proof. unfold dishonor. frame. Qed.

Lemma frames_modifyFate {BaseCard : Type} (this : card_ref) (amount : Z) :
  frames (BaseCard := BaseCard) this (modifyFate this amount).
Proof. unfold modifyFate. frame. Qed.

Lemma frames_modifyMilitarySkill {BaseCard : Type} (this : card_ref)
    (amount : Z) (applying : bool) :
  frames (BaseCard := BaseCard) this
    (modifyMilitarySkill this amount applying).
Proof. unfold modifyMilitarySkill. frame. Qed.

Lemma frames_modifyPoliticalSkill {BaseCard : Type} (this : card_ref)
    (amount : Z) (applying : bool) :
  frames (BaseCard := BaseCard) this
    (modifyPoliticalSkill this amount applying).
Proof. unfold modifyPoliticalSkill. frame. Qed.

Lemma frames_resetForConflict {BaseCard : Type} (this : card_ref) :
  frames (BaseCard := BaseCard) this (resetForConflict this).
Proof. unfold resetForConflict. frame. Qed.

Lemma frames_leavesPlay {BaseCard : Type}
    (hasKeyword : BaseCard -> string -> bool)
    (BaseCard_leavesPlay : BaseCard -> BaseCard) (this : card_ref) :
  frames this (leavesPlay hasKeyword BaseCard_leavesPlay this).
Proof. unfold leavesPlay, resetForConflict. frame. Qed.

(** ** Leaving play, in full *)

Lemma runs_as {BaseCard A : Type} (this : card_ref) (m : M BaseCard A)
    (c : DrawCard BaseCard) (log : list Call) (a : A)
    (c1 c2 : DrawCard BaseCard) (log1 log2 : list Call) :
  runs this m c log a c1 log1 -> c1 = c2 -> log1 = log2 ->
  runs this m c log a c2 log2.
Proof. intros H <- <-. exact H. Qed.

(** The card and the log [leavesPlay] leaves. *)
Lemma leavesPlay_runs {BaseCard : Type}
    (hasKeyword : BaseCard -> string -> bool)
    (BaseCard_leavesPlay : BaseCard -> BaseCard)
    (this : card_ref) (c : DrawCard BaseCard) (log : list Call) :
  runs this (leavesPlay hasKeyword BaseCard_leavesPlay this) c log tt
    (left_play BaseCard_leavesPlay c)
    (log ++ leavesPlay_calls hasKeyword this c).
Proof.
  unfold leavesPlay_calls, left_play.
  destruct c as [b cd ctl att par mm pm f g cf bw sv ic isC isD h d rr co sl
                 cv ct st nw].
  cbn [isHonored isDishonored base controller].
  destruct h, d, (hasKeyword b "sincerity") eqn:S,
           (hasKeyword b "courtesy") eqn:K;
    (eapply runs_as;
     [ unfold leavesPlay; step
     | reflexivity
     | rewrite <- ?app_assoc; cbn [app]; rewrite ?app_nil_r; reflexivity ]).
Qed.

(** The world [leavesPlay] leaves. *)
Lemma leavesPlay_world {BaseCard : Type}
    (hasKeyword : BaseCard -> string -> bool)
    (BaseCard_leavesPlay : BaseCard -> BaseCard)
    (w : World BaseCard) (this : card_ref) :
  let w' := exec (leavesPlay hasKeyword BaseCard_leavesPlay this) w in
  cards w' this = left_play BaseCard_leavesPlay (cards w this)
  /\ (forall other, other <> this -> cards w' other = cards w other)
  /\ players w' = players w
  /\ game w' = (game w ++ leavesPlay_calls hasKeyword this (cards w this))%list.
Proof.
  cbv zeta.
  destruct (leavesPlay_runs hasKeyword BaseCard_leavesPlay this
              (cards w this) (game w) w eq_refl eq_refl) as (_ & Hc & Hl).
  destruct (frames_leavesPlay hasKeyword BaseCard_leavesPlay this w)
    as [Hp Ho].
  repeat split; assumption.
Qed.

Lemma leavesPlay_calls_of {BaseCard : Type}
    (hasKeyword : BaseCard -> string -> bool)
    (BaseCard_leavesPlay : BaseCard -> BaseCard)
    (w : World BaseCard) (this : card_ref) :
  calls_of (leavesPlay hasKeyword BaseCard_leavesPlay this) w
  = leavesPlay_calls hasKeyword this (cards w this).
Proof.
  unfold calls_of.
  destruct (leavesPlay_world hasKeyword BaseCard_leavesPlay w this)
    as (_ & _ & _ & ->).
  apply drop_app_length.
Qed.

(** X1. [leavesPlay] on a card that is not honored: a dishonored card costs
    its controller one honor, once, and is cleared; a card with no status
    makes no honor call; leaving again makes no honor call. *)
Theorem leavesPlay_dishonored_or_plain {BaseCard : Type}
    (hasKeyword : BaseCard -> string -> bool)
    (BaseCard_leavesPlay : BaseCard -> BaseCard)
    (w : World BaseCard) (this : card_ref) :
  isHonored (cards w this) = false ->
  let leave := leavesPlay hasKeyword BaseCard_leavesPlay this in
  let w' := exec leave w in
  List.filter is_addHonor (calls_of leave w)
    = (if isDishonored (cards w this)
       then [addHonor (controller (cards w this)) (-1)] else [])
  /\ isHonored (cards w' this) = false
  /\ isDishonored (cards w' this) = false
  /\ List.filter is_addHonor (calls_of leave w') = [].
Proof.
  intros H. cbv zeta.
  rewrite !leavesPlay_calls_of.
  destruct (leavesPlay_world hasKeyword BaseCard_leavesPlay w this)
    as (-> & _ & _ & _).
  unfold leavesPlay_calls, left_play.
  cbn [isHonored isDishonored base controller]. rewrite H.
  repeat split.
  - destruct (isDishonored (cards w this)),
             (hasKeyword (base (cards w this)) "sincerity"),
             (hasKeyword (base (cards w this)) "courtesy"); reflexivity.
  - destruct (hasKeyword (BaseCard_leavesPlay (base (cards w this)))
                "sincerity"),
             (hasKeyword (BaseCard_leavesPlay (base (cards w this)))
                "courtesy"); reflexivity.
Qed.

(** A dishonored attachment-free character leaves play. *)
Lemma leavesPlay_dishonored_or_plain_witness :
  let w := Examples.in_play (Examples.host 0 false true)
             (Examples.attachment_giving "+2") in
  let leave := leavesPlay Examples.has Examples.keep 0%nat in
  isHonored (cards w 0%nat) = false
  /\ List.filter is_addHonor (calls_of leave w) = [addHonor 0%nat (-1)]
  /\ isDishonored (cards (exec leave w) 0%nat) = false
  /\ List.filter is_addHonor (calls_of leave (exec leave w)) = [].
Proof.
  cbv zeta.
  destruct (leavesPlay_dishonored_or_plain Examples.has Examples.keep
              (Examples.in_play (Examples.host 0 false true)
                 (Examples.attachment_giving "+2")) 0%nat eq_refl)
    as (H1 & _ & H3 & H4).
  split; [reflexivity|].
  split; [exact H1|].
  split; [exact H3|exact H4].
Defined.

(** X2. The keyword payouts of [leavesPlay]: one card drawn by the
    controller exactly when the card has Sincerity, one fate gained exactly
    when it has Courtesy, one message per payout; no event is raised, so the
    fate the card loses is reported to no listener. *)
Theorem leavesPlay_keyword_payouts {BaseCard : Type}
    (hasKeyword : BaseCard -> string -> bool)
    (BaseCard_leavesPlay : BaseCard -> BaseCard)
    (w : World BaseCard) (this : card_ref) :
  let c := cards w this in
  let log := calls_of (leavesPlay hasKeyword BaseCard_leavesPlay this) w in
  List.filter is_drawCardsToHand log
    = (if hasKeyword (base c) "sincerity"
       then [drawCardsToHand (controller c) 1] else [])
  /\ List.filter is_addFate log
    = (if hasKeyword (base c) "courtesy"
       then [addFate (controller c) 1] else [])
  /\ List.filter is_raiseEvent log = []
  /\ fate_changes this log = []
  /\ length (List.filter is_addMessage log)
     = length (List.filter (fun x => negb (is_addMessage x)) log).
Proof.
  cbv zeta. rewrite leavesPlay_calls_of. unfold leavesPlay_calls.
  destruct (isHonored (cards w this)), (isDishonored (cards w this)),
           (hasKeyword (base (cards w this)) "sincerity"),
           (hasKeyword (base (cards w this)) "courtesy");
    repeat split; reflexivity.
Qed.

(** X3. What [leavesPlay] does not reset on the card that leaves: its body
    assigns neither skill modifier, no attachment link, neither the covert
    mark nor the covert target, and not the glory, so what an effect or a
    bypass left on the card is still there after it left play; the stealth
    and new marks are cleared. *)
Theorem leavesPlay_keeps {BaseCard : Type}
    (hasKeyword : BaseCard -> string -> bool)
    (BaseCard_leavesPlay : BaseCard -> BaseCard)
    (w : World BaseCard) (this : card_ref) :
  let c := cards w this in
  let w' := exec (leavesPlay hasKeyword BaseCard_leavesPlay this) w in
  let c' := cards w' this in
  militarySkillModifier c' = militarySkillModifier c
  /\ politicalSkillModifier c' = politicalSkillModifier c
  /\ attachments c' = attachments c /\ parent c' = parent c
  /\ covert c' = covert c /\ covertTarget c' = covertTarget c
  /\ glory c' = glory c
  /\ stealth c' = Boolean false /\ new c' = Boolean false.
Proof.
  cbv zeta.
  destruct (leavesPlay_world hasKeyword BaseCard_leavesPlay w this)
    as (-> & _).
  repeat split; reflexivity.
Qed.

(** ** Skill against the methods that feed it *)

(** A skill query is [skill_value] of what it reads. *)
Lemma getMilitarySkill_value {BaseCard : Type} (w : World BaseCard)
    (this : card_ref) (printed : bool) :
  let c := cards w this in
  getMilitarySkill this printed w
  = skill_value (String.eqb (phase (players w (controller c))) "setup"
                 || printed)
      (military (cardData c)) (militarySkillModifier c)
      (sum_numbers (military_bonuses w this))
      (isHonored c) (isDishonored c) (glory c).
Proof.
  cbv zeta. unfold getMilitarySkill, skill_value, military_bonuses.
  rewrite reduce_add, add_0_l. reflexivity.
Qed.

Lemma getPoliticalSkill_value {BaseCard : Type} (w : World BaseCard)
    (this : card_ref) (printed : bool) :
  let c := cards w this in
  getPoliticalSkill this printed w
  = skill_value (String.eqb (phase (players w (controller c))) "setup"
                 || printed)
      (political (cardData c)) (politicalSkillModifier c)
      (sum_numbers (political_bonuses w this))
      (isHonored c) (isDishonored c) (glory c).
Proof.
  cbv zeta. unfold getPoliticalSkill, skill_value, political_bonuses.
  rewrite reduce_add, add_0_l. reflexivity.
Qed.

(** The bonuses only depend on the card data of the attachments. *)
Lemma bonuses_same_data {BaseCard : Type} (w w' : World BaseCard)
    (this : card_ref) :
  (forall r, cardData (cards w' r) = cardData (cards w r)) ->
  attachments (cards w' this) = attachments (cards w this) ->
  military_bonuses w' this = military_bonuses w this
  /\ political_bonuses w' this = political_bonuses w this.
Proof.
  intros Hdata Hatt. unfold military_bonuses, political_bonuses.
  rewrite Hatt. split; apply map_ext; intros a; rewrite Hdata; reflexivity.
Qed.

(** An integer skill is the clamp of a raw sum in which the modifier is one
    term, unless the query bypasses the computation: a change of the
    modifier moves the raw sum by as much. *)
Lemma skill_value_raw (bypass : bool) (printed : value) (m : Z)
    (s : number) (h d : bool) (g : value) (x : Z) :
  skill_value bypass printed m s h d g = Number (Num x) ->
  exists raw,
    (bypass = false -> x = Z.max 0 raw)
    /\ forall a,
         skill_value bypass printed (m + a) s h d g
         = Number (Num (if bypass then x else Z.max 0 (raw + a))).
Proof.
  unfold skill_value.
  destruct bypass.
  { intros ->. exists 0. split; [discriminate|reflexivity]. }
  destruct (is_present printed); [|discriminate].
  destruct (ToNumber printed) as [p|]; [|discriminate].
  destruct s as [s|]; [|discriminate].
  destruct (JS.sub _ _) as [t|]; [|discriminate].
  cbn. intros E. injection E as E. exists (p + m + s + t).
  split; [intros _; symmetry; exact E|].
  intros a. do 3 f_equal. lia.
Qed.

(** What the skill queries read after a modification of the card. *)
Lemma getMilitarySkill_modified {BaseCard : Type} (w : World BaseCard)
    (this : card_ref) (amount : Z) (applying printed : bool) :
  let c := cards w this in
  getMilitarySkill this printed
    (exec (modifyMilitarySkill this amount applying) w)
  = skill_value (String.eqb (phase (players w (controller c))) "setup"
                 || printed)
      (military (cardData c)) (militarySkillModifier c + amount)
      (sum_numbers (military_bonuses w this))
      (isHonored c) (isDishonored c) (glory c).
Proof.
  cbv zeta. rewrite getMilitarySkill_value. cbv zeta.
  destruct (frames_modifyMilitarySkill (BaseCard := BaseCard)
              this amount applying w) as [Hp Ho].
  set (w' := exec (modifyMilitarySkill this amount applying) w) in *.
  assert (Hc : cards w' this
               = set_militarySkillModifier
                   (militarySkillModifier (cards w this) + amount)
                   (cards w this)).
  { subst w'. run. apply lookup_assigned. }
  assert (Hdata : forall r, cardData (cards w' r) = cardData (cards w r)).
  { intros r. destruct (decide (r = this)) as [->|Hne].
    - rewrite Hc. reflexivity.
    - rewrite Ho by exact Hne. reflexivity. }
  destruct (bonuses_same_data w w' this Hdata) as [-> _];
    [rewrite Hc; reflexivity|].
  rewrite Hp, Hc. reflexivity.
Qed.

Lemma getPoliticalSkill_modified {BaseCard : Type} (w : World BaseCard)
    (this : card_ref) (amount : Z) (applying printed : bool) :
  let c := cards w this in
  getPoliticalSkill this printed
    (exec (modifyPoliticalSkill this amount applying) w)
  = skill_value (String.eqb (phase (players w (controller c))) "setup"
                 || printed)
      (political (cardData c)) (politicalSkillModifier c + amount)
      (sum_numbers (political_bonuses w this))
      (isHonored c) (isDishonored c) (glory c).
Proof.
  cbv zeta. rewrite getPoliticalSkill_value. cbv zeta.
  destruct (frames_modifyPoliticalSkill (BaseCard := BaseCard)
              this amount applying w) as [Hp Ho].
  set (w' := exec (modifyPoliticalSkill this amount applying) w) in *.
  assert (Hc : cards w' this
               = set_politicalSkillModifier
                   (politicalSkillModifier (cards w this) + amount)
                   (cards w this)).
  { subst w'. run. apply lookup_assigned. }
  assert (Hdata : forall r, cardData (cards w' r) = cardData (cards w r)).
  { intros r. destruct (decide (r = this)) as [->|Hne].
    - rewrite Hc. reflexivity.
    - rewrite Ho by exact Hne. reflexivity. }
  destruct (bonuses_same_data w w' this Hdata) as [_ ->];
    [rewrite Hc; reflexivity|].
  rewrite Hp, Hc. reflexivity.
Qed.

(** X4. A military skill that is computed (outside the setup phase, not the
    printed one) and is an integer is the clamp at 0 of a raw sum, and after
    [modifyMilitarySkill] with any amount it is the clamp at 0 of that raw
    sum plus the amount.  So an amount that is not negative never lowers the
    skill, raises it by exactly the amount when the skill was above 0, and
    by less only when the raw sum was below 0.  A printed skill, or a skill
    read in the setup phase, is not changed by the modification.  Likewise
    for the political skill. *)
Theorem modify_skill_raises_within_amount {BaseCard : Type}
    (w : World BaseCard) (this : card_ref) (printed : bool) (x : Z) :
  let computed :=
    negb (String.eqb (phase (players w (controller (cards w this)))) "setup"
          || printed) in
  (getMilitarySkill this printed w = Number (Num x) ->
   exists raw,
     (computed = true -> x = Z.max 0 raw)
     /\ forall (amount : Z) (applying : bool),
          let y := if computed then Z.max 0 (raw + amount) else x in
          getMilitarySkill this printed
            (exec (modifyMilitarySkill this amount applying) w)
          = Number (Num y)
          /\ (0 <= amount -> x <= y <= x + amount)
          /\ (0 <= amount -> computed = true -> 0 < x -> y = x + amount)
          /\ (0 <= amount -> computed = true -> y < x + amount -> raw < 0))
  /\
  (getPoliticalSkill this printed w = Number (Num x) ->
   exists raw,
     (computed = true -> x = Z.max 0 raw)
     /\ forall (amount : Z) (applying : bool),
          let y := if computed then Z.max 0 (raw + amount) else x in
          getPoliticalSkill this printed
            (exec (modifyPoliticalSkill this amount applying) w)
          = Number (Num y)
          /\ (0 <= amount -> x <= y <= x + amount)
          /\ (0 <= amount -> computed = true -> 0 < x -> y = x + amount)
          /\ (0 <= amount -> computed = true -> y < x + amount -> raw < 0)).
Proof.
  cbv zeta. split; intros Hx.
  - rewrite getMilitarySkill_value in Hx. cbv zeta in Hx.
    destruct (skill_value_raw _ _ _ _ _ _ _ _ Hx) as (raw & Hraw & Hall).
    exists raw. split.
    + intros Hc. apply Hraw. apply negb_true_iff in Hc. exact Hc.
    + intros amount applying. rewrite getMilitarySkill_modified.
      cbv zeta. rewrite Hall.
      destruct (String.eqb _ "setup" || printed); cbn [negb].
      * split; [reflexivity|]. split; [lia|]. split; discriminate.
      * specialize (Hraw eq_refl).
        split; [reflexivity|]. split; [lia|]. split; [lia|].
        intros Ha _ Hy. lia.
  - rewrite getPoliticalSkill_value in Hx. cbv zeta in Hx.
    destruct (skill_value_raw _ _ _ _ _ _ _ _ Hx) as (raw & Hraw & Hall).
    exists raw. split.
    + intros Hc. apply Hraw. apply negb_true_iff in Hc. exact Hc.
    + intros amount applying. rewrite getPoliticalSkill_modified.
      cbv zeta. rewrite Hall.
      destruct (String.eqb _ "setup" || printed); cbn [negb].
      * split; [reflexivity|]. split; [lia|]. split; discriminate.
      * specialize (Hraw eq_refl).
        split; [reflexivity|]. split; [lia|]. split; [lia|].
        intros Ha _ Hy. lia.
Qed.

(** A card with printed military 3 at skill 6 gets +2 and reads 8; its
    printed skill stays 3. *)
Lemma modify_skill_raises_within_amount_witness :
  getMilitarySkill 0%nat false Examples.conflict_world = Number (Num 6)
  /\ getMilitarySkill 0%nat false
       (exec (modifyMilitarySkill 0%nat 2 true) Examples.conflict_world)
     = Number (Num (6 + 2))
  /\ getMilitarySkill 0%nat true Examples.conflict_world = Number (Num 3)
  /\ getMilitarySkill 0%nat true
       (exec (modifyMilitarySkill 0%nat 2 true) Examples.conflict_world)
     = Number (Num 3).
Proof.
  assert (Ha : 0 <= 2) by lia.
  assert (Hx : 0 < 6) by lia.
  split; [reflexivity|]. split; [|split; [reflexivity|]].
  - destruct (proj1 (modify_skill_raises_within_amount
                       Examples.conflict_world 0%nat false 6) eq_refl)
      as (raw & _ & Hall).
    destruct (Hall 2 true) as (Hy & _ & Hexact & _).
    cbv zeta in Hy, Hexact.
    rewrite (Hexact Ha eq_refl Hx) in Hy. exact Hy.
  - destruct (proj1 (modify_skill_raises_within_amount
                       Examples.conflict_world 0%nat true 3) eq_refl)
      as (raw & _ & Hall).
    destruct (Hall 2 true) as (Hy & _).
    exact Hy.
Defined.

(** Two worlds that agree on what the skill queries of a card read give the
    same answers. *)
Lemma skill_queries_same {BaseCard : Type} (w w' : World BaseCard)
    (r : card_ref) (printed : bool) :
  players w' = players w ->
  (forall a, cardData (cards w' a) = cardData (cards w a)) ->
  controller (cards w' r) = controller (cards w r) ->
  attachments (cards w' r) = attachments (cards w r) ->
  isHonored (cards w' r) = isHonored (cards w r) ->
  isDishonored (cards w' r) = isDishonored (cards w r) ->
  glory (cards w' r) = glory (cards w r) ->
  (militarySkillModifier (cards w' r) = militarySkillModifier (cards w r) ->
   getMilitarySkill r printed w' = getMilitarySkill r printed w)
  /\
  (politicalSkillModifier (cards w' r) = politicalSkillModifier (cards w r) ->
   getPoliticalSkill r printed w' = getPoliticalSkill r printed w).
Proof.
  intros Hp Hdata Hctl Hatt Hh Hd Hg.
  destruct (bonuses_same_data w w' r Hdata Hatt) as [Hmb Hpb].
  split; intros Hm.
  - rewrite !getMilitarySkill_value. cbv zeta.
    rewrite Hp, Hdata, Hctl, Hh, Hd, Hg, Hm, Hmb. reflexivity.
  - rewrite !getPoliticalSkill_value. cbv zeta.
    rewrite Hp, Hdata, Hctl, Hh, Hd, Hg, Hm, Hpb. reflexivity.
Qed.

Lemma exec_seq {BaseCard A B : Type} (m : M BaseCard A) (k : M BaseCard B)
    (w : World BaseCard) :
  exec (m ;; k) w = exec k (exec m w).
Proof. unfold exec, bind. destruct (m w). reflexivity. Qed.

(** The world [modifyMilitarySkill] and [modifyPoliticalSkill] leave. *)
Lemma modifyMilitarySkill_world {BaseCard : Type} (w : World BaseCard)
    (this : card_ref) (amount : Z) (applying : bool) :
  let w' := exec (modifyMilitarySkill this amount applying) w in
  cards w' this
  = set_militarySkillModifier
      (militarySkillModifier (cards w this) + amount) (cards w this)
  /\ (forall other, other <> this -> cards w' other = cards w other)
  /\ players w' = players w.
Proof.
  cbv zeta.
  destruct (frames_modifyMilitarySkill (BaseCard := BaseCard)
              this amount applying w) as [Hp Ho].
  split; [run; apply lookup_assigned|]. split; assumption.
Qed.

Lemma modifyPoliticalSkill_world {BaseCard : Type} (w : World BaseCard)
    (this : card_ref) (amount : Z) (applying : bool) :
  let w' := exec (modifyPoliticalSkill this amount applying) w in
  cards w' this
  = set_politicalSkillModifier
      (politicalSkillModifier (cards w this) + amount) (cards w this)
  /\ (forall other, other <> this -> cards w' other = cards w other)
  /\ players w' = players w.
Proof.
  cbv zeta.
  destruct (frames_modifyPoliticalSkill (BaseCard := BaseCard)
              this amount applying w) as [Hp Ho].
  split; [run; apply lookup_assigned|]. split; assumption.
Qed.

(** What a military modification leaves alone, and what a political one
    does. *)
Lemma military_modification_local {BaseCard : Type} (w : World BaseCard)
    (this r : card_ref) (amount : Z) (applying printed : bool) :
  let wm := exec (modifyMilitarySkill this amount applying) w in
  getPoliticalSkill r printed wm = getPoliticalSkill r printed w
  /\ (r <> this ->
      getMilitarySkill r printed wm = getMilitarySkill r printed w).
Proof.
  cbv zeta.
  destruct (modifyMilitarySkill_world w this amount applying)
    as (Hm & Hmo & Hmp).
  cbv zeta in Hm, Hmo, Hmp.
  assert (Hmd : forall a,
            cardData (cards (exec (modifyMilitarySkill this amount applying) w) a)
            = cardData (cards w a)).
  { intros a. destruct (decide (a = this)) as [->|Hne];
      [rewrite Hm|rewrite Hmo by exact Hne]; reflexivity. }
  destruct (decide (r = this)) as [->|Hne].
  - split; [|intros []; reflexivity].
    apply (skill_queries_same w _ this printed Hmp Hmd);
      rewrite Hm; reflexivity.
  - split; [|intros _].
    + apply (skill_queries_same w _ r printed Hmp Hmd);
        rewrite Hmo by exact Hne; reflexivity.
    + apply (skill_queries_same w _ r printed Hmp Hmd);
        rewrite Hmo by exact Hne; reflexivity.
Qed.

Lemma political_modification_local {BaseCard : Type} (w : World BaseCard)
    (this r : card_ref) (amount : Z) (applying printed : bool) :
  let wp := exec (modifyPoliticalSkill this amount applying) w in
  getMilitarySkill r printed wp = getMilitarySkill r printed w
  /\ (r <> this ->
      getPoliticalSkill r printed wp = getPoliticalSkill r printed w).
Proof.
  cbv zeta.
  destruct (modifyPoliticalSkill_world w this amount applying)
    as (Hq & Hqo & Hqp).
  cbv zeta in Hq, Hqo, Hqp.
  assert (Hqd : forall a,
            cardData (cards (exec (modifyPoliticalSkill this amount applying) w) a)
            = cardData (cards w a)).
  { intros a. destruct (decide (a = this)) as [->|Hne];
      [rewrite Hq|rewrite Hqo by exact Hne]; reflexivity. }
  destruct (decide (r = this)) as [->|Hne].
  - split; [|intros []; reflexivity].
    apply (skill_queries_same w _ this printed Hqp Hqd);
      rewrite Hq; reflexivity.
  - split; [|intros _].
    + apply (skill_queries_same w _ r printed Hqp Hqd);
        rewrite Hqo by exact Hne; reflexivity.
    + apply (skill_queries_same w _ r printed Hqp Hqd);
        rewrite Hqo by exact Hne; reflexivity.
Qed.

(** X5. A military modification is invisible to every political skill and to
    the military skill of every other card; symmetrically for a political
    modification. *)
Theorem modify_skill_is_local {BaseCard : Type} (w : World BaseCard)
    (this r : card_ref) (amount : Z) (applying printed : bool) :
  let wm := exec (modifyMilitarySkill this amount applying) w in
  let wp := exec (modifyPoliticalSkill this amount applying) w in
  getPoliticalSkill r printed wm = getPoliticalSkill r printed w
  /\ getMilitarySkill r printed wp = getMilitarySkill r printed w
  /\ (r <> this ->
      getMilitarySkill r printed wm = getMilitarySkill r printed w
      /\ getPoliticalSkill r printed wp = getPoliticalSkill r printed w).
Proof.
  cbv zeta.
  destruct (military_modification_local w this r amount applying printed)
    as [Hpol Hmil].
  destruct (political_modification_local w this r amount applying printed)
    as [Hmil' Hpol'].
  cbv zeta in Hpol, Hmil, Hmil', Hpol'.
  split; [exact Hpol|]. split; [exact Hmil'|].
  intros Hne. split; [exact (Hmil Hne)|exact (Hpol' Hne)].
Qed.

(** X24. The skill methods that take the type as a string: a type that is
    neither 'military' nor 'political' makes [modifySkill] do nothing, with
    no event, and [getSkill] answer undefined; a known type raises the one
    event of that type; and [modifySkill] changes no skill of another type
    and no skill of another card. *)
Theorem skill_type_dispatch {BaseCard : Type} (w : World BaseCard)
    (this r : card_ref) (amount : Z) (type queried : string)
    (applying printed : bool) :
  let change := modifySkill this amount type applying in
  let w' := exec change w in
  (type <> "military" -> type <> "political" ->
     w' = w /\ calls_of change w = []
     /\ getSkill r type printed w = Undefined)
  /\ (type = "military" \/ type = "political" ->
      calls_of change w
      = [raiseEvent
           (if String.eqb type "military" then "onCardMilitarySkillChanged"
            else "onCardPoliticalSkillChanged")
           [("card", ACard this); ("amount", ANum amount);
            ("applying", ABool applying)]])
  /\ (queried <> type ->
      getSkill r queried printed w' = getSkill r queried printed w)
  /\ (r <> this ->
      getSkill r queried printed w' = getSkill r queried printed w).
Proof.
  cbv zeta.
  destruct (military_modification_local w this r amount applying printed)
    as [Hpol Hmil].
  destruct (political_modification_local w this r amount applying printed)
    as [Hmil' Hpol'].
  cbv zeta in Hpol, Hmil, Hmil', Hpol'.
  unfold modifySkill, getSkill.
  destruct (String.eqb_spec type "military") as [->|Hm].
  - split; [intros Hne; destruct Hne; reflexivity|].
    split; [intros _; run; rewrite drop_app_length; reflexivity|].
    split.
    + intros Hq. destruct (String.eqb_spec queried "military") as [->|_];
        [destruct Hq; reflexivity|].
      destruct (String.eqb queried "political"); [exact Hpol|reflexivity].
    + intros Hne. destruct (String.eqb queried "military");
        [exact (Hmil Hne)|].
      destruct (String.eqb queried "political"); [exact Hpol|reflexivity].
  - destruct (String.eqb_spec type "political") as [->|Hp].
    + split; [intros _ Hne; destruct Hne; reflexivity|].
      split; [intros _; run; rewrite drop_app_length; reflexivity|].
      split.
      * intros Hq. destruct (String.eqb queried "military");
          [exact Hmil'|].
        destruct (String.eqb_spec queried "political") as [->|_];
          [destruct Hq; reflexivity|reflexivity].
      * intros Hne. destruct (String.eqb queried "military");
          [exact Hmil'|].
        destruct (String.eqb queried "political");
          [exact (Hpol' Hne)|reflexivity].
    + split.
      { intros _ _. split; [reflexivity|]. split; [|reflexivity].
        unfold calls_of, exec, ret. cbn. apply drop_all. }
      split; [intros [E|E]; [destruct (Hm E)|destruct (Hp E)]|].
      split; intros _; reflexivity.
Qed.

(** X6. Applying a modification and then the opposite one restores every
    skill of every card: an effect that is applied and then removed leaves
    no drift (the log keeps the two events). *)
Theorem modify_skill_round_trip {BaseCard : Type} (w : World BaseCard)
    (this r : card_ref) (amount : Z) (applying removing printed : bool) :
  let wm :=
    exec (modifyMilitarySkill this amount applying;;
          modifyMilitarySkill this (- amount) removing) w in
  let wp :=
    exec (modifyPoliticalSkill this amount applying;;
          modifyPoliticalSkill this (- amount) removing) w in
  getMilitarySkill r printed wm = getMilitarySkill r printed w
  /\ getPoliticalSkill r printed wm = getPoliticalSkill r printed w
  /\ getMilitarySkill r printed wp = getMilitarySkill r printed w
  /\ getPoliticalSkill r printed wp = getPoliticalSkill r printed w
  /\ militarySkillModifier (cards wm this)
     = militarySkillModifier (cards w this)
  /\ politicalSkillModifier (cards wp this)
     = politicalSkillModifier (cards w this).
Proof.
  cbv zeta. rewrite !exec_seq.
  set (w1 := exec (modifyMilitarySkill this amount applying) w).
  set (w2 := exec (modifyPoliticalSkill this amount applying) w).
  destruct (modifyMilitarySkill_world w this amount applying)
    as (Hm1 & Hmo1 & Hmp1).
  destruct (modifyMilitarySkill_world w1 this (- amount) removing)
    as (Hm2 & Hmo2 & Hmp2).
  destruct (modifyPoliticalSkill_world w this amount applying)
    as (Hq1 & Hqo1 & Hqp1).
  destruct (modifyPoliticalSkill_world w2 this (- amount) removing)
    as (Hq2 & Hqo2 & Hqp2).
  cbv zeta in *. fold w1 in Hm1, Hmo1, Hmp1. fold w2 in Hq1, Hqo1, Hqp1.
  set (wm := exec (modifyMilitarySkill this (- amount) removing) w1) in *.
  set (wp := exec (modifyPoliticalSkill this (- amount) removing) w2) in *.
  assert (Hcm : forall a,
            cards wm a = cards w a
            \/ (a = this /\
                cards wm a
                = set_militarySkillModifier
                    (militarySkillModifier (cards w this) + amount - amount)
                    (cards w this))).
  { intros a. destruct (decide (a = this)) as [->|Hne].
    - right. split; [reflexivity|]. rewrite Hm2, Hm1. reflexivity.
    - left. rewrite Hmo2, Hmo1 by exact Hne. reflexivity. }
  assert (Hcp : forall a,
            cards wp a = cards w a
            \/ (a = this /\
                cards wp a
                = set_politicalSkillModifier
                    (politicalSkillModifier (cards w this) + amount - amount)
                    (cards w this))).
  { intros a. destruct (decide (a = this)) as [->|Hne].
    - right. split; [reflexivity|]. rewrite Hq2, Hq1. reflexivity.
    - left. rewrite Hqo2, Hqo1 by exact Hne. reflexivity. }
  assert (Hfm : forall a (A : Type) (f : DrawCard BaseCard -> A),
            (forall v c, f (set_militarySkillModifier v c) = f c) ->
            f (cards wm a) = f (cards w a)).
  { intros a A f Hf. destruct (Hcm a) as [->|[-> ->]]; [reflexivity|].
    apply Hf. }
  assert (Hfp : forall a (A : Type) (f : DrawCard BaseCard -> A),
            (forall v c, f (set_politicalSkillModifier v c) = f c) ->
            f (cards wp a) = f (cards w a)).
  { intros a A f Hf. destruct (Hcp a) as [->|[-> ->]]; [reflexivity|].
    apply Hf. }
  assert (Hmm : militarySkillModifier (cards wm r)
                = militarySkillModifier (cards w r)).
  { destruct (Hcm r) as [->|[-> ->]]; [reflexivity|]. cbn. lia. }
  assert (Hpp : politicalSkillModifier (cards wp r)
                = politicalSkillModifier (cards w r)).
  { destruct (Hcp r) as [->|[-> ->]]; [reflexivity|]. cbn. lia. }
  assert (Hpm : players wm = players w) by congruence.
  assert (Hpq : players wp = players w) by congruence.
  destruct (skill_queries_same w wm r printed Hpm) as [Hx1 Hx2];
    try (intros; apply Hfm; reflexivity); try (apply Hfm; reflexivity).
  destruct (skill_queries_same w wp r printed Hpq) as [Hy1 Hy2];
    try (intros; apply Hfp; reflexivity); try (apply Hfp; reflexivity).
  split; [exact (Hx1 Hmm)|].
  split; [apply Hx2, Hfm; reflexivity|].
  split; [apply Hy1, Hfp; reflexivity|].
  split; [exact (Hy2 Hpp)|].
  split.
  - destruct (Hcm this) as [->|[_ ->]]; [reflexivity|]. cbn. lia.
  - destruct (Hcp this) as [->|[_ ->]]; [reflexivity|]. cbn. lia.
Qed.

(** ** Personal honor and skill *)

(** The world [honor] and [dishonor] leave: only the card changes, and the
    log does not. *)
Lemma honor_world {BaseCard : Type} (w : World BaseCard) (this : card_ref) :
  let w' := exec (honor this) w in
  cards w' this = after_honor (cards w this)
  /\ (forall other, other <> this -> cards w' other = cards w other)
  /\ players w' = players w
  /\ game w' = game w.
Proof.
  cbv zeta. destruct (frames_honor (BaseCard := BaseCard) this w) as [Hp Ho].
  split; [|split; [exact Ho|split; [exact Hp|]]].
  - run. unfold after_honor.
    destruct (isDishonored (cards w this));
      [|destruct (isHonored (cards w this))];
      cbn -[insert]; rewrite ?lookup_assigned; reflexivity.
  - run. destruct (isDishonored (cards w this));
      [|destruct (isHonored (cards w this))]; reflexivity.
Qed.

Lemma dishonor_world {BaseCard : Type} (w : World BaseCard)
    (this : card_ref) :
  let w' := exec (dishonor this) w in
  cards w' this = after_dishonor (cards w this)
  /\ (forall other, other <> this -> cards w' other = cards w other)
  /\ players w' = players w
  /\ game w' = game w.
Proof.
  cbv zeta.
  destruct (frames_dishonor (BaseCard := BaseCard) this w) as [Hp Ho].
  split; [|split; [exact Ho|split; [exact Hp|]]].
  - run. unfold after_dishonor.
    destruct (isHonored (cards w this));
      [|destruct (isDishonored (cards w this))];
      cbn -[insert]; rewrite ?lookup_assigned; reflexivity.
  - run. destruct (isHonored (cards w this));
      [|destruct (isDishonored (cards w this))]; reflexivity.
Qed.

(** The glory a pair of honor flags adds to a skill. *)
Lemma glory_term (h d : bool) (gl : value) (g : Z) :
  ToNumber gl = Num g ->
  JS.sub (ToNumber (if h then gl else Number (Num 0)))
         (ToNumber (if d then gl else Number (Num 0)))
  = Num ((if h then g else 0) - (if d then g else 0)).
Proof. intros Hg. destruct h, d; cbn; rewrite ?Hg; reflexivity. Qed.

(** Changing the honor flags moves an integer skill, inside the clamp, by
    no more than the glory term moves. *)
Lemma skill_value_flags (bypass : bool) (printed : value) (m : Z)
    (s : number) (h d h' d' : bool) (gl : value) (g lo hi x : Z) :
  ToNumber gl = Num g ->
  lo <= 0 <= hi ->
  lo <= ((if h' then g else 0) - (if d' then g else 0))
        - ((if h then g else 0) - (if d then g else 0)) <= hi ->
  skill_value bypass printed m s h d gl = Number (Num x) ->
  exists y, skill_value bypass printed m s h' d' gl = Number (Num y)
            /\ x + lo <= y <= x + hi.
Proof.
  intros Hg Hbounds Hterm. unfold skill_value.
  destruct bypass; [intros ->; exists x; split; [reflexivity|lia]|].
  destruct (is_present printed); [|discriminate].
  rewrite !(glory_term _ _ gl g Hg).
  destruct (ToNumber printed) as [p|]; [|discriminate].
  destruct s as [s|]; [|discriminate].
  cbn. intros E. injection E as E. eexists. split; [reflexivity|]. lia.
Qed.

(** What [honor] and [dishonor] do to the glory term. *)
Lemma after_honor_term {BaseCard : Type} (c : DrawCard BaseCard) (g : Z) :
  0 <= g ->
  0 <= ((if isHonored (after_honor c) then g else 0)
        - (if isDishonored (after_honor c) then g else 0))
       - ((if isHonored c then g else 0)
          - (if isDishonored c then g else 0)) <= g.
Proof.
  intros Hg. unfold after_honor.
  destruct (isDishonored c) eqn:D, (isHonored c) eqn:H; cbn;
    rewrite ?D, ?H; lia.
Qed.

Lemma after_dishonor_term {BaseCard : Type} (c : DrawCard BaseCard) (g : Z) :
  0 <= g ->
  - g <= ((if isHonored (after_dishonor c) then g else 0)
          - (if isDishonored (after_dishonor c) then g else 0))
         - ((if isHonored c then g else 0)
            - (if isDishonored c then g else 0)) <= 0.
Proof.
  intros Hg. unfold after_dishonor.
  destruct (isDishonored c) eqn:D, (isHonored c) eqn:H; cbn;
    rewrite ?D, ?H; lia.
Qed.

(** The skills of [this] in a world that differs from [w] by the honor
    flags of [this] only. *)
Lemma skills_after_flags {BaseCard : Type} (w w' : World BaseCard)
    (this : card_ref) (c' : DrawCard BaseCard) (printed : bool)
    (g lo hi x : Z) :
  cards w' this = c' ->
  (forall other, other <> this -> cards w' other = cards w other) ->
  players w' = players w ->
  (forall (A : Type) (f : DrawCard BaseCard -> A),
     (forall v c, f (set_isHonored v c) = f c) ->
     (forall v c, f (set_isDishonored v c) = f c) ->
     f c' = f (cards w this)) ->
  ToNumber (glory (cards w this)) = Num g ->
  lo <= 0 <= hi ->
  lo <= ((if isHonored c' then g else 0)
         - (if isDishonored c' then g else 0))
        - ((if isHonored (cards w this) then g else 0)
           - (if isDishonored (cards w this) then g else 0)) <= hi ->
  (getMilitarySkill this printed w = Number (Num x) ->
   exists y, getMilitarySkill this printed w' = Number (Num y)
             /\ x + lo <= y <= x + hi)
  /\
  (getPoliticalSkill this printed w = Number (Num x) ->
   exists y, getPoliticalSkill this printed w' = Number (Num y)
             /\ x + lo <= y <= x + hi).
Proof.
  intros Hc Ho Hp Hsame Hg Hbounds Hterm.
  assert (Hdata : forall a, cardData (cards w' a) = cardData (cards w a)).
  { intros a. destruct (decide (a = this)) as [->|Hne].
    - rewrite Hc. apply Hsame; reflexivity.
    - rewrite Ho by exact Hne. reflexivity. }
  assert (Hatt : attachments (cards w' this) = attachments (cards w this)).
  { rewrite Hc. apply Hsame; reflexivity. }
  destruct (bonuses_same_data w w' this Hdata Hatt) as [Hmb Hpb].
  split; intros Hx.
  - rewrite getMilitarySkill_value in Hx |- *. cbv zeta in Hx |- *.
    rewrite Hp, Hmb, Hc.
    rewrite (Hsame _ controller), (Hsame _ cardData),
      (Hsame _ militarySkillModifier), (Hsame _ glory)
      by reflexivity.
    eapply skill_value_flags; eassumption.
  - rewrite getPoliticalSkill_value in Hx |- *. cbv zeta in Hx |- *.
    rewrite Hp, Hpb, Hc.
    rewrite (Hsame _ controller), (Hsame _ cardData),
      (Hsame _ politicalSkillModifier), (Hsame _ glory)
      by reflexivity.
    eapply skill_value_flags; eassumption.
Qed.

Lemma after_honor_same {BaseCard : Type} (c : DrawCard BaseCard)
    (A : Type) (f : DrawCard BaseCard -> A) :
  (forall v c, f (set_isHonored v c) = f c) ->
  (forall v c, f (set_isDishonored v c) = f c) ->
  f (after_honor c) = f c /\ f (after_dishonor c) = f c.
Proof.
  intros H1 H2. unfold after_honor, after_dishonor.
  destruct (isDishonored c), (isHonored c); cbn;
    rewrite ?H1, ?H2; split; reflexivity.
Qed.

(** X7. On a card whose glory is an integer that is not negative, [honor]
    never lowers a skill and raises it by at most the glory; [dishonor]
    never raises a skill and lowers it by at most the glory. *)
Theorem honor_moves_skill_by_glory {BaseCard : Type} (w : World BaseCard)
    (this : card_ref) (printed : bool) (g x : Z) :
  ToNumber (glory (cards w this)) = Num g ->
  0 <= g ->
  (getMilitarySkill this printed w = Number (Num x) ->
   (exists y, getMilitarySkill this printed (exec (honor this) w)
              = Number (Num y) /\ x <= y <= x + g)
   /\ (exists y, getMilitarySkill this printed (exec (dishonor this) w)
                 = Number (Num y) /\ x - g <= y <= x))
  /\
  (getPoliticalSkill this printed w = Number (Num x) ->
   (exists y, getPoliticalSkill this printed (exec (honor this) w)
              = Number (Num y) /\ x <= y <= x + g)
   /\ (exists y, getPoliticalSkill this printed (exec (dishonor this) w)
                 = Number (Num y) /\ x - g <= y <= x)).
Proof.
  intros Hg Hpos.
  destruct (honor_world w this) as (Hc & Ho & Hp & _).
  destruct (dishonor_world w this) as (Hc' & Ho' & Hp' & _).
  cbv zeta in *.
  assert (Hup := skills_after_flags w (exec (honor this) w) this
            (after_honor (cards w this)) printed g 0 g x Hc Ho Hp
            (fun A f H1 H2 => proj1 (after_honor_same (cards w this) A f H1 H2))
            Hg (conj (Z.le_refl 0) Hpos)
            (after_honor_term (cards w this) g Hpos)).
  assert (Hneg : - g <= 0 <= 0) by lia.
  assert (Hdown := skills_after_flags w (exec (dishonor this) w) this
            (after_dishonor (cards w this)) printed g (- g) 0 x Hc' Ho' Hp'
            (fun A f H1 H2 => proj2 (after_honor_same (cards w this) A f H1 H2))
            Hg Hneg
            (after_dishonor_term (cards w this) g Hpos)).
  destruct Hup as [Hum Hupol], Hdown as [Hdm Hdpol].
  split; intros Hx; split.
  - destruct (Hum Hx) as (y & Hy & Hb). exists y. split; [exact Hy|lia].
  - destruct (Hdm Hx) as (y & Hy & Hb). exists y. split; [exact Hy|lia].
  - destruct (Hupol Hx) as (y & Hy & Hb). exists y. split; [exact Hy|lia].
  - destruct (Hdpol Hx) as (y & Hy & Hb). exists y. split; [exact Hy|lia].
Qed.

(** The scenario card with no status: military 5, glory 2. *)
Lemma honor_moves_skill_by_glory_witness :
  let w := Examples.in_play (Examples.host 0 false false)
             (Examples.attachment_giving "+2") in
  ToNumber (glory (cards w 0%nat)) = Num 2
  /\ 0 <= 2
  /\ getMilitarySkill 0%nat false w = Number (Num 5)
  /\ (exists y, getMilitarySkill 0%nat false (exec (honor 0%nat) w)
                = Number (Num y) /\ 5 <= y <= 5 + 2)
  /\ (exists y, getMilitarySkill 0%nat false (exec (dishonor 0%nat) w)
                = Number (Num y) /\ 5 - 2 <= y <= 5).
Proof.
  cbv zeta.
  assert (Hpos : 0 <= 2) by lia.
  destruct (honor_moves_skill_by_glory
              (Examples.in_play (Examples.host 0 false false)
                 (Examples.attachment_giving "+2"))
              0%nat false 2 5 eq_refl Hpos) as [Hmil _].
  destruct (Hmil eq_refl) as [Hup Hdown].
  split; [reflexivity|]. split; [exact Hpos|]. split; [reflexivity|].
  split; [exact Hup|exact Hdown].
Defined.

(** ** Fate over several calls *)

(** The world [modifyFate] leaves. *)
Lemma modifyFate_world {BaseCard : Type} (w : World BaseCard)
    (this : card_ref) (amount : Z) :
  let old := fate (cards w this) in
  let final := if old + amount <? 0 then 0 else old + amount in
  let w' := exec (modifyFate this amount) w in
  cards w' this = set_fate final (cards w this)
  /\ (forall other, other <> this -> cards w' other = cards w other)
  /\ players w' = players w
  /\ game w' =
       (game w ++
        [raiseEvent "onCardFateChanged"
           [("card", ACard this); ("fate", ANum (final - old))]])%list.
Proof.
  intros old final w'.
  assert (R : runs this (modifyFate this amount) (cards w this) (game w) tt
                (set_fate final (cards w this))
                (game w ++
                 [raiseEvent "onCardFateChanged"
                    [("card", ACard this); ("fate", ANum (final - old))]])).
  { subst final old. unfold modifyFate.
    destruct (fate (cards w this) + amount <? 0) eqn:E; step. }
  destruct (R w eq_refl eq_refl) as (_ & Hcard & Hlog).
  destruct (frames_modifyFate (BaseCard := BaseCard) this amount w)
    as [Hp Ho].
  repeat split; assumption.
Qed.

Lemma fate_changes_app (this : card_ref) (l1 l2 : list Call) :
  fate_changes this (l1 ++ l2)
  = (fate_changes this l1 ++ fate_changes this l2)%list.
Proof. apply omap_app. Qed.

Lemma fate_changes_event (this : card_ref) (d : Z) :
  fate_changes this
    [raiseEvent "onCardFateChanged" [("card", ACard this); ("fate", ANum d)]]
  = [d].
Proof.
  unfold fate_changes. cbn. rewrite Nat.eqb_refl. reflexivity.
Qed.

(** What a sequence of [modifyFate] calls adds to the log, and the fate it
    leaves. *)
Lemma modifyFate_each_log {BaseCard : Type} (this : card_ref)
    (amounts : list Z) (w : World BaseCard) :
  let w' := exec (modifyFate_each this amounts) w in
  exists added,
    game w' = (game w ++ added)%list
    /\ length added = length amounts
    /\ length (fate_changes this added) = length amounts
    /\ foldr Z.add 0 (fate_changes this added)
       = fate (cards w' this) - fate (cards w this)
    /\ (0 <= fate (cards w this) -> 0 <= fate (cards w' this))
    /\ (amounts <> [] -> 0 <= fate (cards w' this)).
Proof.
  revert w. induction amounts as [|amount rest IH]; intros w; cbv zeta.
  - exists []. cbn. rewrite app_nil_r.
    repeat split; [lia|trivial|congruence].
  - cbn [modifyFate_each]. rewrite exec_seq.
    destruct (modifyFate_world w this amount) as (Hc & _ & _ & Hl).
    cbv zeta in Hc, Hl.
    set (w1 := exec (modifyFate this amount) w) in *.
    destruct (IH w1) as (added & Hg & Hlen & Hlen' & Hsum & Hpos & _).
    cbv zeta in Hg, Hsum, Hpos.
    assert (H1 : 0 <= fate (cards w1 this)).
    { rewrite Hc. cbn.
      destruct (Z.ltb_spec (fate (cards w this) + amount) 0); lia. }
    eexists (_ :: added). split; [|split; [|split; [|split; [|split]]]].
    + rewrite Hg, Hl, <- app_assoc. reflexivity.
    + cbn. rewrite Hlen. reflexivity.
    + change (?x :: added) with ([x] ++ added)%list.
      rewrite fate_changes_app, fate_changes_event. cbn.
      rewrite Hlen'. reflexivity.
    + change (?x :: added) with ([x] ++ added)%list.
      rewrite fate_changes_app, fate_changes_event. cbn [app foldr].
      rewrite Hsum, Hc. cbn. lia.
    + intros _. apply Hpos, H1.
    + intros _. apply Hpos, H1.
Qed.

(** X8. However many times [modifyFate] is called on a card, and with
    whatever amounts, each call raises one event, the fate fields of the
    events add up to the change of the fate of the card, and the fate is
    not negative after the first call. *)
Theorem fate_events_account_for_fate {BaseCard : Type} (this : card_ref)
    (amounts : list Z) (w : World BaseCard) :
  let calls := calls_of (modifyFate_each this amounts) w in
  let w' := exec (modifyFate_each this amounts) w in
  length calls = length amounts
  /\ length (fate_changes this calls) = length amounts
  /\ fate (cards w this) + foldr Z.add 0 (fate_changes this calls)
     = fate (cards w' this)
  /\ (amounts <> [] -> 0 <= fate (cards w' this)).
Proof.
  cbv zeta. unfold calls_of.
  destruct (modifyFate_each_log this amounts w)
    as (added & Hg & Hlen & Hlen' & Hsum & _ & Hpos).
  cbv zeta in Hg, Hsum, Hpos. rewrite Hg, drop_app_length.
  repeat split; [exact Hlen|exact Hlen'|lia|exact Hpos].
Qed.

(** X9. Gaining fate and then spending the same amount restores the fate of
    a card; spending first and gaining after restores it only when the card
    held at least that much: otherwise the card ends with the amount. *)
Theorem fate_gain_spend {BaseCard : Type} (w : World BaseCard)
    (this : card_ref) (amount : Z) :
  0 <= fate (cards w this) ->
  0 <= amount ->
  fate (cards (exec (modifyFate this amount;;
                     modifyFate this (- amount)) w) this)
  = fate (cards w this)
  /\ fate (cards (exec (modifyFate this (- amount);;
                        modifyFate this amount) w) this)
     = Z.max (fate (cards w this)) amount.
Proof.
  intros Hf Ha. rewrite !exec_seq.
  destruct (modifyFate_world w this amount) as (Hc1 & _).
  destruct (modifyFate_world (exec (modifyFate this amount) w) this
              (- amount)) as (Hc2 & _).
  destruct (modifyFate_world w this (- amount)) as (Hd1 & _).
  destruct (modifyFate_world (exec (modifyFate this (- amount)) w) this
              amount) as (Hd2 & _).
  cbv zeta in *. rewrite Hc2, Hc1, Hd2, Hd1. cbn.
  split.
  - destruct (Z.ltb_spec (fate (cards w this) + amount) 0); [lia|].
    destruct (Z.ltb_spec (fate (cards w this) + amount + - amount) 0); lia.
  - destruct (Z.ltb_spec (fate (cards w this) + - amount) 0) as [H1|H1].
    + destruct (Z.ltb_spec (0 + amount) 0); lia.
    + destruct (Z.ltb_spec (fate (cards w this) + - amount + amount) 0); lia.
Qed.

(** The host holds 3 fate; 5 fate come and go, or go and come. *)
Lemma fate_gain_spend_witness :
  let w := Examples.conflict_world in
  0 <= fate (cards w 0%nat)
  /\ 0 <= 5
  /\ fate (cards (exec (modifyFate 0%nat 5;; modifyFate 0%nat (- 5)) w) 0%nat)
     = 3
  /\ fate (cards (exec (modifyFate 0%nat (- 5);; modifyFate 0%nat 5) w) 0%nat)
     = 5.
Proof.
  cbv zeta.
  assert (Hf : 0 <= fate (cards Examples.conflict_world 0%nat)).
  { vm_compute. discriminate. }
  assert (Ha : 0 <= 5) by lia.
  destruct (fate_gain_spend Examples.conflict_world 0%nat 5 Hf Ha)
    as [H1 H2].
  split; [exact Hf|]. split; [exact Ha|]. split; [exact H1|exact H2].
Defined.

(** ** Covert, over several calls *)

(** The world [useCovertToBypass] leaves. *)
Lemma useCovertToBypass_world {BaseCard : Type}
    (hasKeyword : BaseCard -> string -> bool)
    (w : World BaseCard) (this targetCard : card_ref) :
  let w' := exec (useCovertToBypass hasKeyword this targetCard) w in
  (canUseCovertToBypass hasKeyword this targetCard w = false ->
   useCovertToBypass hasKeyword this targetCard w = (false, w))
  /\
  (canUseCovertToBypass hasKeyword this targetCard w = true ->
   eval (useCovertToBypass hasKeyword this targetCard) w = true
   /\ this <> targetCard
   /\ cards w' targetCard = set_covert (Boolean true) (cards w targetCard)
   /\ cards w' this = set_covertTarget (Some targetCard) (cards w this)
   /\ (forall other, other <> this -> other <> targetCard ->
         cards w' other = cards w other)
   /\ players w' = players w
   /\ game w' = game w).
Proof.
  cbv zeta. split; intros Hcan.
  - run. rewrite Hcan. reflexivity.
  - assert (Hne : this <> targetCard).
    { intros ->. unfold canUseCovertToBypass, canBeBypassedByCovert in Hcan.
      destruct (isCovert hasKeyword targetCard w); discriminate. }
    run. rewrite Hcan. settle. repeat split.
    + exact Hne.
    + rewrite lookup_other by exact Hne. apply lookup_assigned.
    + rewrite (lookup_other _ targetCard this)
        by (intros E; apply Hne; symmetry; exact E).
      reflexivity.
    + intros other H1 H2.
      rewrite !lookup_other by (intros E; symmetry in E; contradiction).
      reflexivity.
Qed.

(** [useCovertToBypass] leaves the inherited state of every card as it
    was. *)
Lemma useCovertToBypass_base {BaseCard : Type}
    (hasKeyword : BaseCard -> string -> bool)
    (w : World BaseCard) (this targetCard r : card_ref) :
  base (cards (exec (useCovertToBypass hasKeyword this targetCard) w) r)
  = base (cards w r).
Proof.
  destruct (useCovertToBypass_world hasKeyword w this targetCard)
    as [Hno Hyes]. cbv zeta in Hyes.
  destruct (canUseCovertToBypass hasKeyword this targetCard w) eqn:Hcan.
  - destruct (Hyes eq_refl) as (_ & _ & Ht & Hs & Ho & _).
    destruct (decide (r = this)) as [->|H1]; [rewrite Hs; reflexivity|].
    destruct (decide (r = targetCard)) as [->|H2]; [rewrite Ht; reflexivity|].
    rewrite Ho by assumption. reflexivity.
  - unfold exec. rewrite (Hno eq_refl). reflexivity.
Qed.

(** X10. Who can bypass whom: no card can bypass itself, if [a] can bypass [b]
    then [b] cannot bypass [a], and a call to [useCovertToBypass], whatever
    it returns, does not change the answer for any pair of cards, so a
    target that was bypassed can be bypassed again. *)
Theorem covert_bypass_relation {BaseCard : Type}
    (hasKeyword : BaseCard -> string -> bool)
    (w : World BaseCard) (this targetCard a b : card_ref) :
  canUseCovertToBypass hasKeyword a a w = false
  /\ (canUseCovertToBypass hasKeyword a b w = true ->
      canUseCovertToBypass hasKeyword b a w = false)
  /\ canUseCovertToBypass hasKeyword a b
       (exec (useCovertToBypass hasKeyword this targetCard) w)
     = canUseCovertToBypass hasKeyword a b w.
Proof.
  unfold canUseCovertToBypass, canBeBypassedByCovert, isCovert.
  rewrite !useCovertToBypass_base.
  split; [|split].
  - destruct (hasKeyword (base (cards w a)) "covert"); reflexivity.
  - destruct (hasKeyword (base (cards w a)) "covert"),
             (hasKeyword (base (cards w b)) "covert");
      (discriminate || reflexivity).
  - reflexivity.
Qed.

(** Card 0 is covert, cards 1 and 2 are not. *)
Lemma covert_bypass_relation_witness :
  canUseCovertToBypass Examples.has 0%nat 1%nat Examples.covert_world = true
  /\ canUseCovertToBypass Examples.has 1%nat 0%nat Examples.covert_world
     = false
  /\ canUseCovertToBypass Examples.has 0%nat 1%nat
       (exec (useCovertToBypass Examples.has 0%nat 1%nat)
          Examples.covert_world)
     = true.
Proof.
  destruct (covert_bypass_relation Examples.has Examples.covert_world
              0%nat 1%nat 0%nat 1%nat) as (_ & Hasym & Hsame).
  split; [reflexivity|]. split; [exact (Hasym eq_refl)|].
  rewrite Hsame. reflexivity.
Defined.

(** X11. A covert card that bypasses one card and then another ends with the
    second as its covert target, while both cards keep their covert mark:
    the call neither refuses a second target nor clears the mark of the
    first.  After a successful call the card needs no covert target. *)
Theorem covert_second_target {BaseCard : Type}
    (hasKeyword : BaseCard -> string -> bool)
    (w : World BaseCard) (this first second : card_ref) :
  isCovert hasKeyword this w = true ->
  isCovert hasKeyword first w = false ->
  isCovert hasKeyword second w = false ->
  let w1 := exec (useCovertToBypass hasKeyword this first) w in
  let w2 := exec (useCovertToBypass hasKeyword this second) w1 in
  eval (useCovertToBypass hasKeyword this first) w = true
  /\ needsCovertTarget hasKeyword this w1 = false
  /\ eval (useCovertToBypass hasKeyword this second) w1 = true
  /\ covertTarget (cards w2 this) = Some second
  /\ covert (cards w2 first) = Boolean true
  /\ covert (cards w2 second) = Boolean true
  /\ needsCovertTarget hasKeyword this w2 = false.
Proof.
  intros Hs Hf Hn. cbv zeta.
  set (w1 := exec (useCovertToBypass hasKeyword this first) w).
  assert (Hcan1 : canUseCovertToBypass hasKeyword this first w = true).
  { unfold canUseCovertToBypass, canBeBypassedByCovert.
    rewrite Hs, Hf. reflexivity. }
  assert (Hcan2 : canUseCovertToBypass hasKeyword this second w1 = true).
  { unfold canUseCovertToBypass, canBeBypassedByCovert, isCovert, w1.
    rewrite !useCovertToBypass_base.
    unfold isCovert in Hs, Hn. rewrite Hs, Hn. reflexivity. }
  destruct (useCovertToBypass_world hasKeyword w this first) as [_ H1].
  destruct (useCovertToBypass_world hasKeyword w1 this second) as [_ H2].
  destruct (H1 Hcan1) as (He1 & Hne1 & Ht1 & Hs1 & Ho1 & _).
  destruct (H2 Hcan2) as (He2 & Hne2 & Ht2 & Hs2 & Ho2 & _).
  fold w1 in Ht1, Hs1, Ho1.
  set (w2 := exec (useCovertToBypass hasKeyword this second) w1) in *.
  assert (Hcov : forall w0, base (cards w0 this) = base (cards w this) ->
            isCovert hasKeyword this w0 = true).
  { intros w0 E. unfold isCovert in *. rewrite E. exact Hs. }
  repeat split.
  - exact He1.
  - unfold needsCovertTarget. rewrite Hs1. cbn.
    rewrite Hcov by (rewrite Hs1; reflexivity). reflexivity.
  - exact He2.
  - rewrite Hs2. reflexivity.
  - destruct (decide (first = second)) as [<-|Hfs].
    + rewrite Ht2. reflexivity.
    + rewrite Ho2, Ht1; [reflexivity| |exact Hfs].
      intros E. apply Hne1. symmetry. exact E.
  - rewrite Ht2. reflexivity.
  - unfold needsCovertTarget. rewrite Hs2. cbn.
    rewrite Hcov by (rewrite Hs2, Hs1; reflexivity). reflexivity.
Qed.

(** Card 0 is covert; it bypasses card 1, then card 2. *)
Lemma covert_second_target_witness :
  let w := Examples.covert_world in
  let w1 := exec (useCovertToBypass Examples.has 0%nat 1%nat) w in
  let w2 := exec (useCovertToBypass Examples.has 0%nat 2%nat) w1 in
  isCovert Examples.has 0%nat w = true
  /\ isCovert Examples.has 1%nat w = false
  /\ isCovert Examples.has 2%nat w = false
  /\ covertTarget (cards w2 0%nat) = Some 2%nat
  /\ covert (cards w2 1%nat) = Boolean true
  /\ covert (cards w2 2%nat) = Boolean true.
Proof.
  cbv zeta.
  destruct (covert_second_target Examples.has Examples.covert_world
              0%nat 1%nat 2%nat eq_refl eq_refl eq_refl)
    as (_ & _ & _ & H4 & H5 & H6 & _).
  repeat split; assumption.
Defined.

(** ** What every method keeps *)

Lemma resetForConflict_world {BaseCard : Type} (w : World BaseCard)
    (this : card_ref) :
  let w' := exec (resetForConflict this) w in
  cards w' this
  = set_inConflict false (set_stealth (Boolean false) (cards w this))
  /\ (forall other, other <> this -> cards w' other = cards w other).
Proof.
  cbv zeta.
  destruct (frames_resetForConflict (BaseCard := BaseCard) this w)
    as [_ Ho].
  split; [|exact Ho]. run. settle. reflexivity.
Qed.

(** Soundness only looks at the fate and the honor flags. *)
Lemma sound_same {BaseCard : Type} (c c' : DrawCard BaseCard) :
  fate c' = fate c -> isHonored c' = isHonored c ->
  isDishonored c' = isDishonored c -> sound c -> sound c'.
Proof.
  unfold sound, exclusive. intros -> -> ->. trivial.
Qed.

(** One call keeps every card sound. *)
Lemma perform_sound {BaseCard : Type}
    (hasKeyword : BaseCard -> string -> bool)
    (BaseCard_leavesPlay : BaseCard -> BaseCard)
    (w : World BaseCard) (this : card_ref) (m : Method) :
  (forall r, sound (cards w r)) ->
  forall r,
    sound (cards (exec (perform hasKeyword BaseCard_leavesPlay this m) w) r).
Proof.
  intros Hw r.
  assert (Hframe : forall (k : M BaseCard unit) (c' : DrawCard BaseCard),
            cards (exec k w) this = c' ->
            (forall other, other <> this ->
               cards (exec k w) other = cards w other) ->
            sound c' -> sound (cards (exec k w) r)).
  { intros k c' Hc Ho Hs. destruct (decide (r = this)) as [->|Hne].
    - rewrite Hc. exact Hs.
    - rewrite Ho by exact Hne. apply Hw. }
  destruct m as [| |amount|amount applying|amount applying| | |targetCard];
    cbn [perform].
  - destruct (honor_world w this) as (Hc & Ho & _).
    apply (Hframe _ _ Hc Ho). specialize (Hw this).
    destruct Hw as [Hf Hx]. unfold sound, exclusive, after_honor in *.
    destruct (isDishonored (cards w this)) eqn:D,
             (isHonored (cards w this)) eqn:H; cbn;
      rewrite ?D, ?H; (split; [exact Hf|intros [? ?]; discriminate]).
  - destruct (dishonor_world w this) as (Hc & Ho & _).
    apply (Hframe _ _ Hc Ho). specialize (Hw this).
    destruct Hw as [Hf Hx]. unfold sound, exclusive, after_dishonor in *.
    destruct (isDishonored (cards w this)) eqn:D,
             (isHonored (cards w this)) eqn:H; cbn;
      rewrite ?D, ?H; (split; [exact Hf|intros [? ?]; discriminate]).
  - destruct (modifyFate_world w this amount) as (Hc & Ho & _).
    apply (Hframe _ _ Hc Ho). destruct (Hw this) as [Hf Hx].
    split; [|exact Hx]. cbn.
    destruct (Z.ltb_spec (fate (cards w this) + amount) 0); lia.
  - destruct (modifyMilitarySkill_world w this amount applying)
      as (Hc & Ho & _).
    apply (Hframe _ _ Hc Ho). apply (sound_same (cards w this));
      [reflexivity..|apply Hw].
  - destruct (modifyPoliticalSkill_world w this amount applying)
      as (Hc & Ho & _).
    apply (Hframe _ _ Hc Ho). apply (sound_same (cards w this));
      [reflexivity..|apply Hw].
  - destruct (resetForConflict_world w this) as (Hc & Ho).
    apply (Hframe _ _ Hc Ho). apply (sound_same (cards w this));
      [reflexivity..|apply Hw].
  - destruct (leavesPlay_world hasKeyword BaseCard_leavesPlay w this)
      as (Hc & Ho & _).
    apply (Hframe _ _ Hc Ho). split; [cbn; lia|].
    intros [H _]. discriminate H.
  - rewrite exec_seq. change (exec (ret tt) ?x) with x.
    destruct (useCovertToBypass_world hasKeyword w this targetCard)
      as [Hno Hyes]. cbv zeta in Hyes.
    destruct (canUseCovertToBypass hasKeyword this targetCard w) eqn:Hcan.
    + destruct (Hyes eq_refl) as (_ & _ & Ht & Hs & Hother & _).
      destruct (decide (r = this)) as [->|H1];
        [rewrite Hs; apply (sound_same (cards w this));
           [reflexivity..|apply Hw]|].
      destruct (decide (r = targetCard)) as [->|H2];
        [rewrite Ht; apply (sound_same (cards w targetCard));
           [reflexivity..|apply Hw]|].
      rewrite Hother by assumption. apply Hw.
    + unfold exec. rewrite (Hno eq_refl). apply Hw.
Qed.

(** X12. No sequence of calls to the methods of the cards (honor, dishonor,
    modifyFate, the skill modifications, resetForConflict, leavesPlay,
    useCovertToBypass), on whatever cards, makes the fate of a card negative
    or a card both honored and dishonored, when no card was so before. *)
Theorem methods_keep_cards_sound {BaseCard : Type}
    (hasKeyword : BaseCard -> string -> bool)
    (BaseCard_leavesPlay : BaseCard -> BaseCard)
    (calls : list (card_ref * Method)) (w : World BaseCard) :
  (forall r, sound (cards w r)) ->
  forall r,
    sound (cards (exec (perform_all hasKeyword BaseCard_leavesPlay calls) w)
             r).
Proof.
  revert w. induction calls as [|[this m] rest IH]; intros w Hw r.
  - apply Hw.
  - cbn [perform_all]. rewrite exec_seq. apply IH.
    apply perform_sound, Hw.
Qed.

(** New cards are sound, and stay so through a few calls. *)
Lemma methods_keep_cards_sound_witness :
  let calls :=
    [(0%nat, DoModifyFate 2); (0%nat, DoHonor); (1%nat, DoDishonor);
     (0%nat, DoModifyFate (-7)); (0%nat, DoDishonor); (0%nat, DoLeavesPlay)] in
  let w := Examples.fresh_world "conflict" in
  (forall r, sound (cards w r))
  /\ forall r,
       sound (cards (exec (perform_all Examples.has Examples.keep calls) w) r).
Proof.
  cbv zeta.
  assert (Hw : forall r, sound (cards (Examples.fresh_world "conflict") r)).
  { intros r. split.
    - destruct r; vm_compute; discriminate.
    - intros [H _]. destruct r; vm_compute in H; discriminate H. }
  split; [exact Hw|].
  apply (methods_keep_cards_sound Examples.has Examples.keep), Hw.
Defined.

(** * Further properties of the card abilities *)

(** X13. Creeping Oblivion: whichever choice of the 'select' group was
    resolved, if its condition held then the 'cards' group gets a player,
    and the discard pile of that player is not empty: a legal choice never
    leads to an empty pile. *)
Theorem chosen_pile_is_not_empty {BaseCard : Type} (w : World BaseCard)
    (context : CreepingOblivion.Context) (s : CreepingOblivion.Select)
    (condition : CreepingOblivion.Context -> World BaseCard -> value) :
  let t := CreepingOblivion.setupCardAbilities BaseCard in
  In (CreepingOblivion.choice s, condition)
     (CreepingOblivion.choices (CreepingOblivion.select t)) ->
  truthy (condition context w) = true ->
  CreepingOblivion.selects context !! "select" = Some s ->
  exists p,
    CreepingOblivion.cards_player (CreepingOblivion.cards_target t) context w
    = CreepingOblivion.Returns (Some p)
    /\ discard (players w p) <> [].
Proof.
  cbv zeta. cbn [CreepingOblivion.setupCardAbilities CreepingOblivion.select
                 CreepingOblivion.choices CreepingOblivion.cards_target
                 CreepingOblivion.cards_player].
  intros Hin Hcond Hs. rewrite Hs.
  destruct Hin as [E|[E|[]]]; injection E as Hname <-; rewrite <- Hname.
  - exists (CreepingOblivion.player context). split; [reflexivity|].
    apply length_pos_nonempty. exact Hcond.
  - destruct (opponent (players w (CreepingOblivion.player context)))
      as [opp|]; [|discriminate].
    exists opp. split; [reflexivity|].
    apply length_pos_nonempty. exact Hcond.
Qed.

(** Player 0 chose 'Mine' with two cards in the discard pile. *)
Lemma chosen_pile_is_not_empty_witness :
  exists p,
    CreepingOblivion.cards_player
      (CreepingOblivion.cards_target
         (CreepingOblivion.setupCardAbilities Examples.Keywords))
      Examples.mine_context Examples.discard_world
    = CreepingOblivion.Returns (Some p)
    /\ discard (players Examples.discard_world p) <> [].
Proof.
  apply (chosen_pile_is_not_empty Examples.discard_world
           Examples.mine_context {| CreepingOblivion.choice := "Mine" |}
           (fun context w =>
              Boolean (0 <? Z.of_nat
                              (length (discard
                                 (players w
                                    (CreepingOblivion.player context))))))).
  - left. reflexivity.
  - reflexivity.
  - reflexivity.
Defined.

(** X14. Bear Flute: the search is for 'Ancient Bear' exactly when no
    creature in play passes the condition of the target, and has no card
    name otherwise.  So when the target is a creature in play that passes
    the condition, the message announces a heal and the search names no
    card; when no creature in play passes it and there is no target, the
    message announces the search and the search names 'Ancient Bear'. *)
Theorem bear_flute_heals_or_searches (context : BearFlute.Context) :
  let a := BearFlute.setupCardAbilities in
  let passes := BearFlute.cardCondition (BearFlute.action_target a) in
  let in_play := BearFlute.creaturesInPlay (BearFlute.game context) in
  exists properties,
    BearFlute.search_properties a context = Some properties
    /\ (BearFlute.cardName properties = Some "Ancient Bear"
        <-> forall c, In c in_play -> passes c = false)
    /\ (BearFlute.cardName properties = None
        <-> exists c, In c in_play /\ passes c = true)
    /\ (forall t, BearFlute.target context = Some t -> In t in_play ->
          passes t = true ->
          BearFlute.effectArgs a context
          = [BearFlute.Text "heal "; BearFlute.Named t]
          /\ BearFlute.cardName properties = None)
    /\ (BearFlute.target context = None ->
        (forall c, In c in_play -> passes c = false) ->
        BearFlute.effectArgs a context
        = [BearFlute.Text
             "search their deck and discard for any Ancient Bears"]
        /\ BearFlute.cardName properties = Some "Ancient Bear").
Proof.
  cbv zeta. eexists. split; [reflexivity|].
  cbn [BearFlute.setupCardAbilities BearFlute.action_target
       BearFlute.cardCondition BearFlute.effectArgs].
  set (bear := fun card => String.eqb (BearFlute.name card) "Ancient Bear").
  set (l := BearFlute.creaturesInPlay (BearFlute.game context)).
  assert (Hsome : existsb bear l = true
                  <-> exists c, In c l /\ bear c = true)
    by apply existsb_exists.
  assert (Hnone : existsb bear l = false
                  <-> forall c, In c l -> bear c = false).
  { split.
    - intros E c Hc. destruct (bear c) eqn:B; [|reflexivity].
      rewrite (proj2 Hsome) in E by (exists c; split; assumption).
      discriminate.
    - intros H. destruct (existsb bear l) eqn:E; [|reflexivity].
      destruct (proj1 Hsome eq_refl) as (c & Hc & B).
      rewrite (H c Hc) in B. discriminate. }
  destruct (existsb bear l) eqn:E; cbn [negb BearFlute.cardName].
  - split; [|split; [|split]].
    + split; [discriminate|]. intros H. apply Hnone in H. discriminate.
    + split; [intros _; apply Hsome; reflexivity|reflexivity].
    + intros t -> _ _. split; reflexivity.
    + intros _ H. apply Hnone in H. discriminate.
  - split; [|split; [|split]].
    + split; [intros _; apply Hnone; reflexivity|reflexivity].
    + split; [discriminate|]. intros H. apply Hsome in H. discriminate.
    + intros t _ Ht B. change (bear t = true) in B.
      rewrite (proj1 Hnone eq_refl t Ht) in B. discriminate.
    + intros -> _. split; reflexivity.
Qed.

(** * Further properties of the deck routes *)

(** X15. The deck list never shows how often a deck was used: every deck of
    the answer has its usageCount removed and a usage level of 0, 1, 2 or
    3; the list is empty when the service counts no deck, whatever it would
    find, and otherwise has one deck per deck found, with the same cards. *)
Theorem deck_list_hides_usage
    (getValueForSection : string -> string -> number)
    (getNumDecksForUser : Z) (findForUser : list Decks.Deck) :
  let answer :=
    Decks.get_decks getValueForSection getNumDecksForUser findForUser in
  (forall deck, In deck (Decks.decks answer) ->
     Decks.usageCount deck = Undefined
     /\ exists level, Decks.usageLevel deck = Number (Num level)
                      /\ 0 <= level <= 3)
  /\ (getNumDecksForUser <= 0 -> Decks.decks answer = [])
  /\ (0 < getNumDecksForUser ->
      map Decks.deck_cards (Decks.decks answer)
      = map Decks.deck_cards findForUser)
  /\ Decks.numDecks answer = getNumDecksForUser
  /\ Decks.success answer = true.
Proof.
  cbv zeta. unfold Decks.get_decks.
  cbn [Decks.decks Decks.numDecks Decks.success].
  split; [|split; [|split; [|split; reflexivity]]].
  - destruct (0 <? getNumDecksForUser); [|intros deck []].
    intros deck Hin. apply in_map_iff in Hin as (d & <- & _).
    split; [reflexivity|]. unfold Decks.project. cbn [Decks.usageLevel].
    eexists. split; [reflexivity|].
    repeat match goal with
           | |- context [if ?b then _ else _] => destruct b
           end; lia.
  - intros H. destruct (Z.ltb_spec 0 getNumDecksForUser); [lia|reflexivity].
  - intros H. destruct (Z.ltb_spec 0 getNumDecksForUser); [|lia].
    rewrite map_map. reflexivity.
Qed.

(** X16. With thresholds in increasing order, the usage level of a deck
    counts the thresholds its usage count exceeds; a deck with no usage
    count has level 0; a count over the upper threshold gives level 3
    whatever the other two thresholds are. *)
Theorem usage_level_counts_thresholds
    (getValueForSection : string -> string -> number)
    (lower middle upper : Z) (deck : Decks.Deck) :
  getValueForSection "lobby" "lowerDeckThreshold" = Num lower ->
  getValueForSection "lobby" "middleDeckThreshold" = Num middle ->
  getValueForSection "lobby" "upperDeckThreshold" = Num upper ->
  let level := Decks.usageLevel (Decks.project getValueForSection deck) in
  (forall n, Decks.usageCount deck = Number (Num n) ->
     (upper < n -> level = Number (Num 3))
     /\ (lower <= middle <= upper ->
         level = Number (Num (if n <=? lower then 0
                              else if n <=? middle then 1
                              else if n <=? upper then 2 else 3))))
  /\ (Decks.usageCount deck = Undefined -> level = Number (Num 0)).
Proof.
  intros Hl Hm Hu. cbv zeta. unfold Decks.project. cbn [Decks.usageLevel].
  rewrite Hl, Hm, Hu. split.
  - intros n ->. cbn [ToNumber gt]. split.
    + intros H. destruct (Z.ltb_spec upper n); [reflexivity|lia].
    + intros H.
      destruct (Z.ltb_spec lower n), (Z.ltb_spec middle n),
               (Z.ltb_spec upper n), (Z.leb_spec n lower),
               (Z.leb_spec n middle), (Z.leb_spec n upper);
        try reflexivity; lia.
  - intros ->. reflexivity.
Qed.

(** Thresholds 10, 50 and 100; the deck was used 60 times. *)
Lemma usage_level_counts_thresholds_witness :
  Examples.thresholds "lobby" "lowerDeckThreshold" = Num 10
  /\ Examples.thresholds "lobby" "middleDeckThreshold" = Num 50
  /\ Examples.thresholds "lobby" "upperDeckThreshold" = Num 100
  /\ Decks.usageLevel (Decks.project Examples.thresholds Examples.a_deck)
     = Number (Num 2).
Proof.
  destruct (usage_level_counts_thresholds Examples.thresholds 10 50 100
              Examples.a_deck eq_refl eq_refl eq_refl) as [H _].
  destruct (H 60 eq_refl) as [_ Hlevel].
  assert (Horder : 10 <= 50 <= 100) by lia.
  split; [reflexivity|]. split; [reflexivity|]. split; [reflexivity|].
  exact (Hlevel Horder).
Defined.

(** X17. GET /api/decks/:id sends a deck only to its owner: when the answer
    carries a deck, it is the deck stored under the id of the route and its
    owner is the user of the request; a missing, empty or unknown id is
    answered 404 and the deck of another user 401, both without a deck. *)
Theorem get_deck_only_to_owner
    (getById : option string -> option DeckApi.StoredDeck)
    (req : DeckApi.Request) :
  let reply := DeckApi.get_deck getById req in
  (forall success deck,
     DeckApi.sent reply = Some (DeckApi.OneDeck success deck) ->
     getById (DeckApi.params_id req) = Some deck
     /\ DeckApi.deck_username deck = DeckApi.username (DeckApi.user req)
     /\ DeckApi.status reply = 200 /\ success = true)
  /\ (DeckApi.missing (DeckApi.params_id req) = true
      \/ getById (DeckApi.params_id req) = None ->
      reply = {| DeckApi.status := 404;
                 DeckApi.sent :=
                   Some (DeckApi.Message None "No such deck" None) |})
  /\ (forall deck,
        DeckApi.missing (DeckApi.params_id req) = false ->
        getById (DeckApi.params_id req) = Some deck ->
        DeckApi.deck_username deck <> DeckApi.username (DeckApi.user req) ->
        reply = {| DeckApi.status := 401;
                   DeckApi.sent :=
                     Some (DeckApi.Message None "Unauthorized" None) |})
  /\ (forall deck,
        DeckApi.missing (DeckApi.params_id req) = false ->
        getById (DeckApi.params_id req) = Some deck ->
        DeckApi.deck_username deck = DeckApi.username (DeckApi.user req) ->
        reply = {| DeckApi.status := 200;
                   DeckApi.sent := Some (DeckApi.OneDeck true deck) |}).
Proof.
  cbv zeta. unfold DeckApi.get_deck.
  destruct (DeckApi.missing (DeckApi.params_id req)) eqn:Hid.
  - split; [intros ? ? H; discriminate H|].
    split; [reflexivity|]. split; intros deck H; discriminate H.
  - destruct (getById (DeckApi.params_id req)) as [d|] eqn:Hget.
    + destruct (String.eqb_spec (DeckApi.deck_username d)
                  (DeckApi.username (DeckApi.user req))) as [Hown|Hown];
        cbn [negb].
      * split; [|split; [|split]].
        -- intros success deck H. injection H as <- <-.
           repeat split; assumption.
        -- intros [H|H]; discriminate H.
        -- intros deck _ H Hne. injection H as <-. contradiction.
        -- intros deck _ H _. injection H as <-. reflexivity.
      * split; [|split; [|split]].
        -- intros success deck H. discriminate H.
        -- intros [H|H]; discriminate H.
        -- intros deck _ H _. reflexivity.
        -- intros deck _ H Heq. injection H as <-. contradiction.
    + split; [intros ? ? H; discriminate H|].
      split; [reflexivity|]. split; intros deck _ H; discriminate H.
Qed.

(** X18. DELETE /api/decks/:id deletes at most the deck of the route, and
    only when it exists and belongs to the user of the request; an unknown
    deck is answered 404 and the deck of another user 401, with nothing
    deleted. *)
Theorem delete_deck_only_own
    (getById : option string -> option DeckApi.StoredDeck)
    (req : DeckApi.Request) :
  let id := DeckApi.params_id req in
  let reply := fst (DeckApi.delete_deck getById req) in
  let calls := snd (DeckApi.delete_deck getById req) in
  (calls = [] \/ calls = [DeckApi.delete id])
  /\ (calls = [DeckApi.delete id]
      <-> exists deck, getById id = Some deck
            /\ DeckApi.deck_username deck
               = DeckApi.username (DeckApi.user req))
  /\ (calls = [DeckApi.delete id] <-> DeckApi.status reply = 200)
  /\ (getById id = None -> DeckApi.status reply = 404)
  /\ (forall deck, getById id = Some deck ->
        DeckApi.deck_username deck <> DeckApi.username (DeckApi.user req) ->
        DeckApi.status reply = 401).
Proof.
  cbv zeta. unfold DeckApi.delete_deck.
  destruct (getById (DeckApi.params_id req)) as [d|] eqn:Hget.
  - destruct (String.eqb_spec (DeckApi.deck_username d)
                (DeckApi.username (DeckApi.user req))) as [Hown|Hown];
      cbn [negb fst snd DeckApi.status].
    + split; [right; reflexivity|]. split; [|split; [|split]].
      * split; [intros _; exists d; split; [reflexivity|exact Hown]
               |reflexivity].
      * split; reflexivity.
      * discriminate.
      * intros deck H Hne. injection H as <-. contradiction.
    + split; [left; reflexivity|]. split; [|split; [|split]].
      * split; [discriminate|]. intros (deck & H & Heq).
        injection H as <-. contradiction.
      * split; discriminate.
      * discriminate.
      * reflexivity.
  - cbn [fst snd DeckApi.status].
    split; [left; reflexivity|]. split; [|split; [|split]].
    + split; [discriminate|]. intros (deck & H & _). discriminate H.
    + split; discriminate.
    + reflexivity.
    + intros deck H. discriminate H.
Qed.

(** X19. The two routes of the deck verifiers answer 403 and send nothing to
    a user without the canVerifyDecks permission, and store nothing.  For a
    verifier, POST /api/decks/:id/verify stores the deck of the route with
    its verified mark set, whoever owns it, with the same owner and cards,
    and removes the verification images only when their folder exists;
    every deck it stores is verified. *)
Theorem verify_deck_needs_permission
    (getById : option string -> option DeckApi.StoredDeck)
    (flagged : list DeckApi.StoredDeck) (existsSync : string -> bool)
    (req : DeckApi.Request) :
  let id := DeckApi.params_id req in
  let reply := fst (DeckApi.verify_deck getById existsSync req) in
  let calls := snd (DeckApi.verify_deck getById existsSync req) in
  (DeckApi.cannot_verify (DeckApi.user req) = true ->
   reply = {| DeckApi.status := 403; DeckApi.sent := None |}
   /\ calls = []
   /\ DeckApi.get_flagged flagged req
      = {| DeckApi.status := 403; DeckApi.sent := None |})
  /\ (DeckApi.cannot_verify (DeckApi.user req) = false ->
      getById id = None ->
      DeckApi.status reply = 404 /\ calls = [])
  /\ (forall deck,
        DeckApi.cannot_verify (DeckApi.user req) = false ->
        getById id = Some deck ->
        let stored := DeckApi.mark_verified id deck in
        DeckApi.status reply = 200
        /\ Decks.verified (DeckApi.content stored) = Boolean true
        /\ DeckApi.deck_username stored = DeckApi.deck_username deck
        /\ Decks.deck_cards (DeckApi.content stored)
           = Decks.deck_cards (DeckApi.content deck)
        /\ calls
           = DeckApi.update stored ::
             (if existsSync ("public/img/deck-verification/"
                             +:+ DeckApi.in_template id +:+ "/")
              then [DeckApi.rimraf_sync
                      ("public/img/deck-verification/"
                       +:+ DeckApi.in_template id)]
              else []))
  /\ (forall stored, In (DeckApi.update stored) calls ->
        truthy (Decks.verified (DeckApi.content stored)) = true).
Proof.
  cbv zeta. unfold DeckApi.verify_deck, DeckApi.get_flagged.
  destruct (DeckApi.cannot_verify (DeckApi.user req)) eqn:Hperm.
  - cbn [fst snd]. split; [intros _; repeat split|].
    split; [discriminate|]. split; [discriminate|]. intros stored [].
  - destruct (getById (DeckApi.params_id req)) as [d|] eqn:Hget.
    + split; [discriminate|]. split; [discriminate|]. split.
      * intros deck _ H. injection H as <-. cbv zeta.
        cbn [DeckApi.deck_id DeckApi.mark_verified].
        destruct (existsSync _); cbn [fst snd DeckApi.status];
          repeat split.
      * intros stored Hin.
        cbn [DeckApi.deck_id DeckApi.mark_verified] in Hin.
        destruct (existsSync _); cbn [fst snd app] in Hin.
        -- destruct Hin as [H|[H|[]]]; [|discriminate H].
           injection H as <-. reflexivity.
        -- destruct Hin as [H|[]]. injection H as <-. reflexivity.
    + cbn [fst snd DeckApi.status].
      split; [discriminate|]. split; [intros _ _; split; reflexivity|].
      split; [intros deck _ H; discriminate H|]. intros stored [].
Qed.

(** X20. POST /api/decks imports a deck under the name of the user of the
    request and under no other: it asks the service for nothing when the
    uuid is missing or empty, for one deck otherwise, and answers with a
    deck only when the service returned one. *)
Theorem post_deck_under_own_name (created : DeckApi.Created)
    (req : DeckApi.Request) :
  let reply := fst (DeckApi.post_deck created req) in
  let calls := snd (DeckApi.post_deck created req) in
  (DeckApi.missing (DeckApi.body_uuid req) = true ->
   calls = []
   /\ DeckApi.sent reply
      = Some (DeckApi.Message (Some false) "uuid must be specified" None))
  /\ (forall uuid, DeckApi.missing (DeckApi.body_uuid req) = false ->
        DeckApi.body_uuid req = Some uuid ->
        calls = [DeckApi.create (DeckApi.user req) uuid
                   (DeckApi.username (DeckApi.user req))])
  /\ (forall success deck,
        DeckApi.sent reply = Some (DeckApi.OneDeck success deck) ->
        created = DeckApi.Returned (Some deck) /\ success = true
        /\ DeckApi.missing (DeckApi.body_uuid req) = false)
  /\ DeckApi.status reply = 200.
Proof.
  cbv zeta. unfold DeckApi.post_deck.
  destruct (DeckApi.missing (DeckApi.body_uuid req)) eqn:Hid.
  - cbn [fst snd]. split; [intros _; split; reflexivity|].
    split; [discriminate|]. split; [intros ? ? H; discriminate H|].
    reflexivity.
  - destruct created as [message|[saved|]]; cbn [fst snd DeckApi.sent];
      (split; [discriminate|]);
      (split; [intros uuid _ ->; reflexivity|]);
      (split; [|reflexivity]); intros success deck H;
      try discriminate H.
    injection H as <- <-. repeat split.
Qed.

(** * Further properties of the profile form *)

(** X21. The starting values of the profile form belong to the module, not to
    a rendering: the email and the username are always those of the user
    last rendered, but the challonge key and subdomain and the game options
    of an earlier user stay in the form of a later user who has none;
    rendering without a user changes nothing, and rendering the same user
    again changes nothing more. *)
Theorem profile_values_outlive_user (values : Profile.InitialValues)
    (a b : Profile.User) :
  let shown := Profile.render (Some b) (Profile.render (Some a) values) in
  Profile.email shown = Profile.user_email b
  /\ Profile.username shown = Profile.user_username b
  /\ (forall c, Profile.challonge a = Some c -> Profile.challonge b = None ->
        Profile.challongeApiKey shown = Profile.key c
        /\ Profile.challongeApiSubdomain shown = Profile.subdomain c)
  /\ (forall options, Profile.optionSettings a = Some options ->
        Profile.optionSettings b = None ->
        Profile.gameOptions shown = options)
  /\ (forall c, Profile.challonge b = Some c ->
        Profile.challongeApiKey shown = Profile.key c
        /\ Profile.challongeApiSubdomain shown = Profile.subdomain c)
  /\ Profile.render None values = values
  /\ Profile.render (Some a) (Profile.render (Some a) values)
     = Profile.render (Some a) values.
Proof.
  cbv zeta. unfold Profile.render.
  destruct (Profile.challonge a) as [ca|], (Profile.challonge b) as [cb|],
           (Profile.optionSettings a) as [oa|],
           (Profile.optionSettings b) as [ob|];
    cbn; repeat split; intros; try discriminate;
    repeat match goal with
           | H : Some _ = Some _ |- _ => injection H as <-
           end; reflexivity.
Qed.

(** * Further properties of the enhancements route *)

Example enhance_group :
  Enhancements.match_enhancementRegex "Play: Enhance PTA. Deal 2 damage."
  = Some ["Enhance PTA."; "PTA"].
Proof. reflexivity. Qed.

Example enhance_second_line :
  Enhancements.match_enhancementRegex
    ("Enhance " +:+ String "010" "x. Enhance DD. Then.")
  = Some ["Enhance DD."; "DD"].
Proof. reflexivity. Qed.

Example enhance_leading_dot :
  Enhancements.match_enhancementRegex "Enhance .P. more"
  = Some ["Enhance .P."; ".P"].
Proof. reflexivity. Qed.

Example enhance_no_dot :
  Enhancements.match_enhancementRegex "Enhance PT" = None.
Proof. reflexivity. Qed.

Example enhance_counts :
  Enhancements.countGroup "PTA" 2 0 = 4
  /\ Enhancements.countGroup "PTA" (-1) 0 = 0.
Proof. split; reflexivity. Qed.

Section EnhancementsFacts.

Variable getAllCards : string -> option Enhancements.CardInfo.
Variable looselyEqual : Z -> string -> bool.

Lemma assignFirst_None (key : string) (l : list string)
    (cs : list Enhancements.DeckCard) :
  Enhancements.assignFirst looselyEqual key l cs = None
  <-> forall c, In c cs -> looselyEqual (Enhancements.dbId c) key = false.
Proof.
  induction cs as [|c cs IH]; cbn [Enhancements.assignFirst].
  - split; [intros _ c []|reflexivity].
  - destruct (looselyEqual (Enhancements.dbId c) key) eqn:E.
    + split; [discriminate|]. intros H.
      rewrite (H c) in E by (left; reflexivity). discriminate.
    + destruct (Enhancements.assignFirst looselyEqual key l cs) eqn:A.
      * split; [discriminate|]. intros H.
        assert (Hn := proj2 IH (fun c' Hc' => H c' (or_intror Hc'))).
        discriminate Hn.
      * split; [|reflexivity]. intros _ c' [<-|Hc']; [exact E|].
        apply (proj1 IH eq_refl), Hc'.
Qed.

Lemma assignFirst_identity (key : string) (l : list string)
    (cs cs' : list Enhancements.DeckCard) :
  Enhancements.assignFirst looselyEqual key l cs = Some cs' ->
  map card_identity cs' = map card_identity cs.
Proof.
  revert cs'. induction cs as [|c cs IH]; intros cs';
    cbn [Enhancements.assignFirst]; [discriminate|].
  destruct (looselyEqual (Enhancements.dbId c) key).
  - intros H. injection H as <-. reflexivity.
  - destruct (Enhancements.assignFirst looselyEqual key l cs) as [r|];
      [|discriminate].
    intros H. injection H as <-. cbn [map]. rewrite (IH r eq_refl).
    reflexivity.
Qed.

(** A card that no key names keeps its enhancements. *)
Lemma assignFirst_untouched (key : string) (l : list string)
    (cs cs' : list Enhancements.DeckCard) (c : Enhancements.DeckCard) :
  Enhancements.assignFirst looselyEqual key l cs = Some cs' ->
  In c cs -> looselyEqual (Enhancements.dbId c) key = false -> In c cs'.
Proof.
  revert cs'. induction cs as [|c0 cs IH]; intros cs';
    cbn [Enhancements.assignFirst]; [discriminate|].
  destruct (looselyEqual (Enhancements.dbId c0) key) eqn:E.
  - intros H [->|Hin] Hc; injection H as <-.
    + rewrite Hc in E. discriminate.
    + right. exact Hin.
  - destruct (Enhancements.assignFirst looselyEqual key l cs) as [r|];
      [|discriminate].
    intros H [->|Hin] Hc; injection H as <-.
    + left. reflexivity.
    + right. apply (IH r eq_refl Hin Hc).
Qed.

Lemma same_identity_same_keys (key : string)
    (cs cs' : list Enhancements.DeckCard) :
  map card_identity cs' = map card_identity cs ->
  (forall c, In c cs -> looselyEqual (Enhancements.dbId c) key = false) ->
  forall c, In c cs' -> looselyEqual (Enhancements.dbId c) key = false.
Proof.
  intros Hmap H c Hc.
  assert (Hi : In (card_identity c) (map card_identity cs)).
  { rewrite <- Hmap. apply in_map, Hc. }
  apply in_map_iff in Hi as (c0 & Heq & Hc0).
  unfold card_identity in Heq. injection Heq as _ Hdb _.
  rewrite <- Hdb. apply H, Hc0.
Qed.

(** The second loop throws exactly when a key names no card; otherwise it
    keeps the identity of the cards and counts what the body asks for. *)
Lemma assignAll_spec (entries : list (string * list (string * Z)))
    (cs : list Enhancements.DeckCard) (used : Z) :
  match Enhancements.assignAll looselyEqual entries cs used with
  | None =>
      exists key e, In (key, e) entries
        /\ forall c, In c cs -> looselyEqual (Enhancements.dbId c) key = false
  | Some (cs', used') =>
      map card_identity cs' = map card_identity cs
      /\ used' = used + requested_enhancements entries
      /\ (forall key e, In (key, e) entries ->
            exists c, In c cs /\ looselyEqual (Enhancements.dbId c) key = true)
      /\ (forall c, In c cs ->
            (forall key e, In (key, e) entries ->
               looselyEqual (Enhancements.dbId c) key = false) ->
            In c cs')
  end.
Proof.
  revert cs used. induction entries as [|[key e] rest IH]; intros cs used;
    cbn [Enhancements.assignAll].
  - split; [reflexivity|]. split; [cbn; lia|].
    split; [intros ? ? []|]. intros c Hc _. exact Hc.
  - destruct (Enhancements.assignFirst looselyEqual key
                (Enhancements.newEnhancements e) cs) as [cs1|] eqn:A.
    + pose proof (assignFirst_identity _ _ _ _ A) as Hid.
      specialize (IH cs1 (used + Z.of_nat
                            (length (Enhancements.newEnhancements e)))).
      destruct (Enhancements.assignAll looselyEqual rest cs1 _)
        as [[cs' used']|].
      * destruct IH as (Hmap & Hused & Hhit & Hkeep).
        split; [congruence|].
        split; [rewrite Hused; unfold requested_enhancements;
                cbn [foldr snd]; lia|].
        split.
        -- intros k e' [E|Hin].
           ++ injection E as <- <-.
              destruct (existsb (fun c => looselyEqual (Enhancements.dbId c) key)
                          cs) eqn:Ex.
              ** apply existsb_exists in Ex as (c & Hc & Hk).
                 exists c. split; assumption.
              ** assert (Hnone : Enhancements.assignFirst looselyEqual key
                                   (Enhancements.newEnhancements e) cs = None).
                 { apply assignFirst_None. intros c Hc.
                   destruct (looselyEqual (Enhancements.dbId c) key) eqn:K;
                     [|reflexivity].
                   assert (Ht : existsb
                             (fun c => looselyEqual (Enhancements.dbId c) key)
                             cs = true).
                   { apply existsb_exists. exists c. split; assumption. }
                   rewrite Ht in Ex. discriminate. }
                 rewrite Hnone in A. discriminate.
           ++ destruct (Hhit k e' Hin) as (c & Hc & Hk).
              assert (Hi : In (card_identity c) (map card_identity cs)).
              { rewrite <- Hid. apply in_map, Hc. }
              apply in_map_iff in Hi as (c0 & Heq & Hc0).
              exists c0. split; [exact Hc0|].
              unfold card_identity in Heq. injection Heq as _ Hdb _.
              rewrite Hdb. exact Hk.
        -- intros c Hc Hno. apply Hkeep.
           ++ apply (assignFirst_untouched _ _ _ _ _ A Hc).
              apply (Hno key e). left. reflexivity.
           ++ intros k e' Hin. apply (Hno k e'). right. exact Hin.
      * destruct IH as (k & e' & Hin & Hnone).
        exists k, e'. split; [right; exact Hin|].
        apply (same_identity_same_keys k cs1 cs); [|exact Hnone].
        symmetry. exact Hid.
    + exists key, e. split; [left; reflexivity|].
      exact (proj1 (assignFirst_None _ _ _) A).
Qed.

(** The first loop throws exactly when the card service lacks a card of the
    deck. *)
Lemma filterEnhance_spec (cs : list Enhancements.DeckCard) :
  match Enhancements.filterEnhance getAllCards cs with
  | None => exists c, In c cs /\ getAllCards (Enhancements.id c) = None
  | Some kept =>
      (forall c, In c cs -> getAllCards (Enhancements.id c) <> None)
      /\ forall c, In c kept -> In c cs
  end.
Proof.
  induction cs as [|c cs IH]; cbn [Enhancements.filterEnhance].
  - split; intros c [].
  - unfold Enhancements.mentionsEnhance.
    destruct (getAllCards (Enhancements.id c)) as [info|] eqn:G.
    + destruct (Enhancements.filterEnhance getAllCards cs) as [kept|].
      * destruct IH as [Hall Hsub]. split.
        -- intros c' [<-|Hc']; [congruence|apply Hall, Hc'].
        -- intros c' Hc'.
           destruct (match Enhancements.text info with
                     | Some EmptyString => false
                     | Some (String _ _ as t) =>
                         Enhancements.includes t "Enhance"
                     | None => false
                     end).
           ++ destruct Hc' as [<-|Hc']; [left; reflexivity|].
              right. apply Hsub, Hc'.
           ++ right. apply Hsub, Hc'.
      * destruct IH as (c' & Hc' & Hn). exists c'.
        split; [right; exact Hc'|exact Hn].
    + exists c. split; [left; reflexivity|exact G].
Qed.

Lemma countEnhancements_total (kept : list Enhancements.DeckCard)
    (total : Z) :
  (forall c, In c kept -> getAllCards (Enhancements.id c) <> None) ->
  exists granted,
    Enhancements.countEnhancements getAllCards kept total = Some granted.
Proof.
  revert total. induction kept as [|c kept IH]; intros total Hall;
    cbn [Enhancements.countEnhancements].
  - exists total. reflexivity.
  - destruct (getAllCards (Enhancements.id c)) as [info|] eqn:G;
      [|exfalso; apply (Hall c); [left; reflexivity|exact G]].
    assert (Hrest : forall c', In c' kept ->
                      getAllCards (Enhancements.id c') <> None).
    { intros c' Hc'. apply Hall. right. exact Hc'. }
    destruct (match Enhancements.text info with
              | Some t => Enhancements.match_enhancementRegex t
              | None => None
              end) as [[|whole [|group [|? ?]]]|]; apply IH, Hrest.
Qed.

End EnhancementsFacts.

(** X22. POST /api/decks/:id/enhancements stores at most one deck, and only
    with the success answer: the deck of the route, owned by the user of the
    request, with the same cards in the same order (same id, dbId and
    count), the cards that no key names as they were, when the body asks for
    at least as many enhancements as the texts of the cards grant and names
    at least as many cards as had enhancements. *)
Theorem enhancements_stored_only_when_valid
    (getById : option string -> option Enhancements.Deck)
    (getAllCards : string -> option Enhancements.CardInfo)
    (looselyEqual : Z -> string -> bool)
    (req : Enhancements.Request) (reply : Enhancements.Reply)
    (updates : list Enhancements.Deck) :
  Enhancements.post_enhancements getById getAllCards looselyEqual req
  = Enhancements.Replied reply updates ->
  (updates = [] \/ exists stored, updates = [stored])
  /\ (updates = [] ->
      forall message deckId,
        Enhancements.sent reply
        <> Enhancements.Message (Some true) message deckId)
  /\ (forall stored, In stored updates ->
        Enhancements.sent reply
        = Enhancements.Message (Some true) "Enhancements added successfully"
            (Enhancements.params_id req)
        /\ exists deck kept granted,
            getById (Enhancements.params_id req) = Some deck
            /\ Enhancements.deck_username deck
               = Enhancements.user_username req
            /\ Enhancements.deck_username stored
               = Enhancements.deck_username deck
            /\ map card_identity (Enhancements.cards stored)
               = map card_identity (Enhancements.cards deck)
            /\ (forall c, In c (Enhancements.cards deck) ->
                  (forall key e,
                     In (key, e) (Enhancements.body_enhancements req) ->
                     looselyEqual (Enhancements.dbId c) key = false) ->
                  In c (Enhancements.cards stored))
            /\ Enhancements.filterEnhance getAllCards
                 (Enhancements.cards deck) = Some kept
            /\ Enhancements.countEnhancements getAllCards kept 0
               = Some granted
            /\ granted
               <= requested_enhancements (Enhancements.body_enhancements req)
            /\ (length (List.filter
                          (fun c => bool_decide
                                      (is_Some (Enhancements.enhancements c)))
                          (Enhancements.cards deck))
                <= length (Enhancements.body_enhancements req))%nat).
Proof.
  unfold Enhancements.post_enhancements.
  destruct (getById (Enhancements.params_id req)) as [deck|] eqn:Hget.
  2:{ intros H. injection H as <- <-.
      split; [left; reflexivity|]. split; [intros _ ? ?; discriminate|].
      intros stored []. }
  destruct (String.eqb_spec (Enhancements.deck_username deck)
              (Enhancements.user_username req)) as [Hown|Hown]; cbn [negb].
  2:{ intros H. injection H as <- <-.
      split; [left; reflexivity|]. split; [intros _ ? ?; discriminate|].
      intros stored []. }
  destruct (Enhancements.filterEnhance getAllCards (Enhancements.cards deck))
    as [kept|] eqn:Hkept; [|discriminate].
  destruct (Enhancements.countEnhancements getAllCards kept 0)
    as [granted|] eqn:Hgranted; [|discriminate].
  pose proof (assignAll_spec looselyEqual
                (Enhancements.body_enhancements req)
                (Enhancements.cards deck) 0) as Hassign.
  destruct (Enhancements.assignAll looselyEqual
              (Enhancements.body_enhancements req)
              (Enhancements.cards deck) 0) as [[cards' used]|];
    [|discriminate].
  destruct Hassign as (Hmap & Hused & _ & Hkeep).
  destruct (Z.ltb_spec used granted) as [Hlt|Hge]; cbn [orb].
  { intros H. injection H as <- <-.
    split; [left; reflexivity|]. split; [intros _ ? ?; discriminate|].
    intros stored []. }
  destruct (Z.ltb_spec
              (Z.of_nat (length (Enhancements.body_enhancements req)))
              (Z.of_nat
                 (length (List.filter
                            (fun c => bool_decide
                                        (is_Some (Enhancements.enhancements c)))
                            (Enhancements.cards deck))))) as [Hlt|Hge'].
  { intros H. injection H as <- <-.
    split; [left; reflexivity|]. split; [intros _ ? ?; discriminate|].
    intros stored []. }
  intros H. injection H as <- <-.
  split; [right; eexists; reflexivity|]. split; [discriminate|].
  intros stored [<-|[]]. split; [reflexivity|].
  exists deck, kept, granted. cbn [Enhancements.deck_username
                                   Enhancements.cards].
  repeat split; try assumption; try reflexivity; lia.
Qed.

(** X23. The route ends in a TypeError, with nothing stored and no answer
    of its own, exactly when the deck exists and belongs to the user and
    either the card service lacks one of its cards or a key of the body
    names no card of the deck. *)
Theorem enhancements_route_throws
    (getById : option string -> option Enhancements.Deck)
    (getAllCards : string -> option Enhancements.CardInfo)
    (looselyEqual : Z -> string -> bool) (req : Enhancements.Request) :
  Enhancements.post_enhancements getById getAllCards looselyEqual req
  = Enhancements.TypeError
  <-> exists deck,
        getById (Enhancements.params_id req) = Some deck
        /\ Enhancements.deck_username deck = Enhancements.user_username req
        /\ ((exists c, In c (Enhancements.cards deck)
                       /\ getAllCards (Enhancements.id c) = None)
            \/ (exists key e,
                  In (key, e) (Enhancements.body_enhancements req)
                  /\ forall c, In c (Enhancements.cards deck) ->
                       looselyEqual (Enhancements.dbId c) key = false)).
Proof.
  unfold Enhancements.post_enhancements.
  destruct (getById (Enhancements.params_id req)) as [deck|] eqn:Hget.
  2:{ split; [discriminate|]. intros (d & H & _). discriminate H. }
  destruct (String.eqb_spec (Enhancements.deck_username deck)
              (Enhancements.user_username req)) as [Hown|Hown]; cbn [negb].
  2:{ split; [discriminate|]. intros (d & H & Heq & _).
      injection H as <-. contradiction. }
  pose proof (filterEnhance_spec getAllCards (Enhancements.cards deck))
    as Hfilter.
  destruct (Enhancements.filterEnhance getAllCards (Enhancements.cards deck))
    as [kept|].
  2:{ split; [|reflexivity]. intros _. exists deck.
      split; [reflexivity|]. split; [exact Hown|]. left. exact Hfilter. }
  destruct Hfilter as [Hall Hsub].
  destruct (countEnhancements_total getAllCards kept 0) as [granted ->].
  { intros c Hc. apply Hall, Hsub, Hc. }
  pose proof (assignAll_spec looselyEqual
                (Enhancements.body_enhancements req)
                (Enhancements.cards deck) 0) as Hassign.
  destruct (Enhancements.assignAll looselyEqual
              (Enhancements.body_enhancements req)
              (Enhancements.cards deck) 0) as [[cards' used]|].
  - destruct Hassign as (_ & _ & Hhit & _).
    split.
    + destruct ((used <? granted) || _); discriminate.
    + intros (d & H & _ & [(c & Hc & Hnone)|(key & e & Hin & Hmiss)]);
        injection H as <-.
      * exfalso. apply (Hall c Hc Hnone).
      * destruct (Hhit key e Hin) as (c & Hc & Hk).
        rewrite (Hmiss c Hc) in Hk. discriminate.
  - split; [|reflexivity]. intros _. exists deck.
    split; [reflexivity|]. split; [exact Hown|]. right. exact Hassign.
Qed.

(** The owner assigns two captures and two ambers to the two copies of the
    card under key 5. *)
Lemma enhancements_stored_only_when_valid_witness :
  let reply :=
    {| Enhancements.status := 200;
       Enhancements.sent :=
         Enhancements.Message (Some true) "Enhancements added successfully"
           (Some "d1") |} in
  Enhancements.post_enhancements Scenes.getById Scenes.getAllCards
    Scenes.looselyEqual Scenes.request
  = Enhancements.Replied reply [Scenes.stored]
  /\ exists deck kept granted,
       Scenes.getById (Some "d1") = Some deck
       /\ Enhancements.deck_username deck = "ada"
       /\ Enhancements.filterEnhance Scenes.getAllCards
            (Enhancements.cards deck) = Some kept
       /\ Enhancements.countEnhancements Scenes.getAllCards kept 0
          = Some granted
       /\ granted <= 4.
Proof.
  cbv zeta.
  assert (Hrun : Enhancements.post_enhancements Scenes.getById
                   Scenes.getAllCards Scenes.looselyEqual Scenes.request
                 = Enhancements.Replied
                     {| Enhancements.status := 200;
                        Enhancements.sent :=
                          Enhancements.Message (Some true)
                            "Enhancements added successfully" (Some "d1") |}
                     [Scenes.stored]).
  { vm_compute. reflexivity. }
  split; [exact Hrun|].
  destruct (enhancements_stored_only_when_valid _ _ _ _ _ _ Hrun)
    as (_ & _ & Hstored).
  destruct (Hstored Scenes.stored (or_introl eq_refl))
    as (_ & deck & kept & granted & Hget & Hown & _ & _ & _ & Hkept
        & Hgranted & Hle & _).
  exists deck, kept, granted.
  split; [exact Hget|]. split; [exact Hown|]. split; [exact Hkept|].
  split; [exact Hgranted|exact Hle].
Defined.
